(** * GetEmpStatus back end: the status pipeline, the retry executor and
      the cache-aside orchestrator, embedded from the TypeScript sources.

    Numbers are JavaScript numbers, that is IEEE-754 binary64 values, and are
    modelled by Rocq's primitive floats, whose operations round exactly as
    the JavaScript ones do.  Months and years are read from INTEGER columns
    (models/Salary.ts) and are modelled by [Z].  A number-valued property of
    a response is a number or [null], which is what a response read back
    from the cache holds where NaN or an infinity was written. *)

From Stdlib Require Import ZArith List Bool String Ascii Lia.
From Stdlib Require Import Floats Uint63.
From stdpp Require Import base option list gmap strings pretty.

Set Warnings "-inexact-float".
Local Open Scope Z_scope.

(* ------------------------------------------------------------------ *)
(** ** JavaScript numbers *)

Module Js.

Definition number := float.

(** [Math.max(a, b)]: NaN is contagious and [+0] is larger than [-0]. *)
Definition Math_max (a b : number) : number :=
  if (PrimFloat.is_nan a || PrimFloat.is_nan b)%bool then nan
  else if (a <? b)%float then b
  else if (b <? a)%float then a
  else if get_sign a then b else a.

(** [Math.min(a, b)]: NaN is contagious and [-0] is smaller than [+0]. *)
Definition Math_min (a b : number) : number :=
  if (PrimFloat.is_nan a || PrimFloat.is_nan b)%bool then nan
  else if (a <? b)%float then a
  else if (b <? a)%float then b
  else if get_sign a then a else b.

(** The [length] of an array, as a number. *)
Definition of_nat (n : nat) : number := of_uint63 (Uint63.of_Z (Z.of_nat n)).

(** Truthiness of a number: everything but [0], [-0] and [NaN]. *)
Definition truthy (x : number) : bool := negb (PrimFloat.is_zero x || PrimFloat.is_nan x).

(** The value of a property that holds a number or [null]. *)
Inductive nullable :=
  | Num (x : number)
  | Null.

End Js.

(* ------------------------------------------------------------------ *)
(** ** models/EmpInfo.ts: salary records *)

Record SalaryInfo := mkSalary {
  amount : Js.number;
  month : Z;
  year : Z
}.

Inductive EmpStatus := GREEN | ORANGE | RED.

(* ------------------------------------------------------------------ *)
(** ** utils/errors.ts: what a request can throw *)

Inductive ErrorClass :=
  | NotFoundError | NotAcceptableError | UnprocessableEntityError
  | BadRequestError | UnauthorizedError | InternalServerError.

Definition statusCode (c : ErrorClass) : Z :=
  match c with
  | NotFoundError => 404
  | NotAcceptableError => 406
  | UnprocessableEntityError => 422
  | BadRequestError => 400
  | UnauthorizedError => 401
  | InternalServerError => 500
  end.

(** A thrown value: one of the [ApiError] subclasses with its message, any
    other [Error], or [undefined] (what [throw lastError!] throws when no
    attempt was made, and what a promise rejected without a reason throws). *)
Inductive Thrown :=
  | ApiError (c : ErrorClass) (message : string)
  | OtherError (message : string)
  | Undefined.

Inductive Res (A : Type) :=
  | Ok (a : A)
  | Throw (e : Thrown).
Arguments Ok {A} a.
Arguments Throw {A} e.

(* ------------------------------------------------------------------ *)
(** ** validators/Validator.ts *)

(** A field of a request body, as far as the code looks at it: a key that
    is not there reads as [undefined]. *)
Inductive Field :=
  | FAbsent
  | FNull
  | FBool (b : bool)
  | FNumber (n : Js.number)
  | FString (s : string)
  | FObject.

Definition fieldTruthy (f : Field) : bool :=
  match f with
  | FAbsent | FNull => false
  | FBool b => b
  | FNumber n => Js.truthy n
  | FString s => negb (String.length s =? 0)%nat
  | FObject => true
  end.

(** [a || b] *)
Definition fieldOr (a b : Field) : Field := if fieldTruthy a then a else b.

(** The body of a request: a falsy value ([undefined], [null], [0], the
    empty string, [false]), another primitive with its number of own keys,
    or an object (or array) with the two fields the code reads and the
    number of its other keys. *)
Record BodyObject := {
  b_NationalNumber : Field;
  b_nationalNumber : Field;
  otherKeys : nat
}.

Inductive Body :=
  | BFalsy
  | BPrimitive (keys : nat)
  | BObject (o : BodyObject).

(** [body.NationalNumber || body.nationalNumber]; a primitive has neither. *)
Definition requestedNumber (body : Body) : Field :=
  match body with
  | BObject o => fieldOr (b_NationalNumber o) (b_nationalNumber o)
  | BFalsy | BPrimitive _ => FAbsent
  end.

(** [Object.keys(body).length] *)
Definition keyCount (body : Body) : nat :=
  match body with
  | BFalsy => 0
  | BPrimitive keys => keys
  | BObject o =>
      (match b_NationalNumber o with FAbsent => 0 | _ => 1 end
       + match b_nationalNumber o with FAbsent => 0 | _ => 1 end
       + otherKeys o)%nat
  end.

Module Validator.

(** Strings are sequences of code units below 256; of these,
    [String.prototype.trim] removes TAB, LF, VT, FF, CR, SP and NBSP. *)
Definition isWhitespace (c : ascii) : bool :=
  let n := nat_of_ascii c in
  ((9 <=? n) && (n <=? 13) || (n =? 32) || (n =? 160))%nat.

Fixpoint trimStart (s : list ascii) : list ascii :=
  match s with
  | c :: rest => if isWhitespace c then trimStart rest else s
  | [] => []
  end.

Definition trim (s : string) : list ascii :=
  rev (trimStart (rev (trimStart (list_ascii_of_string s)))).

(** [[A-Z]] under the [i] flag. *)
Definition isLetter (c : ascii) : bool :=
  let n := nat_of_ascii c in
  ((65 <=? n) && (n <=? 90) || (97 <=? n) && (n <=? 122))%nat.

(** [\d] *)
Definition isDigit (c : ascii) : bool :=
  let n := nat_of_ascii c in ((48 <=? n) && (n <=? 57))%nat.

(** [/^[A-Z]{3}\d{4}$/i.test(trimmed)] *)
Definition nationalNumberRegex (trimmed : list ascii) : bool :=
  match trimmed with
  | [l1; l2; l3; d1; d2; d3; d4] =>
      isLetter l1 && isLetter l2 && isLetter l3
      && isDigit d1 && isDigit d2 && isDigit d3 && isDigit d4
  | _ => false
  end.

Definition validateNationalNumber (nationalNumber : string) : bool :=
  if (String.length nationalNumber =? 0)%nat then false
  else
    let trimmed := trim nationalNumber in
    if (length trimmed =? 0)%nat then false
    else nationalNumberRegex trimmed.

Definition hasSufficientData (salaryCount : nat) : bool := (3 <=? salaryCount)%nat.

Definition isUserActive (isActive : bool) : bool := Bool.eqb isActive true.

Record ValidationResult := {
  isValid : bool;
  error : option string
}.

Fixpoint validateSalaryData (salaries : list SalaryInfo) : ValidationResult :=
  match salaries with
  | [] => {| isValid := true; error := None |}
  | salary :: rest =>
      if (amount salary <? 0)%float then
        {| isValid := false; error := Some "Invalid salary amount"%string |}
      else if (month salary <? 1) || (12 <? month salary) then
        {| isValid := false; error := Some "Invalid month value"%string |}
      else if year salary <? 2000 then
        {| isValid := false; error := Some "Invalid year value"%string |}
      else validateSalaryData rest
  end.

(** [validateNationalNumber] on a value of any type: only a string can
    pass the [typeof] test. *)
Definition validateNationalNumberOf (nationalNumber : Field) : bool :=
  match nationalNumber with
  | FString s => validateNationalNumber s
  | _ => false
  end.

Definition validateRequestBody (body : Body) : ValidationResult :=
  match body with
  | BFalsy =>
      {| isValid := false; error := Some "Request body is required"%string |}
  | BPrimitive _ =>
      {| isValid := false; error := Some "Request body must be a JSON object"%string |}
  | BObject o =>
      if negb (fieldTruthy (b_NationalNumber o)) && negb (fieldTruthy (b_nationalNumber o))
      then {| isValid := false; error := Some "NationalNumber field is required"%string |}
      else
        let nationalNumber := fieldOr (b_NationalNumber o) (b_nationalNumber o) in
        if negb (validateNationalNumberOf nationalNumber)
        then {| isValid := false; error := Some "Invalid NationalNumber format"%string |}
        else {| isValid := true; error := None |}
  end.

End Validator.

(* ------------------------------------------------------------------ *)
(** ** models/EmpInfo.ts: the employee object and the response shape *)

Record EmpInfo := mkEmpInfo {
  id : string;
  username : string;
  nationalNumber : option string;
  email : string;
  phone : string;
  isActive : bool;
  salaries : list SalaryInfo;
  adjustedSalaries : list SalaryInfo;
  totalSalary : Js.number;
  averageSalary : Js.number;
  highestSalary : Js.number;
  taxAmount : Js.number;
  status : option EmpStatus;
  lastUpdated : Z
}.

(** [new EmpInfo(...)]; [now] is the reading of the clock. *)
Definition newEmpInfo (id username : string) (nationalNumber : option string)
    (email phone : string) (isActive : bool) (now : Z) : EmpInfo :=
  {| id := id; username := username; nationalNumber := nationalNumber;
     email := email; phone := phone; isActive := isActive;
     salaries := []; adjustedSalaries := [];
     totalSalary := 0%float; averageSalary := 0%float;
     highestSalary := 0%float; taxAmount := 0%float;
     status := None; lastUpdated := now |}.

Definition setSalaries (v : list SalaryInfo) (e : EmpInfo) : EmpInfo :=
  mkEmpInfo (id e) (username e) (nationalNumber e) (email e) (phone e) (isActive e)
    v (adjustedSalaries e) (totalSalary e) (averageSalary e)
    (highestSalary e) (taxAmount e) (status e) (lastUpdated e).

Definition setAdjustedSalaries (v : list SalaryInfo) (e : EmpInfo) : EmpInfo :=
  mkEmpInfo (id e) (username e) (nationalNumber e) (email e) (phone e) (isActive e)
    (salaries e) v (totalSalary e) (averageSalary e)
    (highestSalary e) (taxAmount e) (status e) (lastUpdated e).

Definition setTotalSalary (v : Js.number) (e : EmpInfo) : EmpInfo :=
  mkEmpInfo (id e) (username e) (nationalNumber e) (email e) (phone e) (isActive e)
    (salaries e) (adjustedSalaries e) v (averageSalary e)
    (highestSalary e) (taxAmount e) (status e) (lastUpdated e).

Definition setAverageSalary (v : Js.number) (e : EmpInfo) : EmpInfo :=
  mkEmpInfo (id e) (username e) (nationalNumber e) (email e) (phone e) (isActive e)
    (salaries e) (adjustedSalaries e) (totalSalary e) v
    (highestSalary e) (taxAmount e) (status e) (lastUpdated e).

Definition setHighestSalary (v : Js.number) (e : EmpInfo) : EmpInfo :=
  mkEmpInfo (id e) (username e) (nationalNumber e) (email e) (phone e) (isActive e)
    (salaries e) (adjustedSalaries e) (totalSalary e) (averageSalary e)
    v (taxAmount e) (status e) (lastUpdated e).

Definition setTaxAmount (v : Js.number) (e : EmpInfo) : EmpInfo :=
  mkEmpInfo (id e) (username e) (nationalNumber e) (email e) (phone e) (isActive e)
    (salaries e) (adjustedSalaries e) (totalSalary e) (averageSalary e)
    (highestSalary e) v (status e) (lastUpdated e).

Definition setStatus (v : EmpStatus) (e : EmpInfo) : EmpInfo :=
  mkEmpInfo (id e) (username e) (nationalNumber e) (email e) (phone e) (isActive e)
    (salaries e) (adjustedSalaries e) (totalSalary e) (averageSalary e)
    (highestSalary e) (taxAmount e) (Some v) (lastUpdated e).

Definition updateTimestamp (now : Z) (e : EmpInfo) : EmpInfo :=
  mkEmpInfo (id e) (username e) (nationalNumber e) (email e) (phone e) (isActive e)
    (salaries e) (adjustedSalaries e) (totalSalary e) (averageSalary e)
    (highestSalary e) (taxAmount e) (status e) now.

Record SalaryResponse := {
  Amount : Js.nullable;
  Month : Z;
  Year : Z
}.

Record Response := {
  ID : string;
  Username : string;
  NationalNumber : option string;
  Email : string;
  Phone : string;
  IsActive : bool;
  Salaries : list SalaryResponse;
  TotalSalary : Js.nullable;
  AverageSalary : Js.nullable;
  HighestSalary : Js.nullable;
  TaxAmount : Js.nullable;
  Status : option EmpStatus;
  LastUpdated : Z
}.

Definition toResponse (e : EmpInfo) : Response :=
  {| ID := id e; Username := username e; NationalNumber := nationalNumber e;
     Email := email e; Phone := phone e; IsActive := isActive e;
     Salaries :=
       map (fun s => {| Amount := Js.Num (amount s); Month := month s; Year := year s |})
           (adjustedSalaries e);
     TotalSalary := Js.Num (totalSalary e); AverageSalary := Js.Num (averageSalary e);
     HighestSalary := Js.Num (highestSalary e); TaxAmount := Js.Num (taxAmount e);
     Status := status e; LastUpdated := lastUpdated e |}.

(* ------------------------------------------------------------------ *)
(** ** [JSON.stringify] and [JSON.parse], on responses

    The cache keeps the text [JSON.stringify] writes for a response and
    hands out what [JSON.parse] reads from it.  A text is modelled by the
    document it denotes.  Strings, booleans, [null] and integers are read
    back as they were written, and so is a finite number, whose text is the
    shortest decimal that reads back as the same binary64 value, but for
    [-0], which is written [0].  NaN and the two infinities are written
    [null]. *)

Module JSON.

Inductive text :=
  | Text (document : Response).

(** The number property read from the text written for [v]. *)
Definition number (v : Js.nullable) : Js.nullable :=
  match v with
  | Js.Num x =>
      if (PrimFloat.is_nan x || PrimFloat.is_infinity x)%bool then Js.Null
      else if PrimFloat.is_zero x then Js.Num 0%float
      else Js.Num x
  | Js.Null => Js.Null
  end.

Definition stringify (value : Response) : text :=
  Text
    {| ID := ID value; Username := Username value;
       NationalNumber := NationalNumber value;
       Email := Email value; Phone := Phone value; IsActive := IsActive value;
       Salaries :=
         map (fun s => {| Amount := number (Amount s); Month := Month s; Year := Year s |})
             (Salaries value);
       TotalSalary := number (TotalSalary value);
       AverageSalary := number (AverageSalary value);
       HighestSalary := number (HighestSalary value);
       TaxAmount := number (TaxAmount value);
       Status := Status value; LastUpdated := LastUpdated value |}.

Definition parse (serialized : text) : Response :=
  match serialized with
  | Text document => document
  end.

End JSON.

(* ------------------------------------------------------------------ *)
(** ** services/ProcessStatus.ts: the pure rule engine *)

Module ProcessStatus.

(** The guard of the December rule: [salary.month === 12]. *)
Definition isDecember (salary : SalaryInfo) : bool := month salary =? 12.

(** The guard of the summer rule:
    [salary.month >= 6 && salary.month <= 8]. *)
Definition isSummer (salary : SalaryInfo) : bool :=
  (6 <=? month salary) && (month salary <=? 8).

(** The arrow function mapped by [applyDecemberBonus]. *)
Definition decemberBonus (salary : SalaryInfo) : SalaryInfo :=
  if isDecember salary then
    {| amount := (amount salary * 1.10)%float;
       month := month salary; year := year salary |}
  else salary.

(** The arrow function mapped by [applySummerDeduction]. *)
Definition summerDeduction (salary : SalaryInfo) : SalaryInfo :=
  if isSummer salary then
    {| amount := (amount salary * 0.95)%float;
       month := month salary; year := year salary |}
  else salary.

Definition applyDecemberBonus (salaries : list SalaryInfo) : list SalaryInfo :=
  map decemberBonus salaries.

Definition applySummerDeduction (salaries : list SalaryInfo) : list SalaryInfo :=
  map summerDeduction salaries.

Definition applySalaryAdjustments (salaries : list SalaryInfo) : list SalaryInfo :=
  let adjusted := applyDecemberBonus salaries in
  let adjusted := applySummerDeduction adjusted in
  adjusted.

(** [salaries.reduce((sum, salary) => sum + salary.amount, 0)] *)
Definition calculateTotalSalary (salaries : list SalaryInfo) : Js.number :=
  fold_left (fun sum salary => (sum + amount salary)%float) salaries 0%float.

Definition calculateTax (totalSalary : Js.number) : Js.number :=
  if (10000 <? totalSalary)%float then (totalSalary * 0.07)%float
  else 0%float.

Definition calculateAverageSalary
    (totalSalary taxAmount salaryCount : Js.number) : Js.number :=
  if (salaryCount =? 0)%float then 0%float
  else
    let afterTax := (totalSalary - taxAmount)%float in
    (afterTax / salaryCount)%float.

(** [Math.max(...salaries.map(s => s.amount))]; [Math.max] of no argument
    is [-Infinity], which the guard on the length never lets through. *)
Definition findHighestSalary (salaries : list SalaryInfo) : Js.number :=
  if (length salaries =? 0)%nat then 0%float
  else fold_left Js.Math_max (map amount salaries) neg_infinity.

Definition determineStatus (averageSalary : Js.number) : EmpStatus :=
  if (5000 <=? averageSalary)%float then GREEN
  else if (3000 <=? averageSalary)%float then ORANGE
  else RED.

(** [processEmployeeStatus] works on the [EmpInfo] object it is given:
    the object is passed in, and its final state comes back with the
    outcome.  [now] is the clock reading taken by [updateTimestamp]. *)
Definition processEmployeeStatus (now : Z) (empInfo : EmpInfo)
    : Res unit * EmpInfo :=
  if negb (Validator.isUserActive (isActive empInfo)) then
    (Throw (ApiError NotAcceptableError "User is not active"), empInfo)
  else if negb (Validator.hasSufficientData (length (salaries empInfo))) then
    (Throw (ApiError UnprocessableEntityError
              "Insufficient salary data (minimum 3 records required)"),
     empInfo)
  else
    let salaryValidation := Validator.validateSalaryData (salaries empInfo) in
    if negb (Validator.isValid salaryValidation) then
      (Throw (ApiError BadRequestError
                match Validator.error salaryValidation with
                | Some m => if (String.length m =? 0)%nat
                            then "Invalid salary data"%string else m
                | None => "Invalid salary data"%string
                end),
       empInfo)
    else
      let adjustedSalaries := applySalaryAdjustments (salaries empInfo) in
      let empInfo := setAdjustedSalaries adjustedSalaries empInfo in
      let totalSalary := calculateTotalSalary adjustedSalaries in
      let empInfo := setTotalSalary totalSalary empInfo in
      let taxAmount := calculateTax totalSalary in
      let empInfo := setTaxAmount taxAmount empInfo in
      let averageSalary :=
        calculateAverageSalary totalSalary taxAmount
          (Js.of_nat (length adjustedSalaries)) in
      let empInfo := setAverageSalary averageSalary empInfo in
      let highestSalary := findHighestSalary adjustedSalaries in
      let empInfo := setHighestSalary highestSalary empInfo in
      let status := determineStatus averageSalary in
      let empInfo := setStatus status empInfo in
      let empInfo := updateTimestamp now empInfo in
      (Ok tt, empInfo).

End ProcessStatus.

(* ------------------------------------------------------------------ *)
(** ** The adjustment passes on the object store

    [Array.prototype.map] builds a new array; the callbacks of the two
    passes return either the very object they were given or a fresh object
    literal [{...salary, amount: ...}].  Here salary objects live in a store
    addressed by allocation order, an array is the list of the addresses of
    its elements, and the passes thread the store. *)

Module Store.

Abbreviation ref := nat.
Abbreviation heap := (list SalaryInfo).

(** An object literal allocates the next address. *)
Definition alloc (h : heap) (o : SalaryInfo) : heap * ref :=
  (h ++ [o], length h).

Definition decemberBonus (h : heap) (salary : ref) : heap * ref :=
  match h !! salary with
  | Some o =>
      if month o =? 12 then
        alloc h {| amount := (amount o * 1.10)%float;
                   month := month o; year := year o |}
      else (h, salary)
  | None => (h, salary)
  end.

Definition summerDeduction (h : heap) (salary : ref) : heap * ref :=
  match h !! salary with
  | Some o =>
      if (6 <=? month o) && (month o <=? 8) then
        alloc h {| amount := (amount o * 0.95)%float;
                   month := month o; year := year o |}
      else (h, salary)
  | None => (h, salary)
  end.

(** [arr.map(callback)] *)
Fixpoint array_map (callback : heap -> ref -> heap * ref)
    (h : heap) (arr : list ref) : heap * list ref :=
  match arr with
  | [] => (h, [])
  | r :: rest =>
      let '(h1, r') := callback h r in
      let '(h2, out) := array_map callback h1 rest in
      (h2, r' :: out)
  end.

Definition applyDecemberBonus := array_map decemberBonus.
Definition applySummerDeduction := array_map summerDeduction.

Definition applySalaryAdjustments (h : heap) (salaries : list ref)
    : heap * list ref :=
  let '(h, adjusted) := applyDecemberBonus h salaries in
  let '(h, adjusted) := applySummerDeduction h adjusted in
  (h, adjusted).

(** The records an array holds, read through the store. *)
Definition contents (h : heap) (arr : list ref) : list (option SalaryInfo) :=
  map (fun r => h !! r) arr.

End Store.

(* ------------------------------------------------------------------ *)
(** ** The world a request runs in

    The collaborators a request touches are explicit state: the log the
    [Logger] writes, the delays the retry executor has slept, the Redis
    client behind the [CacheHandler], and the number of calls the retried
    operation has received.  The clock is read, never written. *)

Inductive Level := Info | Warn | Error | Debug.

(** The Redis side.  [client] tells whether the client object exists,
    [isConnected] is the handler's flag, [failing] makes every command of
    the client reject.  An entry holds the expiration time in seconds and
    the text that was stored. *)
Record Redis := mkRedis {
  client : bool;
  isConnected : bool;
  failing : bool;
  store : gmap string (Z * JSON.text)
}.

Record World := mkWorld {
  clock : Z;
  logs : list (Level * string);
  slept : list Js.number;
  redis : Redis;
  calls : nat
}.

Definition M (A : Type) : Type := World -> Res A * World.

Definition ret {A} (a : A) : M A := fun w => (Ok a, w).

Definition throw {A} (e : Thrown) : M A := fun w => (Throw e, w).

Definition bind {A B} (m : M A) (k : A -> M B) : M B :=
  fun w =>
    match m w with
    | (Ok a, w') => k a w'
    | (Throw e, w') => (Throw e, w')
    end.

(** [try { m } catch (error) { handler }] *)
Definition try_catch {A} (m : M A) (handler : Thrown -> M A) : M A :=
  fun w =>
    match m w with
    | (Ok a, w') => (Ok a, w')
    | (Throw e, w') => handler e w'
    end.

Declare Scope m_scope.
Delimit Scope m_scope with M.
Notation "x <- m ;; k" := (bind m (fun x => k))
  (at level 20, m at level 99, k at level 200,
   format "'[' x  <-  m ;;  '/' k ']'") : m_scope.
Notation "m ;; k" := (bind m (fun _ => k))
  (at level 100, k at level 200, right associativity,
   format "'[' m ;;  '/' k ']'") : m_scope.
Local Open Scope m_scope.

(** [new Date()] / [Date.now()] *)
Definition now : M Z := fun w => (Ok (clock w), w).

(** What reading a property of [undefined] throws: a [TypeError], which is
    an [Error] and no [ApiError]; the text is the one Node gives. *)
Definition TypeError (property : string) : Thrown :=
  OtherError ("Cannot read properties of undefined (reading '" ++ property ++ "')").

(** [error.message] *)
Definition message (error : Thrown) : M string :=
  match error with
  | ApiError _ message => ret message
  | OtherError message => ret message
  | Undefined => throw (TypeError "message")
  end.

(** utils/logger.ts, as far as a request can tell: an entry is a level and
    a message; the metadata object of an entry, and the durations measured
    for it, are left out, but not what building it can throw: a caller that
    puts [error.message] in the metadata reads it before the entry is
    written. *)
Module Logger.

Definition log (l : Level) (message : string) : M unit :=
  fun w =>
    (Ok tt, mkWorld (clock w) (logs w ++ [(l, message)]) (slept w) (redis w) (calls w)).

Definition info := log Info.
Definition warn := log Warn.
Definition error := log Error.
Definition debug := log Debug.

End Logger.

(** An operation whose outcome is scripted by the number of calls it has
    received so far, the way a test double is: each call is counted. *)
Definition invoke {T} (script : nat -> Thrown + T) : M T :=
  fun w =>
    (match script (calls w) with inl e => Throw e | inr v => Ok v end,
     mkWorld (clock w) (logs w) (slept w) (redis w) (S (calls w))).

(* ------------------------------------------------------------------ *)
(** ** utils/cache.ts *)

Module CacheHandler.

Definition defaultTTL : Z := 3600.

(** The guard [!this.isConnected || !this.client] of every operation. *)
Definition unavailable (r : Redis) : bool := negb (isConnected r) || negb (client r).

Definition get (key : string) : M (option Response) :=
  fun w =>
    if unavailable (redis w) then
      (Logger.debug "Cache not available, skipping get";; ret None) w
    else if failing (redis w) then
      (Logger.error "Cache get error";; ret None) w
    else
      match store (redis w) !! key with
      | Some (_, value) =>
          (Logger.debug ("Cache HIT: " ++ key);; ret (Some (JSON.parse value))) w
      | None =>
          (Logger.debug ("Cache MISS: " ++ key);; ret None) w
      end.

(** [client.setEx(key, seconds, value)]: Redis rejects the command when
    the expiration time is not positive, and stores nothing then. *)
Definition setEx (key : string) (seconds : Z) (value : JSON.text) : M unit :=
  fun w =>
    let r := redis w in
    if seconds <=? 0 then
      (Throw (OtherError "ERR invalid expire time in 'setex' command"), w)
    else
      (Ok tt,
       mkWorld (clock w) (logs w) (slept w)
         (mkRedis (client r) (isConnected r) (failing r)
            (<[key := (seconds, value)]> (store r)))
         (calls w)).

Definition set (key : string) (value : Response) (ttl : option Z) : M unit :=
  fun w =>
    if unavailable (redis w) then
      Logger.debug "Cache not available, skipping set" w
    else if failing (redis w) then
      Logger.error "Cache set error" w
    else
      try_catch
        (let serialized := JSON.stringify value in
         let expirationTime :=
           match ttl with
           | Some t => if t =? 0 then defaultTTL else t
           | None => defaultTTL
           end in
         setEx key expirationTime serialized;;
         Logger.debug ("Cache SET: " ++ key ++ " (TTL: " ++ pretty expirationTime ++ "s)"))
        (fun error => _ <- message error;; Logger.error "Cache set error") w.

Definition getEmployeeKey (nationalNumber : string) : string :=
  "employee:" ++ nationalNumber.

(** [client.del(key)] *)
Definition del (key : string) : M unit :=
  fun w =>
    let r := redis w in
    (Ok tt,
     mkWorld (clock w) (logs w) (slept w)
       (mkRedis (client r) (isConnected r) (failing r) (base.delete key (store r)))
       (calls w)).

Definition delete (key : string) : M unit :=
  fun w =>
    if unavailable (redis w) then
      Logger.debug "Cache not available, skipping delete" w
    else if failing (redis w) then
      Logger.error "Cache delete error" w
    else
      (del key;; Logger.debug ("Cache DELETE: " ++ key)) w.

(** [client.flushDb()] *)
Definition flushDb : M unit :=
  fun w =>
    let r := redis w in
    (Ok tt,
     mkWorld (clock w) (logs w) (slept w)
       (mkRedis (client r) (isConnected r) (failing r) ∅)
       (calls w)).

Definition clear : M unit :=
  fun w =>
    if unavailable (redis w) then
      Logger.debug "Cache not available, skipping clear" w
    else if failing (redis w) then
      Logger.error "Cache clear error" w
    else
      (flushDb;; Logger.info "Cache cleared") w.

Definition isAvailable : M bool := fun w => (Ok (isConnected (redis w)), w).

End CacheHandler.

(* ------------------------------------------------------------------ *)
(** ** utils/retry.ts *)

Module RetryHandler.

Record RetryOptions := {
  opt_maxAttempts : option Z;
  opt_initialDelay : option Js.number;
  opt_maxDelay : option Js.number;
  opt_backoffMultiplier : option Js.number;
  opt_onRetry : option (Z -> Thrown -> M unit)
}.

Record RetryConfig := {
  maxAttempts : Z;
  initialDelay : Js.number;
  maxDelay : Js.number;
  backoffMultiplier : Js.number;
  onRetry : Z -> Thrown -> M unit
}.

Definition DEFAULT_OPTIONS : RetryConfig :=
  {| maxAttempts := 3;
     initialDelay := 1000%float;
     maxDelay := 10000%float;
     backoffMultiplier := 2%float;
     onRetry := fun attempt error =>
       _ <- message error;;
       Logger.warn ("Retry attempt " ++ pretty attempt) |}.

(** [{ ...DEFAULT_OPTIONS, ...options }] *)
Definition merge (options : RetryOptions) : RetryConfig :=
  {| maxAttempts := default (maxAttempts DEFAULT_OPTIONS) (opt_maxAttempts options);
     initialDelay := default (initialDelay DEFAULT_OPTIONS) (opt_initialDelay options);
     maxDelay := default (maxDelay DEFAULT_OPTIONS) (opt_maxDelay options);
     backoffMultiplier :=
       default (backoffMultiplier DEFAULT_OPTIONS) (opt_backoffMultiplier options);
     onRetry := default (onRetry DEFAULT_OPTIONS) (opt_onRetry options) |}.

(** [await this.delay(ms)] *)
Definition delay (ms : Js.number) : M unit :=
  fun w =>
    (Ok tt, mkWorld (clock w) (logs w) (slept w ++ [ms]) (redis w) (calls w)).

(** The [for] loop of [execute], from the iteration numbered [attempt]
    on, followed by the [throw lastError!] after the loop.  [fuel] counts
    the iterations left: [execute] starts at [attempt = 1] with
    [maxAttempts] of them, so that [fuel] is [0] exactly when
    [attempt <= maxAttempts] fails and the loop is left. *)
Fixpoint loop {T} (fn : M T) (config : RetryConfig) (fuel : nat)
    (attempt : Z) (delay_ : Js.number) (lastError : Thrown) : M T :=
  match fuel with
  | O => throw lastError
  | S fuel =>
      if attempt <=? maxAttempts config then
        try_catch
          (result <- fn;;
           (if 1 <? attempt
            then Logger.info ("Operation succeeded on attempt " ++ pretty attempt)
            else ret tt);;
           ret result)
          (fun error =>
             let lastError := error in
             if attempt =? maxAttempts config then
               _ <- message lastError;;
               Logger.error
                 ("All " ++ pretty (maxAttempts config) ++ " retry attempts failed");;
               throw lastError
             else
               onRetry config attempt lastError;;
               delay delay_;;
               let delay_ :=
                 Js.Math_min (delay_ * backoffMultiplier config)%float
                             (maxDelay config) in
               loop fn config fuel (attempt + 1) delay_ lastError)
      else throw lastError
  end.

Definition execute {T} (fn : M T) (options : RetryOptions) : M T :=
  let config := merge options in
  loop fn config (Z.to_nat (maxAttempts config)) 1 (initialDelay config) Undefined.

Definition wrapDatabaseQuery {T} (queryFn : M T) (queryName : string) : M T :=
  execute queryFn
    {| opt_maxAttempts := Some 3;
       opt_initialDelay := Some 500%float;
       opt_maxDelay := None;
       opt_backoffMultiplier := None;
       opt_onRetry := Some (fun attempt error =>
         _ <- message error;;
         Logger.warn ("Retrying database query: " ++ queryName)) |}.

End RetryHandler.

(* ------------------------------------------------------------------ *)
(** ** repositories/DataAccess.ts *)

(** The values a raw column can hand to [!!(...)]. *)
Inductive JsVal :=
  | JUndefined
  | JNull
  | JBool (b : bool)
  | JNumber (n : Js.number).

Definition truthy (v : JsVal) : bool :=
  match v with
  | JBool b => b
  | JNumber n => Js.truthy n
  | JUndefined | JNull => false
  end.

(** A raw row of [users]; a field the row lacks is [None] / [JUndefined]. *)
Record UserRow := {
  u_id : string;
  u_username : string;
  u_nationalNumber : option string;
  u_national_number : option string;
  u_email : string;
  u_phone : string;
  u_isActive : JsVal;
  u_is_active : JsVal
}.

(** The two queries behind the repository.  Each is indexed by the number
    of calls [getUserWithSalaries] has received before, so that a store can
    fail on some calls and answer on others; [None] is a rejected query. *)
Record Database := {
  findOne : nat -> string -> option (option UserRow);
  findAll : nat -> string -> option (list SalaryInfo)
}.

Module DataAccess.

Definition getUserByNationalNumber (db : Database) (call : nat)
    (nationalNumber : string) : Thrown + option UserRow :=
  match findOne db call nationalNumber with
  | Some user => inr user
  | None => inl (ApiError InternalServerError "Database error while fetching user")
  end.

Definition getSalariesByUserId (db : Database) (call : nat)
    (userId : string) : Thrown + list SalaryInfo :=
  match findAll db call userId with
  | Some salaries =>
      inr (map (fun s => {| amount := amount s; month := month s; year := year s |})
               salaries)
  | None => inl (ApiError InternalServerError "Database error while fetching salaries")
  end.

(** What the call numbered [call] of [getUserWithSalaries] gives. *)
Definition outcome (db : Database) (nationalNumber : string) (call : nat)
    : Thrown + option (UserRow * list SalaryInfo) :=
  match getUserByNationalNumber db call nationalNumber with
  | inl error => inl error
  | inr None => inr None
  | inr (Some user) =>
      match getSalariesByUserId db call (u_id user) with
      | inl error => inl error
      | inr salaries => inr (Some (user, salaries))
      end
  end.

Definition getUserWithSalaries (db : Database) (nationalNumber : string)
    : M (option (UserRow * list SalaryInfo)) :=
  invoke (outcome db nationalNumber).

End DataAccess.

(* ------------------------------------------------------------------ *)
(** ** services/EmployeeService.ts *)

Module EmployeeService.

(** [a || b] on two optional strings. *)
Definition or_else (a b : option string) : option string :=
  match a with
  | Some s => if (String.length s =? 0)%nat then b else a
  | None => b
  end.

(** [!!(user.isActive !== undefined ? user.isActive : user.is_active)] *)
Definition activeFlag (user : UserRow) : bool :=
  truthy (match u_isActive user with
          | JUndefined => u_is_active user
          | v => v
          end).

Section WithDatabase.

Variable dataAccess : Database.

Definition getEmployeeStatus (nationalNumber : string) : M Response :=
  Logger.info "Processing employee status request";;
  if negb (Validator.validateNationalNumber nationalNumber) then
    Logger.warn "Invalid national number format";;
    throw (ApiError BadRequestError
             "Invalid NationalNumber format. Expected format: NAT1001")
  else
    let cacheKey := CacheHandler.getEmployeeKey nationalNumber in
    cachedData <- CacheHandler.get cacheKey;;
    match cachedData with
    | Some cachedData =>
        Logger.info "Employee data retrieved from cache";;
        ret cachedData
    | None =>
        data <- RetryHandler.wrapDatabaseQuery
                  (DataAccess.getUserWithSalaries dataAccess nationalNumber)
                  ("getUserWithSalaries(" ++ nationalNumber ++ ")");;
        match data with
        | None =>
            Logger.warn "User not found";;
            throw (ApiError NotFoundError
                     ("User with NationalNumber '" ++ nationalNumber ++ "' not found"))
        | Some (user, salaries) =>
            Logger.debug "User data fetched successfully";;
            created <- now;;
            let empInfo :=
              newEmpInfo (u_id user) (u_username user)
                (or_else (u_nationalNumber user) (u_national_number user))
                (u_email user) (u_phone user) (activeFlag user) created in
            let empInfo := setSalaries salaries empInfo in
            updated <- now;;
            match ProcessStatus.processEmployeeStatus updated empInfo with
            | (Throw e, _) => throw e
            | (Ok _, processedEmpInfo) =>
                Logger.debug "Employee status processed";;
                let response := toResponse processedEmpInfo in
                CacheHandler.set cacheKey response (Some 3600);;
                Logger.info "Employee status request completed";;
                ret response
            end
        end
    end.

End WithDatabase.

Definition invalidateCache (nationalNumber : string) : M unit :=
  let cacheKey := CacheHandler.getEmployeeKey nationalNumber in
  CacheHandler.delete cacheKey;;
  Logger.info "Cache invalidated".

End EmployeeService.
(* ------------------------------------------------------------------ *)
(** ** The HTTP side of [POST /api/GetEmpStatus]

    A request as the handlers read it, and the answer they send. *)

Record Request := {
  method : string;
  path : string;
  contentType : option string;
  body : Body
}.

Record ErrorResponse := {
  er_status : string;
  er_message : string;
  er_statusCode : Z;
  er_timestamp : Z;
  er_path : option string;
  er_stack : option Thrown
}.

Inductive Payload :=
  | Success (result : Response)
  | Failure (errorResponse : ErrorResponse).

(** [res.status(httpStatus).json(payload)] *)
Record HttpResponse := {
  httpStatus : Z;
  payload : Payload
}.

(** *** middlewares/validation.ts *)

Module Validation.

(** [s.includes(sub)] *)
Definition includes (s sub : string) : bool :=
  match String.index 0 sub s with
  | Some _ => true
  | None => false
  end.

Definition validateJsonContentType (req : Request) : M unit :=
  if String.eqb (method req) "GET" then ret tt
  else
    match contentType req with
    | Some contentType =>
        if (String.length contentType =? 0)%nat
           || negb (includes contentType "application/json")
        then throw (ApiError BadRequestError "Content-Type must be application/json")
        else ret tt
    | None => throw (ApiError BadRequestError "Content-Type must be application/json")
    end.

Definition validateRequestBody (req : Request) : M unit :=
  if String.eqb (method req) "GET" then ret tt
  else
    match body req with
    | BFalsy => throw (ApiError BadRequestError "Request body cannot be empty")
    | b =>
        if (keyCount b =? 0)%nat
        then throw (ApiError BadRequestError "Request body cannot be empty")
        else ret tt
    end.

End Validation.

(** *** controllers/EmployeeController.ts *)

Module EmployeeController.

(** [employeeService.getEmployeeStatus(nationalNumber)] for a value of any
    type: what is not a string fails the service's own format check. *)
Definition getEmployeeStatusOf (db : Database) (nationalNumber : Field) : M Response :=
  match nationalNumber with
  | FString s => EmployeeService.getEmployeeStatus db s
  | _ =>
      Logger.info "Processing employee status request";;
      Logger.warn "Invalid national number format";;
      throw (ApiError BadRequestError
               "Invalid NationalNumber format. Expected format: NAT1001")
  end.

(** The [try] block of [getEmpStatus]: its result is sent with status 200,
    what it throws goes to [next]. *)
Definition getEmpStatus (db : Database) (req : Request) : M Response :=
  let validation := Validator.validateRequestBody (body req) in
  if negb (Validator.isValid validation) then
    throw (ApiError BadRequestError (default "Bad request"%string (Validator.error validation)))
  else
    let nationalNumber := requestedNumber (body req) in
    getEmployeeStatusOf db nationalNumber.

End EmployeeController.

(** *** middlewares/errorHandler.ts *)

(** An error that reached the error handler: an [ApiError] or another
    [Error]. *)
Inductive Caught :=
  | CaughtApi (c : ErrorClass) (message : string)
  | CaughtError (message : string).

Definition thrownOf (err : Caught) : Thrown :=
  match err with
  | CaughtApi c message => ApiError c message
  | CaughtError message => OtherError message
  end.

(** [isOperational]: true by default, false for [InternalServerError]. *)
Definition isOperational (c : ErrorClass) : bool :=
  match c with
  | InternalServerError => false
  | _ => true
  end.

(** [development] tells whether [NODE_ENV] is ['development']; the stack
    sent is then that of the error. *)
Definition errorHandler (development : bool) (err : Caught) (req : Request)
    : M HttpResponse :=
  let '(statusCode_, message, operational) :=
    match err with
    | CaughtApi c message => (statusCode c, message, isOperational c)
    | CaughtError message => (500, message, false)
    end in
  timestamp <- now;;
  let errorResponse :=
    {| er_status := "error"; er_message := message; er_statusCode := statusCode_;
       er_timestamp := timestamp; er_path := Some (path req);
       er_stack := if development then Some (thrownOf err) else None |} in
  (if negb operational then
     Logger.error ("Error in " ++ method req ++ " " ++ path req ++ ": " ++ message)
   else
     Logger.warn ("Operational Error [" ++ pretty statusCode_ ++ "]: " ++ message));;
  ret {| httpStatus := statusCode_; payload := Failure errorResponse |}.

Definition notFoundHandler (req : Request) : M HttpResponse :=
  timestamp <- now;;
  ret {| httpStatus := 404;
         payload := Failure
           {| er_status := "error";
              er_message := "Route " ++ method req ++ " " ++ path req ++ " not found";
              er_statusCode := 404; er_timestamp := timestamp;
              er_path := None; er_stack := None |} |}.

(** *** routes/api.ts

    The chain of the route: the two validation middlewares, then the
    controller.  What any of them throws goes to [next]: an error reaches
    [errorHandler], and [next(undefined)] is no error, so the request falls
    through to [notFoundHandler]. *)
Definition postGetEmpStatus (db : Database) (development : bool) (req : Request)
    : M HttpResponse :=
  fun w =>
    match (Validation.validateJsonContentType req;;
           Validation.validateRequestBody req;;
           EmployeeController.getEmpStatus db req) w with
    | (Ok result, w') => (Ok {| httpStatus := 200; payload := Success result |}, w')
    | (Throw (ApiError c message), w') =>
        errorHandler development (CaughtApi c message) req w'
    | (Throw (OtherError message), w') =>
        errorHandler development (CaughtError message) req w'
    | (Throw Undefined, w') => notFoundHandler req w'
    end.

(** *** middlewares/auth: [JWTAuth.extractToken] *)

Module JWTAuth.

(** [s.split(' ')] *)
Fixpoint split (s : string) : list string :=
  match s with
  | EmptyString => [EmptyString]
  | String c rest =>
      if Ascii.eqb c " " then EmptyString :: split rest
      else
        match split rest with
        | part :: parts => String c part :: parts
        | [] => [String c EmptyString]
        end
  end.

Definition extractToken (authHeader : option string) : option string :=
  match authHeader with
  | None => None
  | Some authHeader =>
      if (String.length authHeader =? 0)%nat then None
      else
        let parts := split authHeader in
        match parts with
        | [part0; part1] => if String.eqb part0 "Bearer" then Some part1 else None
        | [part0] => Some part0
        | _ => None
        end
  end.

End JWTAuth.

(* ------------------------------------------------------------------ *)
(** ** Vocabulary of the statements *)

(** What one element of the result owes to the element it comes from:
    [r] held [o] before the pass, [r'] holds [f o] after it, and [r'] is
    [r] itself or an address that did not exist before. *)
Definition derived (f : SalaryInfo -> SalaryInfo) (h h' : Store.heap) (r r' : Store.ref) : Prop :=
  exists o, h !! r = Some o /\ h' !! r' = Some (f o) /\ (r' = r \/ (length h <= r')%nat).

(** A callback that only allocates, and computes [f]. *)
Definition allocates (f : SalaryInfo -> SalaryInfo)
    (callback : Store.heap -> Store.ref -> Store.heap * Store.ref) : Prop :=
  forall (h : Store.heap) (r : Store.ref) (o : SalaryInfo),
    h !! r = Some o ->
    exists created r',
      callback h r = (h ++ created, r') /\ derived f h (h ++ created) r r'.

(** The outcome of at most [fuel] attempts at an operation scripted by
    [script] that has been called [c] times, and the number of calls made. *)
Fixpoint attempts {T} (script : nat -> Thrown + T) (c fuel : nat)
    (lastError : Thrown) : Res T * nat :=
  match fuel with
  | O => (Throw lastError, O)
  | S fuel =>
      match script c with
      | inr v => (Ok v, 1%nat)
      | inl e =>
          match fuel with
          | O => (Throw e, 1%nat)
          | S _ => let '(r, n) := attempts script (S c) fuel e in (r, S n)
          end
      end
  end.

(** An operation whose failures are errors: it never rejects with
    [undefined]. *)
Definition failsWithErrors {T} (script : nat -> Thrown + T) : Prop :=
  forall call, script call <> inl Undefined.

(** An observer: a callback that, given an error, returns normally and
    writes to the log only. *)
Definition log_only (callback : Z -> Thrown -> M unit) : Prop :=
  forall attempt error w,
    error <> Undefined ->
    exists l, callback attempt error w
              = (Ok tt, mkWorld (clock w) l (slept w) (redis w) (calls w)).

(** The employee object [getEmployeeStatus] builds from a fetched row. *)
Definition built (user : UserRow) (salaries : list SalaryInfo) (now : Z) : EmpInfo :=
  setSalaries salaries
    (newEmpInfo (u_id user) (u_username user)
       (EmployeeService.or_else (u_nationalNumber user) (u_national_number user))
       (u_email user) (u_phone user) (EmployeeService.activeFlag user) now).

(** The place of a binary64 value in the order of the comparisons: none for
    NaN, and for the others a triple compared lexicographically (the two
    zeros share a place). *)
Definition rank (x : spec_float) : option (Z * Z * Z) :=
  match x with
  | S754_nan => None
  | S754_infinity true => Some (-2, 0, 0)
  | S754_infinity false => Some (2, 0, 0)
  | S754_zero _ => Some (0, 0, 0)
  | S754_finite true m e => Some (-1, - e, Z.neg m)
  | S754_finite false m e => Some (1, e, Z.pos m)
  end.

Definition lex_lt (a b : Z * Z * Z) : Prop :=
  a.1.1 < b.1.1 \/
  (a.1.1 = b.1.1 /\ (a.1.2 < b.1.2 \/ (a.1.2 = b.1.2 /\ a.2 < b.2))).

Definition lex_le (a b : Z * Z * Z) : Prop := lex_lt a b \/ a = b.

(** The statuses, from worst to best. *)
Definition statusRank (s : EmpStatus) : Z :=
  match s with
  | RED => 0
  | ORANGE => 1
  | GREEN => 2
  end.

(** What [validateSalaryData] asks of one record. *)
Definition wellShaped (s : SalaryInfo) : Prop :=
  (amount s <? 0)%float = false /\ 1 <= month s <= 12 /\ 2000 <= year s.

(** The first [n] delays of the backoff that starts at [d]. *)
Fixpoint backoff (n : nat) (d multiplier cap : Js.number) : list Js.number :=
  match n with
  | O => []
  | S n => d :: backoff n (Js.Math_min (d * multiplier)%float cap) multiplier cap
  end.

(** The delays slept during at most [fuel] attempts at an operation
    scripted by [script] that has been called [c] times. *)
Fixpoint pauses {T} (script : nat -> Thrown + T) (c fuel : nat)
    (d multiplier cap : Js.number) : list Js.number :=
  match fuel with
  | O => []
  | S fuel =>
      match script c with
      | inr _ => []
      | inl _ =>
          match fuel with
          | O => []
          | S _ =>
              d :: pauses script (S c) fuel
                     (Js.Math_min (d * multiplier)%float cap) multiplier cap
          end
      end
  end.

(** The operation fails [k] times from call [c] on and then answers [v]. *)
Definition succeeds_after {T} (script : nat -> Thrown + T) (c k : nat) (v : T) : Prop :=
  (forall j, (c <= j < c + k)%nat -> exists e, script j = inl e) /\
  script (c + k)%nat = inr v.

(** A number property that is read from the cache as it was written:
    [null], or a number that is finite and is not [-0]. *)
Definition plainNumber (v : Js.nullable) : Prop :=
  match v with
  | Js.Num x =>
      PrimFloat.is_nan x = false /\ PrimFloat.is_infinity x = false /\
      (PrimFloat.is_zero x = true -> x = 0%float)
  | Js.Null => True
  end.

(** A response all of whose number properties are plain. *)
Definition plain (response : Response) : Prop :=
  Forall (fun s => plainNumber (Amount s)) (Salaries response) /\
  plainNumber (TotalSalary response) /\ plainNumber (AverageSalary response) /\
  plainNumber (HighestSalary response) /\ plainNumber (TaxAmount response).

(** The expiration time [set] asks for: [ttl || this.defaultTTL]. *)
Definition expiration (ttl : option Z) : Z :=
  match ttl with
  | Some t => if t =? 0 then 3600 else t
  | None => 3600
  end.

(** The cache is up: the client exists, is connected and answers. *)
Definition cacheUp (r : Redis) : Prop :=
  isConnected r = true /\ client r = true /\ failing r = false.

(** The world with a cache that is up and empty. *)
Definition cold (w : World) : World :=
  mkWorld (clock w) (logs w) (slept w) (mkRedis true true false ∅) (calls w).

(** The request announces JSON: [Content-Type] is there, not empty, and
    contains [application/json]. *)
Definition jsonContent (req : Request) : bool :=
  match contentType req with
  | Some ct => negb (String.length ct =? 0)%nat && Validation.includes ct "application/json"
  | None => false
  end.

(** What a refusal with status 400 looks like. *)
Definition refusal (development : bool) (req : Request) (message : string) (at_ : Z)
    : HttpResponse :=
  {| httpStatus := 400;
     payload := Failure
       {| er_status := "error"; er_message := message; er_statusCode := 400;
          er_timestamp := at_; er_path := Some (path req);
          er_stack := if development
                      then Some (ApiError BadRequestError message) else None |} |}.

(** What the chain of the route gives before anything is sent. *)
Definition chain (db : Database) (req : Request) : M Response :=
  Validation.validateJsonContentType req;;
  Validation.validateRequestBody req;;
  EmployeeController.getEmpStatus db req.

(** A string without a space. *)
Definition noSpace (s : string) : Prop := ~ In " "%char (list_ascii_of_string s).

(** [parts.join(' ')] *)
Fixpoint joinSpace (parts : list string) : string :=
  match parts with
  | [] => EmptyString
  | [part] => part
  | part :: rest => part ++ String " " (joinSpace rest)
  end.

(** ** Sample data, for the instances *)

Module Sample.

(** A world with an empty, connected cache and no call made yet. *)
Definition idle : World :=
  mkWorld 1700000000000 [] [] (mkRedis true true false ∅) 0.

(** An operation that fails at its first call and answers 7 afterwards. *)
Definition flaky (call : nat) : Thrown + Z :=
  if (call =? 0)%nat then inl (OtherError "connection reset") else inr 7.

(** An operation that fails with an error at every call. *)
Definition broken (call : nat) : Thrown + Z := inl (OtherError "down").

(** An operation that rejects with [undefined] at every call. *)
Definition rejecting (call : nat) : Thrown + Z := inl Undefined.

Definition attemptsOnly (n : Z) : RetryHandler.RetryOptions :=
  {| RetryHandler.opt_maxAttempts := Some n;
     RetryHandler.opt_initialDelay := None;
     RetryHandler.opt_maxDelay := None;
     RetryHandler.opt_backoffMultiplier := None;
     RetryHandler.opt_onRetry := None |}.

(** Three attempts, with an observer that throws. *)
Definition strict : RetryHandler.RetryOptions :=
  {| RetryHandler.opt_maxAttempts := Some 3;
     RetryHandler.opt_initialDelay := None;
     RetryHandler.opt_maxDelay := None;
     RetryHandler.opt_backoffMultiplier := None;
     RetryHandler.opt_onRetry := Some (fun _ _ => throw (OtherError "observer")) |}.

End Sample.

Module SampleDb.

Definition row (nationalNumber : string) (active : bool) : UserRow :=
  {| u_id := "id-" ++ nationalNumber;
     u_username := "user-" ++ nationalNumber;
     u_nationalNumber := Some nationalNumber;
     u_national_number := None;
     u_email := "staff@example.com";
     u_phone := "0790000000";
     u_isActive := JBool active;
     u_is_active := JUndefined |}.

(** NAT1001 is active with three salaries, NAT1003 is inactive, NAT1005 is
    active with two salaries, and nobody else is known; no query fails. *)
Definition db : Database :=
  {| findOne := fun call nationalNumber =>
       if String.eqb nationalNumber "NAT1001" then Some (Some (row "NAT1001" true))
       else if String.eqb nationalNumber "NAT1003" then Some (Some (row "NAT1003" false))
       else if String.eqb nationalNumber "NAT1005" then Some (Some (row "NAT1005" true))
       else Some None;
     findAll := fun call userId =>
       if String.eqb userId "id-NAT1005"
       then Some [mkSalary 4000%float 12 2024; mkSalary 4000%float 11 2024]
       else Some [mkSalary 6000%float 12 2024; mkSalary 6000%float 7 2024;
                  mkSalary 6000%float 1 2024] |}.

(** A record store whose every query is rejected. *)
Definition down : Database :=
  {| findOne := fun call nationalNumber => None;
     findAll := fun call userId => None |}.

(** The world after a first request for NAT1001, and what it returned. *)
Definition warm : World :=
  snd (EmployeeService.getEmployeeStatus db "NAT1001" Sample.idle).

Definition answered : Res Response :=
  fst (EmployeeService.getEmployeeStatus db "NAT1001" Sample.idle).

End SampleDb.

Module SampleHttp.

(** [POST /api/GetEmpStatus] with body [{"NationalNumber": nationalNumber}]. *)
Definition request (nationalNumber : string) : Request :=
  {| method := "POST"; path := "/api/GetEmpStatus";
     contentType := Some "application/json"%string;
     body := BObject {| b_NationalNumber := FString nationalNumber;
                        b_nationalNumber := FAbsent; otherKeys := 0 |} |}.

(** The same request sent as plain text. *)
Definition plainText (nationalNumber : string) : Request :=
  {| method := "POST"; path := "/api/GetEmpStatus";
     contentType := Some "text/plain"%string;
     body := body (request nationalNumber) |}.

End SampleHttp.

Module SampleCache.

(** A world whose cache is not connected. *)
Definition offline : World := mkWorld 0 [] [] (mkRedis false false false ∅) 0.

(** Some response to store. *)
Definition response : Response :=
  toResponse (built (SampleDb.row "NAT1001" true) [] 0).

(** The employee object built for NAT1001 and three salaries. *)
Definition employee : EmpInfo :=
  built (SampleDb.row "NAT1001" true)
    [mkSalary 6000%float 12 2024; mkSalary 6000%float 7 2024;
     mkSalary 6000%float 1 2024] 0.

End SampleCache.

(* ------------------------------------------------------------------ *)
(** * Properties *)

(** ** Comparisons of binary64 values *)

Section FloatOrder.

Lemma SFcompare_Lt_swap x y :
  SFcompare x y = Some Lt -> SFcompare y x = Some Gt.
Proof.
  destruct x as [sx|sx| |sx mx ex], y as [sy|sy| |sy my ey]; simpl;
    try destruct sx; try destruct sy; try discriminate; try reflexivity.
  all: intros H; injection H as H; f_equal.
  all: rewrite (Z.compare_antisym ex ey);
       change (PosDef.Pos.compare_cont Eq my mx) with (Pos.compare my mx);
       change (PosDef.Pos.compare_cont Eq mx my) with (Pos.compare mx my) in H;
       rewrite (Pos.compare_antisym mx my);
       destruct (ex ?= ey); simpl in *; try discriminate; try reflexivity;
       destruct (mx ?= my)%positive; simpl in *; try discriminate; reflexivity.
Qed.

(** [x < y] excludes [y <= x]. *)
Lemma ltb_leb_false (x y : float) :
  (x <? y)%float = true -> (y <=? x)%float = false.
Proof.
  rewrite FloatAxioms.ltb_spec, FloatAxioms.leb_spec.
  unfold SFltb, SFleb. intros H.
  destruct (SFcompare (Prim2SF x) (Prim2SF y)) as [[]|] eqn:E; try discriminate.
  now rewrite (SFcompare_Lt_swap _ _ E).
Qed.

(** A value below 3000 is not at or above 5000. *)
Lemma below_3000_not_above_5000 (x : float) :
  (x <? 3000)%float = true -> (5000 <=? x)%float = false.
Proof.
  rewrite FloatAxioms.ltb_spec, FloatAxioms.leb_spec.
  set (lo := Prim2SF 3000); vm_compute in lo; subst lo.
  set (hi := Prim2SF 5000); vm_compute in hi; subst hi.
  unfold SFltb, SFleb.
  destruct (Prim2SF x) as [s|s| |s m e]; cbn [SFcompare];
    try destruct s; try discriminate; try reflexivity.
  destruct (Z.compare_spec e (-41)) as [He|He|He]; try discriminate; intros _.
  - subst e. reflexivity.
  - destruct (Z.compare_spec (-40) e) as [He'|He'|He'];
      try reflexivity; exfalso; lia.
Qed.

End FloatOrder.

(* ------------------------------------------------------------------ *)
(** ** The rule engine *)

Section RuleEngine.

Import ProcessStatus.

Lemma lookup_map {A B} (f : A -> B) (l : list A) (i : nat) :
  map f l !! i = f <$> l !! i.
Proof.
  revert i; induction l as [|x l IH]; intros [|i]; simpl; auto.
Qed.

(** C1. Classification by bands: an average at or above 5000 is GREEN, one
    at or above 3000 and below 5000 is ORANGE, one below 3000 is RED; the
    lower edge of each band belongs to it, as the values at and next to
    3000 and 5000 show. *)
Theorem determineStatus_bands (average : Js.number) :
  ((5000 <=? average)%float = true -> determineStatus average = GREEN) /\
  ((3000 <=? average)%float = true -> (average <? 5000)%float = true ->
     determineStatus average = ORANGE) /\
  ((average <? 3000)%float = true -> determineStatus average = RED) /\
  determineStatus 2999.99%float = RED /\
  determineStatus 3000%float = ORANGE /\
  determineStatus 4999.99%float = ORANGE /\
  determineStatus 5000%float = GREEN.
Proof.
  unfold determineStatus. repeat split; try reflexivity.
  - intros ->. reflexivity.
  - intros Hlo Hhi. rewrite (ltb_leb_false _ _ Hhi), Hlo. reflexivity.
  - intros Hlt. rewrite (below_3000_not_above_5000 _ Hlt), (ltb_leb_false _ _ Hlt).
    reflexivity.
Qed.

Lemma determineStatus_bands_witness :
  determineStatus 6200%float = GREEN /\
  determineStatus 4100.5%float = ORANGE /\
  determineStatus 120%float = RED.
Proof.
  split; [|split].
  - apply (proj1 (determineStatus_bands 6200%float)). reflexivity.
  - apply (proj1 (proj2 (determineStatus_bands 4100.5%float))); reflexivity.
  - apply (proj1 (proj2 (proj2 (determineStatus_bands 120%float)))). reflexivity.
Defined.

(** C2. Tax: a total strictly above 10000 pays [total * 0.07], any other
    total pays 0; exactly 10000 pays nothing and 10000.01 pays 700.0007. *)
Theorem calculateTax_threshold (total : Js.number) :
  ((10000 <? total)%float = true -> calculateTax total = (total * 0.07)%float) /\
  ((10000 <? total)%float = false -> calculateTax total = 0%float) /\
  calculateTax 10000%float = 0%float /\
  calculateTax 10000.01%float = 700.0007%float.
Proof.
  unfold calculateTax. repeat split; try (intros ->; reflexivity).
Qed.

Lemma calculateTax_threshold_witness :
  calculateTax 20000%float = (20000 * 0.07)%float /\
  calculateTax 9999.99%float = 0%float.
Proof.
  split.
  - apply (proj1 (calculateTax_threshold 20000%float)). reflexivity.
  - apply (proj1 (proj2 (calculateTax_threshold 9999.99%float))). reflexivity.
Defined.

(** The adjusted list, position by position. *)
Lemma applySalaryAdjustments_lookup (salaries : list SalaryInfo) (i : nat) :
  applySalaryAdjustments salaries !! i
  = (fun s => summerDeduction (decemberBonus s)) <$> salaries !! i.
Proof.
  unfold applySalaryAdjustments, applySummerDeduction, applyDecemberBonus.
  rewrite !lookup_map. destruct (salaries !! i); reflexivity.
Qed.

Lemma applySalaryAdjustments_length (salaries : list SalaryInfo) :
  length (applySalaryAdjustments salaries) = length salaries.
Proof.
  unfold applySalaryAdjustments, applySummerDeduction, applyDecemberBonus.
  now rewrite !length_map.
Qed.

(** C3. The pipeline is the bonus pass followed by the deduction pass.  A
    December record leaves the bonus pass with its amount times 1.10 and
    the deduction pass leaves it as it is; a record of June, July or August
    goes through the bonus pass untouched and leaves the deduction pass
    with its amount times 0.95; and the guards of the two passes never
    both hold for one record. *)
Theorem adjustments_bonus_then_deduction
    (salaries : list SalaryInfo) (i : nat) (s : SalaryInfo)
    (Hi : salaries !! i = Some s) :
  applySalaryAdjustments salaries
    = applySummerDeduction (applyDecemberBonus salaries) /\
  (month s = 12 ->
     let bonus := {| amount := (amount s * 1.10)%float;
                     month := month s; year := year s |} in
     applyDecemberBonus salaries !! i = Some bonus /\
     applySalaryAdjustments salaries !! i = Some bonus) /\
  (month s = 6 \/ month s = 7 \/ month s = 8 ->
     applyDecemberBonus salaries !! i = Some s /\
     applySalaryAdjustments salaries !! i
       = Some {| amount := (amount s * 0.95)%float;
                 month := month s; year := year s |}) /\
  isDecember s && isSummer (decemberBonus s) = false.
Proof.
  split; [reflexivity|].
  rewrite applySalaryAdjustments_lookup.
  unfold applyDecemberBonus. rewrite lookup_map, Hi. simpl.
  unfold summerDeduction, decemberBonus, isDecember, isSummer.
  repeat split.
  - rewrite H. reflexivity.
  - rewrite H. reflexivity.
  - destruct H as [-> | [-> | ->]]; reflexivity.
  - destruct H as [H | [H | H]]; rewrite H; destruct s; simpl in *; subst; reflexivity.
  - destruct (month s =? 12) eqn:E; [|reflexivity].
    apply Z.eqb_eq in E. simpl. rewrite E. reflexivity.
Qed.

Lemma adjustments_bonus_then_deduction_witness :
  applySalaryAdjustments
    [mkSalary 1000%float 12 2024; mkSalary 2000%float 7 2024] !! 1%nat
  = Some (mkSalary (2000 * 0.95)%float 7 2024).
Proof.
  apply (adjustments_bonus_then_deduction
           [mkSalary 1000%float 12 2024; mkSalary 2000%float 7 2024]
           1 (mkSalary 2000%float 7 2024) eq_refl).
  simpl. right; left; reflexivity.
Defined.

(** C4. The average is the total less the tax, divided by the count, and
    0 when the count is 0; the count the pipeline passes is the number of
    records of the employee, which the adjustments do not change. *)
Theorem average_after_tax_over_count (total tax count : Js.number) :
  ((count =? 0)%float = false ->
     calculateAverageSalary total tax count = ((total - tax) / count)%float) /\
  ((count =? 0)%float = true -> calculateAverageSalary total tax count = 0%float) /\
  calculateAverageSalary total tax 0%float = 0%float /\
  (forall now e e',
     processEmployeeStatus now e = (Ok tt, e') ->
     length (adjustedSalaries e') = length (salaries e) /\
     averageSalary e'
     = calculateAverageSalary (totalSalary e') (taxAmount e')
         (Js.of_nat (length (salaries e)))).
Proof.
  unfold calculateAverageSalary. repeat split; try (intros ->; reflexivity).
  - revert H. unfold processEmployeeStatus.
    destruct (negb _); [discriminate|].
    destruct (negb _); [discriminate|].
    destruct (negb _); [discriminate|].
    intros [= <-]. simpl. apply applySalaryAdjustments_length.
  - revert H. unfold processEmployeeStatus.
    destruct (negb _); [discriminate|].
    destruct (negb _); [discriminate|].
    destruct (negb _); [discriminate|].
    intros [= <-]. simpl. now rewrite applySalaryAdjustments_length.
Qed.

Lemma average_after_tax_over_count_witness :
  calculateAverageSalary 18300%float 1281%float 3%float
  = ((18300 - 1281) / 3)%float.
Proof.
  apply (proj1 (average_after_tax_over_count 18300%float 1281%float 3%float)).
  reflexivity.
Defined.

(** C10. The adjustments keep the month and the year of every record, and
    a record of a month other than June, July, August and December comes
    out with the amount it went in with. *)
Theorem adjustments_frame
    (salaries : list SalaryInfo) (i : nat) (s : SalaryInfo)
    (Hi : salaries !! i = Some s) :
  exists s',
    applySalaryAdjustments salaries !! i = Some s' /\
    month s' = month s /\ year s' = year s /\
    (month s <> 6 -> month s <> 7 -> month s <> 8 -> month s <> 12 ->
       amount s' = amount s /\ s' = s).
Proof.
  rewrite applySalaryAdjustments_lookup, Hi. simpl.
  eexists; split; [reflexivity|].
  unfold summerDeduction, decemberBonus, isDecember, isSummer.
  destruct (month s =? 12) eqn:E12; simpl.
  - apply Z.eqb_eq in E12. rewrite E12. simpl. repeat split; auto; lia.
  - apply Z.eqb_neq in E12.
    destruct ((6 <=? month s) && (month s <=? 8)) eqn:Es; simpl.
    + repeat split; auto; lia.
    + repeat split; auto.
Qed.

Lemma adjustments_frame_witness :
  exists s',
    applySalaryAdjustments
      [mkSalary 1000%float 12 2024; mkSalary 2000%float 3 2024] !! 1%nat = Some s' /\
    month s' = 3 /\ year s' = 2024 /\
    (3 <> 6 -> 3 <> 7 -> 3 <> 8 -> 3 <> 12 ->
       amount s' = 2000%float /\ s' = mkSalary 2000%float 3 2024).
Proof.
  apply (adjustments_frame
           [mkSalary 1000%float 12 2024; mkSalary 2000%float 3 2024]
           1 (mkSalary 2000%float 3 2024) eq_refl).
Defined.

End RuleEngine.

(* ------------------------------------------------------------------ *)
(** ** The adjustments on the object store *)

Section StoreAdjustments.

Import Store.

Lemma decemberBonus_allocates : allocates ProcessStatus.decemberBonus decemberBonus.
Proof.
  intros h r o Ho. unfold decemberBonus, ProcessStatus.decemberBonus,
    ProcessStatus.isDecember, alloc, derived. rewrite Ho.
  destruct (month o =? 12) eqn:E.
  - eexists _, _; split; [reflexivity|]. exists o. rewrite E.
    split; [reflexivity|]. split; [|right; reflexivity].
    rewrite lookup_app_r by reflexivity. now rewrite Nat.sub_diag.
  - exists [], r. rewrite app_nil_r. split; [reflexivity|].
    exists o. rewrite E. auto.
Qed.

Lemma summerDeduction_allocates : allocates ProcessStatus.summerDeduction summerDeduction.
Proof.
  intros h r o Ho. unfold summerDeduction, ProcessStatus.summerDeduction,
    ProcessStatus.isSummer, alloc, derived. rewrite Ho.
  destruct ((6 <=? month o) && (month o <=? 8)) eqn:E.
  - eexists _, _; split; [reflexivity|]. exists o. rewrite E.
    split; [reflexivity|]. split; [|right; reflexivity].
    rewrite lookup_app_r by reflexivity. now rewrite Nat.sub_diag.
  - exists [], r. rewrite app_nil_r. split; [reflexivity|].
    exists o. rewrite E. auto.
Qed.

Lemma derived_weaken f (h : heap) (mid extra : list SalaryInfo) (r r' : ref) :
  is_Some (h !! r) ->
  derived f (h ++ mid) ((h ++ mid) ++ extra) r r' ->
  derived f h (h ++ (mid ++ extra)) r r'.
Proof.
  intros [o0 Ho0] (o & Ho & Ho' & Hr).
  rewrite (lookup_app_l_Some _ _ _ _ Ho0) in Ho. injection Ho as <-.
  exists o0. rewrite app_assoc. repeat split; auto.
  destruct Hr as [->|Hr]; [now left|right].
  rewrite length_app in Hr. lia.
Qed.

Lemma array_map_allocates f callback (Hcb : allocates f callback) :
  forall (arr : list ref) (h : heap),
    Forall (fun r => is_Some (h !! r)) arr ->
    exists created out,
      array_map callback h arr = (h ++ created, out) /\
      Forall2 (derived f h (h ++ created)) arr out.
Proof.
  induction arr as [|r rest IH]; intros h Hlive.
  - exists [], []. simpl. rewrite app_nil_r. split; [reflexivity|constructor].
  - inversion Hlive as [|? ? [o Ho] Hrest]; subst.
    destruct (Hcb h r o Ho) as (c1 & r' & Ecb & Hd).
    assert (Hrest' : Forall (fun r => is_Some ((h ++ c1) !! r)) rest).
    { eapply Forall_impl; [exact Hrest|].
      intros x [ox Hx]. exists ox. now apply lookup_app_l_Some. }
    destruct (IH (h ++ c1) Hrest') as (c2 & out & Emap & Hall).
    exists (c1 ++ c2), (r' :: out). simpl. rewrite Ecb, Emap.
    split; [now rewrite app_assoc|].
    constructor.
    + destruct Hd as (o' & Ho' & Hr' & Hfresh).
      exists o'. repeat split; auto.
      rewrite app_assoc. now apply lookup_app_l_Some.
    + clear Emap. revert Hrest. clear -Hall.
      induction Hall as [|x y xs ys Hxy Hall IHall]; intros Hrest; constructor.
      * inversion Hrest; subst. now apply derived_weaken.
      * inversion Hrest; subst. now apply IHall.
Qed.

Lemma derived_compose f g (h : heap) (c1 c2 : list SalaryInfo) (r r1 r2 : ref) :
  derived f h (h ++ c1) r r1 ->
  derived g (h ++ c1) ((h ++ c1) ++ c2) r1 r2 ->
  derived (fun o => g (f o)) h (h ++ (c1 ++ c2)) r r2.
Proof.
  intros (o & Ho & Ho1 & Hr1) (o1 & Ho1' & Ho2 & Hr2).
  rewrite Ho1 in Ho1'. injection Ho1' as <-.
  exists o. rewrite app_assoc. repeat split; auto.
  destruct Hr2 as [->|Hr2]; [exact Hr1|right].
  rewrite length_app in Hr2. lia.
Qed.

(** C5. Run on an array of live salary objects, the adjustments extend
    the store and change nothing in it: every object that existed, the
    records of the input array among them, is what it was.  The result
    has the length of the input and its order: its element at a position
    holds the adjusted record of the input element at that position, in
    the input object itself when no rule applied to it, in a new object
    otherwise. *)
Theorem adjustments_leave_input_untouched
    (h : heap) (salaries : list ref)
    (Hlive : Forall (fun r => is_Some (h !! r)) salaries) :
  exists created adjusted,
    applySalaryAdjustments h salaries = (h ++ created, adjusted) /\
    length adjusted = length salaries /\
    (forall r o, h !! r = Some o -> (h ++ created) !! r = Some o) /\
    contents (h ++ created) salaries = contents h salaries /\
    Forall2
      (derived (fun o => ProcessStatus.summerDeduction (ProcessStatus.decemberBonus o))
               h (h ++ created))
      salaries adjusted /\
    map Some (ProcessStatus.applySalaryAdjustments (omap (fun r => h !! r) salaries))
      = contents (h ++ created) adjusted.
Proof.
  destruct (array_map_allocates _ _ decemberBonus_allocates salaries h Hlive)
    as (c1 & out1 & E1 & H1).
  assert (Hlive1 : Forall (fun r => is_Some ((h ++ c1) !! r)) out1).
  { clear -H1. induction H1 as [|x y xs ys (o & _ & Hy & _) _ IH]; constructor; eauto. }
  destruct (array_map_allocates _ _ summerDeduction_allocates out1 (h ++ c1) Hlive1)
    as (c2 & out2 & E2 & H2).
  assert (H12 : Forall2
            (derived (fun o => ProcessStatus.summerDeduction (ProcessStatus.decemberBonus o))
                     h (h ++ (c1 ++ c2))) salaries out2).
  { clear -H1 H2. revert out2 H2.
    induction H1 as [|x y xs ys Hxy _ IH]; intros out2 H2;
      inversion H2; subst; constructor.
    - eapply derived_compose; eauto.
    - now apply IH. }
  exists (c1 ++ c2), out2.
  unfold applySalaryAdjustments, applyDecemberBonus, applySummerDeduction.
  rewrite E1, E2, app_assoc.
  split; [reflexivity|]. rewrite <- app_assoc.
  split; [symmetry; eapply Forall2_length; exact H12|].
  split; [intros r o Ho; now apply lookup_app_l_Some|].
  split.
  { unfold contents. clear -Hlive.
    induction Hlive as [|r rs [o Ho] _ IH]; simpl; [reflexivity|].
    now rewrite IH, (lookup_app_l_Some _ _ _ _ Ho), Ho. }
  split; [exact H12|].
  clear -H12. unfold contents, ProcessStatus.applySalaryAdjustments,
    ProcessStatus.applySummerDeduction, ProcessStatus.applyDecemberBonus.
  induction H12 as [|x y xs ys (o & Ho & Hy & _) _ IH]; simpl; [reflexivity|].
  rewrite Ho. simpl. rewrite Hy. f_equal. exact IH.
Qed.

Lemma adjustments_leave_input_untouched_witness :
  exists created adjusted,
    applySalaryAdjustments
      [mkSalary 1000%float 12 2024; mkSalary 2000%float 3 2024] [0; 1]%nat
    = ([mkSalary 1000%float 12 2024; mkSalary 2000%float 3 2024] ++ created, adjusted) /\
    length adjusted = 2%nat.
Proof.
  destruct (adjustments_leave_input_untouched
              [mkSalary 1000%float 12 2024; mkSalary 2000%float 3 2024] [0; 1]%nat)
    as (created & adjusted & E & L & _).
  - repeat constructor; eexists; reflexivity.
  - exists created, adjusted. split; [exact E|exact L].
Defined.

End StoreAdjustments.

(* ------------------------------------------------------------------ *)
(** ** The retry executor *)

Section Retry.

Import RetryHandler.

Context {T : Type} (script : nat -> Thrown + T).

Lemma message_run (error : Thrown) (w : World) :
  error <> Undefined -> exists m, message error w = (Ok m, w).
Proof. destruct error; intros H; [eexists; reflexivity..|congruence]. Qed.

Lemma loop_invoke (config : RetryConfig) (Hobs : log_only (onRetry config))
    (Hmsg : failsWithErrors script) :
  forall (fuel : nat) (attempt : Z) (d : Js.number) (last : Thrown) (w : World),
    (fuel <> O -> attempt = maxAttempts config - Z.of_nat fuel + 1) ->
    exists l sl,
      loop (invoke script) config fuel attempt d last w
      = (fst (attempts script (calls w) fuel last),
         mkWorld (clock w) l sl (redis w)
           (calls w + snd (attempts script (calls w) fuel last))).
Proof.
  induction fuel as [|fuel IH]; intros attempt d last w Hatt.
  - exists (logs w), (slept w). destruct w; simpl. now rewrite Nat.add_0_r.
  - specialize (Hatt ltac:(discriminate)).
    assert (Hle : (attempt <=? maxAttempts config) = true) by lia.
    cbn [loop]. rewrite Hle.
    unfold try_catch, bind, invoke. cbn [attempts].
    destruct (script (calls w)) as [e|v] eqn:Es.
    + assert (He : e <> Undefined) by (intros ->; exact (Hmsg _ Es)).
      destruct fuel as [|fuel'].
      * assert (Heq : (attempt =? maxAttempts config) = true) by lia.
        rewrite Heq.
        match goal with |- context [message e ?w1] =>
          destruct (message_run e w1 He) as (m & ->) end.
        eexists _, _. cbn. rewrite Nat.add_1_r. reflexivity.
      * assert (Hne : (attempt =? maxAttempts config) = false) by lia.
        rewrite Hne.
        match goal with |- context [onRetry config attempt e ?w1] =>
          destruct (Hobs attempt e w1 He) as (l1 & ->) end.
        unfold delay, ret. cbn [clock logs slept redis calls].
        match goal with |- context [loop _ _ _ ?a ?d' e ?w2] =>
          destruct (IH a d' e w2) as (l2 & sl2 & E); [intros _; lia|];
          unfold invoke in E; rewrite E; clear E end.
        cbn [clock logs slept redis calls].
        destruct (attempts script (S (calls w)) (S fuel') e) as [r n].
        eexists _, _. cbn [fst snd]. rewrite Nat.add_succ_r. reflexivity.
    + destruct (1 <? attempt); eexists _, _; cbn; rewrite Nat.add_1_r; reflexivity.
Qed.

Lemma execute_invoke (options : RetryOptions)
    (Hobs : log_only (onRetry (merge options)))
    (Hmsg : failsWithErrors script) (w : World) :
  let n := Z.to_nat (maxAttempts (merge options)) in
  exists l sl,
    execute (invoke script) options w
    = (fst (attempts script (calls w) n Undefined),
       mkWorld (clock w) l sl (redis w)
         (calls w + snd (attempts script (calls w) n Undefined))).
Proof.
  unfold execute. apply loop_invoke; [exact Hobs|exact Hmsg|]. intros Hn. lia.
Qed.

(** Failing at every call, from call [c] on, for [n] attempts. *)
Lemma attempts_all_fail (errors : nat -> Thrown) :
  forall (n c : nat) (last : Thrown),
    (forall k, (c <= k < c + S n)%nat -> script k = inl (errors k)) ->
    attempts script c (S n) last = (Throw (errors (c + n)%nat), S n).
Proof.
  induction n as [|n IH]; intros c last Hfail.
  - cbn. rewrite (Hfail c) by lia. now rewrite Nat.add_0_r.
  - change (attempts script c (S (S n)) last)
      with (match script c with
            | inr v => (Ok v, 1%nat)
            | inl e => let '(r, m) := attempts script (S c) (S n) e in (r, S m)
            end).
    rewrite (Hfail c) by lia.
    rewrite (IH (S c) (errors c)) by (intros k Hk; apply Hfail; lia).
    now rewrite Nat.add_succ_r.
Qed.

Lemma attempts_fail_once (n c : nat) (last e : Thrown) (v : T) :
  script c = inl e -> script (S c) = inr v ->
  attempts script c (S (S n)) last = (Ok v, 2%nat).
Proof. intros H0 H1. cbn. now rewrite H0, H1. Qed.

End Retry.

Section RetryProperties.

Import RetryHandler.

Lemma default_onRetry_log_only (n : Z) :
  log_only (onRetry (merge (Sample.attemptsOnly n))).
Proof. intros attempt [] w H; [eexists; reflexivity..|congruence]. Qed.

Lemma database_onRetry_log_only (queryName : string) :
  log_only (fun (attempt : Z) (error : Thrown) =>
              _ <- message error;;
              Logger.warn ("Retrying database query: " ++ queryName)).
Proof. intros attempt [] w H; [eexists; reflexivity..|congruence]. Qed.

Lemma wrapDatabaseQuery_invoke {T} (script : nat -> Thrown + T)
    (queryName : string) (w : World) (Hmsg : failsWithErrors script) :
  exists l sl,
    wrapDatabaseQuery (invoke script) queryName w
    = (fst (attempts script (calls w) 3 Undefined),
       mkWorld (clock w) l sl (redis w)
         (calls w + snd (attempts script (calls w) 3 Undefined))).
Proof.
  unfold wrapDatabaseQuery.
  apply (execute_invoke script); [apply database_onRetry_log_only|exact Hmsg].
Qed.

(** C8, as the code has it.  For an operation whose failures are errors
    and an observer that only logs: when [maxAttempts] is at least 1 and
    the operation fails at every attempt, it is called [maxAttempts] times
    and what it threw at the last attempt is thrown as it is; when
    [maxAttempts] is at least 2 and the operation fails once and then
    succeeds, it is called twice and its result is returned.  Both hold of
    [wrapDatabaseQuery], whose [maxAttempts] is 3. *)
Theorem retry_attempts {T} (script : nat -> Thrown + T)
    (options : RetryOptions) (w : World)
    (Hobs : log_only (onRetry (merge options)))
    (Hmsg : failsWithErrors script) :
  let N := maxAttempts (merge options) in
  let run := execute (invoke script) options w in
  (1 <= N ->
   forall errors : nat -> Thrown,
     (forall k, (calls w <= k < calls w + Z.to_nat N)%nat ->
                script k = inl (errors k)) ->
     calls (snd run) = (calls w + Z.to_nat N)%nat /\
     fst run = Throw (errors (calls w + Z.to_nat N - 1)%nat)) /\
  (2 <= N ->
   forall e v,
     script (calls w) = inl e -> script (S (calls w)) = inr v ->
     calls (snd run) = (calls w + 2)%nat /\ fst run = Ok v) /\
  (forall queryName (errors : nat -> Thrown),
     (forall k, (calls w <= k < calls w + 3)%nat -> script k = inl (errors k)) ->
     calls (snd (wrapDatabaseQuery (invoke script) queryName w)) = (calls w + 3)%nat /\
     fst (wrapDatabaseQuery (invoke script) queryName w)
     = Throw (errors (calls w + 2)%nat)) /\
  (forall queryName e v,
     script (calls w) = inl e -> script (S (calls w)) = inr v ->
     calls (snd (wrapDatabaseQuery (invoke script) queryName w)) = (calls w + 2)%nat /\
     fst (wrapDatabaseQuery (invoke script) queryName w) = Ok v).
Proof.
  intros N run.
  destruct (execute_invoke script options Hobs Hmsg w) as (l & sl & E).
  fold N in E. fold run in E.
  split; [|split; [|split]].
  - intros HN errors Hfail.
    destruct (Z.to_nat N) as [|n] eqn:En; [lia|].
    rewrite E, (attempts_all_fail script errors n (calls w) Undefined) by assumption.
    split; [reflexivity|]. cbn [fst]. do 2 f_equal. lia.
  - intros HN e v H0 H1.
    destruct (Z.to_nat N) as [|[|n]] eqn:En; [lia|lia|].
    rewrite E, (attempts_fail_once script n (calls w) Undefined e v) by assumption.
    split; reflexivity.
  - intros queryName errors Hfail.
    destruct (wrapDatabaseQuery_invoke script queryName w Hmsg) as (l' & sl' & ->).
    rewrite (attempts_all_fail script errors 2 (calls w) Undefined) by assumption.
    split; reflexivity.
  - intros queryName e v H0 H1.
    destruct (wrapDatabaseQuery_invoke script queryName w Hmsg) as (l' & sl' & ->).
    rewrite (attempts_fail_once script 1 (calls w) Undefined e v) by assumption.
    split; reflexivity.
Qed.

Lemma retry_attempts_witness :
  calls (snd (execute (invoke Sample.flaky) (Sample.attemptsOnly 4) Sample.idle)) = 2%nat /\
  fst (execute (invoke Sample.flaky) (Sample.attemptsOnly 4) Sample.idle) = Ok 7.
Proof.
  assert (Hmsg : failsWithErrors Sample.flaky).
  { intros call. unfold Sample.flaky. destruct (call =? 0)%nat; discriminate. }
  apply (proj1 (proj2 (retry_attempts Sample.flaky (Sample.attemptsOnly 4)
                         Sample.idle (default_onRetry_log_only 4) Hmsg))
           ltac:(simpl; lia) (OtherError "connection reset") 7);
    reflexivity.
Defined.

(** C8, as it is stated, fails in four ways, one for each condition above.
    With [maxAttempts] at 1, an operation that fails once and would then
    succeed is called once, not twice, and its failure is thrown.  With
    [maxAttempts] at 0, what is thrown is [undefined], which is no failure
    of the operation.  An operation that rejects with [undefined] at every
    call is called once through [wrapDatabaseQuery], not three times, and
    what is thrown is the TypeError of reading [message], not what the
    operation threw.  And with an observer that throws, an operation that
    fails at every call is called once, and what the observer threw is
    thrown. *)
Lemma retry_attempts_counterexample :
  (let run := execute (invoke Sample.flaky) (Sample.attemptsOnly 1) Sample.idle in
   Sample.flaky 0 = inl (OtherError "connection reset") /\
   Sample.flaky 1 = inr 7 /\
   calls (snd run) = 1%nat /\
   fst run = Throw (OtherError "connection reset") /\
   ~ (calls (snd run) = 2%nat /\ fst run = Ok 7)) /\
  (let run := execute (invoke Sample.broken) (Sample.attemptsOnly 0) Sample.idle in
   calls (snd run) = 0%nat /\
   fst run = Throw Undefined /\
   forall call, Sample.broken call <> inl Undefined) /\
  (let run := wrapDatabaseQuery (invoke Sample.rejecting) "query" Sample.idle in
   (forall call, Sample.rejecting call = inl Undefined) /\
   calls (snd run) = 1%nat /\
   fst run = Throw (TypeError "message") /\
   ~ (calls (snd run) = 3%nat /\ fst run = Throw Undefined)) /\
  (let run := execute (invoke Sample.broken) Sample.strict Sample.idle in
   maxAttempts (merge Sample.strict) = 3 /\
   calls (snd run) = 1%nat /\
   fst run = Throw (OtherError "observer") /\
   ~ (calls (snd run) = 3%nat /\ fst run = Throw (OtherError "down"))).
Proof.
  split; [|split; [|split]].
  - repeat split. intros [H _]. vm_compute in H. discriminate.
  - repeat split. discriminate.
  - repeat split. intros [H _]. vm_compute in H. discriminate.
  - repeat split. intros [H _]. vm_compute in H. discriminate.
Qed.

End RetryProperties.

(* ------------------------------------------------------------------ *)
(** ** The orchestrator *)

Section Cache.

Import CacheHandler.

Lemma get_run (key : string) (w : World) :
  exists l cached,
    get key w = (Ok cached, mkWorld (clock w) l (slept w) (redis w) (calls w)).
Proof.
  unfold get.
  destruct (unavailable (redis w)); [eexists _, _; reflexivity|].
  destruct (failing (redis w)); [eexists _, _; reflexivity|].
  destruct (store (redis w) !! key) as [[ttl v]|]; eexists _, _; reflexivity.
Qed.

Lemma get_redis_only (key : string) (w w' : World) :
  redis w = redis w' -> fst (get key w) = fst (get key w').
Proof.
  intros H. unfold get. rewrite <- H.
  destruct (unavailable (redis w)); [reflexivity|].
  destruct (failing (redis w)); [reflexivity|].
  destruct (store (redis w) !! key) as [[ttl v]|]; reflexivity.
Qed.

Lemma set_run (key : string) (value : Response) (ttl : option Z) (w : World) :
  exists l,
    set key value ttl w
    = (Ok tt, mkWorld (clock w) l (slept w) (redis (snd (set key value ttl w))) (calls w)).
Proof.
  unfold set.
  destruct (unavailable (redis w)); [eexists; reflexivity|].
  destruct (failing (redis w)); [eexists; reflexivity|].
  unfold try_catch, bind, setEx.
  destruct (_ <=? 0); eexists; reflexivity.
Qed.

Lemma set_redis_only (key : string) (value : Response) (ttl : option Z) (w w' : World) :
  redis w = redis w' ->
  redis (snd (set key value ttl w)) = redis (snd (set key value ttl w')).
Proof.
  intros H. unfold set. rewrite <- H.
  destruct (unavailable (redis w)); [exact H|].
  destruct (failing (redis w)); [exact H|].
  unfold try_catch, bind, setEx.
  destruct (_ <=? 0); cbn; now rewrite <- H.
Qed.

End Cache.

Section Service.

Import EmployeeService.

Variable db : Database.

(** What the repository throws is an InternalServerError, never
    [undefined]. *)
Lemma outcome_failsWithErrors (nationalNumber : string) :
  failsWithErrors (DataAccess.outcome db nationalNumber).
Proof.
  intros call. unfold DataAccess.outcome, DataAccess.getUserByNationalNumber,
    DataAccess.getSalariesByUserId.
  destruct (findOne db call nationalNumber) as [[user|]|]; try discriminate.
  destruct (findAll db call (u_id user)); discriminate.
Qed.

Lemma getEmployeeStatus_run (nationalNumber : string) (w : World) :
  let key := CacheHandler.getEmployeeKey nationalNumber in
  let fetched := attempts (DataAccess.outcome db nationalNumber) (calls w) 3 Undefined in
  exists l sl,
    getEmployeeStatus db nationalNumber w =
    if negb (Validator.validateNationalNumber nationalNumber) then
      (Throw (ApiError BadRequestError
                "Invalid NationalNumber format. Expected format: NAT1001"),
       mkWorld (clock w) l sl (redis w) (calls w))
    else
      match fst (CacheHandler.get key w) with
      | Throw e => (Throw e, mkWorld (clock w) l sl (redis w) (calls w))
      | Ok (Some cached) => (Ok cached, mkWorld (clock w) l sl (redis w) (calls w))
      | Ok None =>
          match fst fetched with
          | Throw e =>
              (Throw e, mkWorld (clock w) l sl (redis w) (calls w + snd fetched))
          | Ok None =>
              (Throw (ApiError NotFoundError
                        ("User with NationalNumber '" ++ nationalNumber ++ "' not found")),
               mkWorld (clock w) l sl (redis w) (calls w + snd fetched))
          | Ok (Some (user, salaries)) =>
              match ProcessStatus.processEmployeeStatus (clock w)
                      (built user salaries (clock w)) with
              | (Throw e, _) =>
                  (Throw e, mkWorld (clock w) l sl (redis w) (calls w + snd fetched))
              | (Ok _, processed) =>
                  (Ok (toResponse processed),
                   mkWorld (clock w) l sl
                     (redis (snd (CacheHandler.set key (toResponse processed)
                                    (Some 3600) w)))
                     (calls w + snd fetched))
              end
          end
      end.
Proof.
  intros key fetched. unfold getEmployeeStatus.
  cbv [bind Logger.info Logger.log].
  destruct (negb (Validator.validateNationalNumber nationalNumber)).
  { eexists _, _. reflexivity. }
  fold key.
  match goal with |- context [CacheHandler.get key ?w1] =>
    destruct (get_run key w1) as (l1 & cached & E1);
    rewrite E1;
    rewrite <- (get_redis_only key w1 w eq_refl), E1 end.
  cbn [fst clock logs slept redis calls].
  destruct cached as [cached|].
  { eexists _, _. reflexivity. }
  unfold DataAccess.getUserWithSalaries.
  match goal with |- context [RetryHandler.wrapDatabaseQuery _ ?name ?w2] =>
    destruct (wrapDatabaseQuery_invoke (DataAccess.outcome db nationalNumber) name w2
                (outcome_failsWithErrors nationalNumber))
      as (l2 & sl2 & E2);
    rewrite E2 end.
  cbn [fst clock logs slept redis calls]. fold fetched.
  destruct (fst fetched) as [[[user salaries]|]|e].
  - cbv [Logger.debug Logger.log now]. cbn [fst clock logs slept redis calls].
    fold (built user salaries (clock w)).
    destruct (ProcessStatus.processEmployeeStatus (clock w) (built user salaries (clock w)))
      as [[[]|e] processed].
    + match goal with |- context [CacheHandler.set key ?v ?t ?w3] =>
        destruct (set_run key v t w3) as (l3 & E3);
        rewrite E3;
        rewrite (set_redis_only key v t w3 w eq_refl) end.
      eexists _, _. reflexivity.
    + eexists _, _. reflexivity.
  - eexists _, _. reflexivity.
  - eexists _, _. reflexivity.
Qed.

End Service.

Section ServiceProperties.

Import EmployeeService.

(** C6. With a key of valid format and a value in the cache under
    [employee:{key}], the request returns that value, whatever the record
    store holds; the store is not called and the cache is not written. *)
Theorem cache_hit_short_circuits
    (db : Database) (nationalNumber : string) (w : World) (cached : Response)
    (Hvalid : Validator.validateNationalNumber nationalNumber = true)
    (Hhit : fst (CacheHandler.get (CacheHandler.getEmployeeKey nationalNumber) w)
            = Ok (Some cached)) :
  fst (getEmployeeStatus db nationalNumber w) = Ok cached /\
  calls (snd (getEmployeeStatus db nationalNumber w)) = calls w /\
  redis (snd (getEmployeeStatus db nationalNumber w)) = redis w.
Proof.
  destruct (getEmployeeStatus_run db nationalNumber w) as (l & sl & E).
  cbv zeta in E. rewrite Hvalid, Hhit in E. cbn [negb] in E.
  rewrite E. repeat split.
Qed.

Lemma cache_hit_short_circuits_witness :
  exists cached,
    SampleDb.answered = Ok cached /\
    fst (getEmployeeStatus SampleDb.down "NAT1001" SampleDb.warm) = Ok cached /\
    calls (snd (getEmployeeStatus SampleDb.down "NAT1001" SampleDb.warm))
    = calls SampleDb.warm /\
    redis (snd (getEmployeeStatus SampleDb.down "NAT1001" SampleDb.warm))
    = redis SampleDb.warm.
Proof.
  eexists. split; [vm_compute; reflexivity|].
  apply (cache_hit_short_circuits SampleDb.down "NAT1001" SampleDb.warm);
    vm_compute; reflexivity.
Defined.

(** The checks of [processEmployeeStatus] come before any computation: an
    inactive employee, and an active one with fewer than three salaries,
    are refused with the object left as it was given. *)
Lemma processEmployeeStatus_refuses (now : Z) (e : EmpInfo) :
  (isActive e = false ->
   ProcessStatus.processEmployeeStatus now e
   = (Throw (ApiError NotAcceptableError "User is not active"), e)) /\
  (isActive e = true -> (length (salaries e) < 3)%nat ->
   ProcessStatus.processEmployeeStatus now e
   = (Throw (ApiError UnprocessableEntityError
               "Insufficient salary data (minimum 3 records required)"), e)).
Proof.
  unfold ProcessStatus.processEmployeeStatus, Validator.isUserActive,
    Validator.hasSufficientData.
  split.
  - intros ->. reflexivity.
  - intros -> Hlen. cbn [Bool.eqb negb].
    destruct (3 <=? length (salaries e))%nat eqn:E; [|reflexivity].
    apply Nat.leb_le in E. lia.
Qed.

(** C9. Once the key is valid and the cache has missed, the request is
    decided by what the fetch gives.  A failed fetch is what the request
    fails with; no record is NotFound (404); a record whose active flag is
    false is Inactive (406, not 404); an active record with fewer than
    three salaries is InsufficientData (422).  In the last two cases the
    employee object is refused as it was built, with no adjusted salary,
    no total, no tax and no status, and nothing is cached. *)
Theorem checks_after_fetch_before_computation
    (db : Database) (nationalNumber : string) (w : World)
    (Hvalid : Validator.validateNationalNumber nationalNumber = true)
    (Hmiss : fst (CacheHandler.get (CacheHandler.getEmployeeKey nationalNumber) w)
             = Ok None) :
  let fetch :=
    RetryHandler.wrapDatabaseQuery
      (DataAccess.getUserWithSalaries db nationalNumber)
      ("getUserWithSalaries(" ++ nationalNumber ++ ")") w in
  let run := getEmployeeStatus db nationalNumber w in
  (forall e, fst fetch = Throw e -> fst run = Throw e) /\
  (fst fetch = Ok None ->
   fst run = Throw (ApiError NotFoundError
                      ("User with NationalNumber '" ++ nationalNumber ++ "' not found"))) /\
  (forall user salaries,
     fst fetch = Ok (Some (user, salaries)) ->
     let empInfo := built user salaries (clock w) in
     adjustedSalaries empInfo = [] /\ status empInfo = None /\
     totalSalary empInfo = 0%float /\ taxAmount empInfo = 0%float /\
     (activeFlag user = false ->
      fst run = Throw (ApiError NotAcceptableError "User is not active") /\
      snd (ProcessStatus.processEmployeeStatus (clock w) empInfo) = empInfo /\
      redis (snd run) = redis w) /\
     (activeFlag user = true -> (length salaries < 3)%nat ->
      fst run = Throw (ApiError UnprocessableEntityError
                         "Insufficient salary data (minimum 3 records required)") /\
      snd (ProcessStatus.processEmployeeStatus (clock w) empInfo) = empInfo /\
      redis (snd run) = redis w)) /\
  statusCode NotAcceptableError <> statusCode NotFoundError.
Proof.
  intros fetch run.
  destruct (getEmployeeStatus_run db nationalNumber w) as (l & sl & E).
  cbv zeta in E. fold run in E. rewrite Hvalid, Hmiss in E. cbn [negb] in E.
  destruct (wrapDatabaseQuery_invoke (DataAccess.outcome db nationalNumber)
              ("getUserWithSalaries(" ++ nationalNumber ++ ")") w
              (outcome_failsWithErrors db nationalNumber)) as (lf & slf & Ef).
  change (RetryHandler.wrapDatabaseQuery
            (invoke (DataAccess.outcome db nationalNumber))
            ("getUserWithSalaries(" ++ nationalNumber ++ ")") w) with fetch in Ef.
  rewrite Ef. cbn [fst].
  split; [|split; [|split]].
  - intros e He. rewrite E, He. reflexivity.
  - intros He. rewrite E, He. reflexivity.
  - intros user salaries He. rewrite He in E.
    set (empInfo := built user salaries (clock w)) in *.
    repeat (split; [reflexivity|]).
    split.
    + intros Hoff.
      rewrite E, (proj1 (processEmployeeStatus_refuses (clock w) empInfo) Hoff).
      repeat split.
    + intros Hon Hfew.
      rewrite E, (proj2 (processEmployeeStatus_refuses (clock w) empInfo) Hon Hfew).
      repeat split.
  - discriminate.
Qed.

Lemma checks_after_fetch_before_computation_witness :
  fst (getEmployeeStatus SampleDb.db "NAT1003" Sample.idle)
  = Throw (ApiError NotAcceptableError "User is not active").
Proof.
  destruct (checks_after_fetch_before_computation SampleDb.db "NAT1003" Sample.idle
              eq_refl eq_refl) as (_ & _ & Hrow & _).
  destruct (Hrow (SampleDb.row "NAT1003" false)
              [mkSalary 6000%float 12 2024; mkSalary 6000%float 7 2024;
               mkSalary 6000%float 1 2024]
              ltac:(vm_compute; reflexivity)) as (_ & _ & _ & _ & Hoff & _).
  exact (proj1 (Hoff eq_refl)).
Defined.

End ServiceProperties.

(* ------------------------------------------------------------------ *)
(** ** The order of binary64 values *)

Section FloatRank.

Lemma SFcompare_rank (x y : spec_float) :
  match rank x, rank y with
  | Some a, Some b =>
      (SFcompare x y = Some Lt /\ lex_lt a b) \/
      (SFcompare x y = Some Eq /\ a = b) \/
      (SFcompare x y = Some Gt /\ lex_lt b a)
  | _, _ => SFcompare x y = None
  end.
Proof.
  destruct x as [sx|sx| |sx mx ex], y as [sy|sy| |sy my ey];
    try destruct sx; try destruct sy; cbn [rank SFcompare];
    try reflexivity; unfold lex_lt; cbn [fst snd];
    try (left; split; [reflexivity|lia]);
    try (right; left; split; reflexivity);
    try (right; right; split; [reflexivity|lia]).
  - change (PosDef.Pos.compare_cont Eq mx my) with (Pos.compare mx my).
    destruct (Z.compare_spec ex ey) as [He|He|He].
    + destruct (Pos.compare_spec mx my) as [Hm|Hm|Hm]; cbn [CompOpp].
      * right; left. split; [reflexivity|]. subst. reflexivity.
      * right; right. split; [reflexivity|lia].
      * left. split; [reflexivity|lia].
    + right; right. split; [reflexivity|lia].
    + left. split; [reflexivity|lia].
  - change (PosDef.Pos.compare_cont Eq mx my) with (Pos.compare mx my).
    destruct (Z.compare_spec ex ey) as [He|He|He].
    + destruct (Pos.compare_spec mx my) as [Hm|Hm|Hm].
      * right; left. split; [reflexivity|]. subst. reflexivity.
      * left. split; [reflexivity|lia].
      * right; right. split; [reflexivity|lia].
    + left. split; [reflexivity|lia].
    + right; right. split; [reflexivity|lia].
Qed.

Lemma lex_lt_irrefl (a : Z * Z * Z) : ~ lex_lt a a.
Proof. unfold lex_lt. lia. Qed.

Lemma lex_lt_asym (a b : Z * Z * Z) : lex_lt a b -> ~ lex_lt b a.
Proof. unfold lex_lt. lia. Qed.

Lemma lex_lt_trans (a b c : Z * Z * Z) : lex_lt a b -> lex_lt b c -> lex_lt a c.
Proof. unfold lex_lt. lia. Qed.

Lemma lex_le_trans (a b c : Z * Z * Z) : lex_le a b -> lex_le b c -> lex_le a c.
Proof.
  intros [H1| ->] [H2| ->]; [left; eapply lex_lt_trans; eauto|left|left|right]; auto.
Qed.

Lemma lex_total (a b : Z * Z * Z) : lex_lt a b \/ a = b \/ lex_lt b a.
Proof.
  destruct a as [[a1 a2] a3], b as [[b1 b2] b3]. unfold lex_lt. cbn [fst snd].
  destruct (Z.lt_total a1 b1) as [?|[?|?]]; [lia| |lia].
  destruct (Z.lt_total a2 b2) as [?|[?|?]]; [lia| |lia].
  destruct (Z.lt_total a3 b3) as [?|[?|?]]; [lia| |lia].
  right; left. subst. reflexivity.
Qed.

(** [x <? y] and [x <=? y], read through the ranks. *)
Lemma ltb_rank (x y : float) :
  (x <? y)%float = true <->
  exists a b, rank (Prim2SF x) = Some a /\ rank (Prim2SF y) = Some b /\ lex_lt a b.
Proof.
  rewrite FloatAxioms.ltb_spec. unfold SFltb.
  pose proof (SFcompare_rank (Prim2SF x) (Prim2SF y)) as H.
  destruct (rank (Prim2SF x)) as [a|], (rank (Prim2SF y)) as [b|].
  - destruct H as [[-> H]|[[-> H]|[-> H]]].
    + split; [intros _; eauto|reflexivity].
    + split; [discriminate|]. intros (a' & b' & [= <-] & [= <-] & Hlt).
      subst. now apply lex_lt_irrefl in Hlt.
    + split; [discriminate|]. intros (a' & b' & [= <-] & [= <-] & Hlt).
      now apply lex_lt_asym in Hlt.
  - rewrite H. split; [discriminate|]. intros (a' & b' & _ & [=] & _).
  - rewrite H. split; [discriminate|]. intros (a' & b' & [=] & _).
  - rewrite H. split; [discriminate|]. intros (a' & b' & [=] & _).
Qed.

Lemma leb_rank (x y : float) :
  (x <=? y)%float = true <->
  exists a b, rank (Prim2SF x) = Some a /\ rank (Prim2SF y) = Some b /\ lex_le a b.
Proof.
  rewrite FloatAxioms.leb_spec. unfold SFleb.
  pose proof (SFcompare_rank (Prim2SF x) (Prim2SF y)) as H.
  destruct (rank (Prim2SF x)) as [a|], (rank (Prim2SF y)) as [b|].
  - destruct H as [[-> H]|[[-> H]|[-> H]]].
    + split; [intros _; exists a, b; repeat split; now left|reflexivity].
    + split; [intros _; exists a, b; repeat split; now right|reflexivity].
    + split; [discriminate|]. intros (a' & b' & [= <-] & [= <-] & [Hlt|Heq]).
      * now apply lex_lt_asym in Hlt.
      * subst. now apply lex_lt_irrefl in H.
  - rewrite H. split; [discriminate|]. intros (a' & b' & _ & [=] & _).
  - rewrite H. split; [discriminate|]. intros (a' & b' & [=] & _).
  - rewrite H. split; [discriminate|]. intros (a' & b' & [=] & _).
Qed.

Lemma is_nan_rank (x : float) :
  PrimFloat.is_nan x = false <-> exists a, rank (Prim2SF x) = Some a.
Proof.
  unfold PrimFloat.is_nan. rewrite FloatAxioms.eqb_spec. unfold SFeqb.
  pose proof (SFcompare_rank (Prim2SF x) (Prim2SF x)) as H.
  destruct (rank (Prim2SF x)) as [a|].
  - destruct H as [[_ H]|[[-> _]|[_ H]]]; try (now apply lex_lt_irrefl in H).
    split; eauto.
  - rewrite H. split; [discriminate|]. intros [a [=]].
Qed.

Lemma leb_trans (x y z : float) :
  (x <=? y)%float = true -> (y <=? z)%float = true -> (x <=? z)%float = true.
Proof.
  rewrite !leb_rank.
  intros (a & b & Ha & Hb & Hab) (b' & c & Hb' & Hc & Hbc).
  rewrite Hb in Hb'. injection Hb' as <-.
  exists a, c. repeat split; auto. eapply lex_le_trans; eauto.
Qed.

Lemma leb_refl (x : float) :
  PrimFloat.is_nan x = false -> (x <=? x)%float = true.
Proof.
  rewrite is_nan_rank, leb_rank. intros [a Ha]. exists a, a. repeat split; auto. now right.
Qed.

Lemma ltb_leb (x y : float) : (x <? y)%float = true -> (x <=? y)%float = true.
Proof.
  rewrite ltb_rank, leb_rank. intros (a & b & Ha & Hb & H).
  exists a, b. repeat split; auto. now left.
Qed.

(** Two values that are not NaN compare one way or the other. *)
Lemma not_ltb_leb (x y : float) :
  PrimFloat.is_nan x = false -> PrimFloat.is_nan y = false ->
  (x <? y)%float = false -> (y <=? x)%float = true.
Proof.
  rewrite !is_nan_rank. intros [a Ha] [b Hb] Hn.
  apply leb_rank. exists b, a. repeat split; auto.
  destruct (lex_total a b) as [H|[H|H]].
  - assert (Hlt : (x <? y)%float = true) by (apply ltb_rank; eauto).
    congruence.
  - right. auto.
  - now left.
Qed.

Lemma leb_not_nan (x y : float) :
  (x <=? y)%float = true -> PrimFloat.is_nan x = false /\ PrimFloat.is_nan y = false.
Proof.
  rewrite leb_rank, !is_nan_rank. intros (a & b & Ha & Hb & _). eauto.
Qed.

End FloatRank.

(* ------------------------------------------------------------------ *)
(** ** More of the rule engine *)

Section RuleEngineMore.

Import ProcessStatus.

(** X1. A higher average never gives a worse status. *)
Theorem determineStatus_monotone (a b : Js.number)
    (Hab : (a <=? b)%float = true) :
  statusRank (determineStatus a) <= statusRank (determineStatus b).
Proof.
  unfold determineStatus.
  destruct (5000 <=? a)%float eqn:Ha5.
  - rewrite (leb_trans _ _ _ Ha5 Hab). reflexivity.
  - destruct (3000 <=? a)%float eqn:Ha3.
    + rewrite (leb_trans _ _ _ Ha3 Hab).
      destruct (5000 <=? b)%float; cbn; lia.
    + destruct (5000 <=? b)%float; [cbn; lia|].
      destruct (3000 <=? b)%float; cbn; lia.
Qed.

Lemma determineStatus_monotone_witness :
  statusRank (determineStatus 2500%float) <= statusRank (determineStatus 4200%float).
Proof. apply determineStatus_monotone. reflexivity. Defined.

Lemma decemberBonus_summerDeduction_commute (s : SalaryInfo) :
  summerDeduction (decemberBonus s) = decemberBonus (summerDeduction s).
Proof.
  destruct s as [a m y].
  unfold summerDeduction, decemberBonus, isSummer, isDecember. cbn [month amount year].
  destruct (m =? 12) eqn:E12;
    destruct ((6 <=? m) && (m <=? 8)) eqn:Es;
    cbn [month amount year]; rewrite ?E12, ?Es; try reflexivity; lia.
Qed.

(** X2. The two passes commute: deduction after bonus gives the list that
    bonus after deduction gives, and on a list with no record of June, July,
    August or December the adjustments change nothing. *)
Theorem adjustment_passes_commute (salaries : list SalaryInfo) :
  applySummerDeduction (applyDecemberBonus salaries)
  = applyDecemberBonus (applySummerDeduction salaries) /\
  (Forall (fun s => month s <> 6 /\ month s <> 7 /\ month s <> 8 /\ month s <> 12)
          salaries ->
   applySalaryAdjustments salaries = salaries).
Proof.
  unfold applySalaryAdjustments, applySummerDeduction, applyDecemberBonus. split.
  - rewrite !map_map. apply map_ext. intros s.
    apply decemberBonus_summerDeduction_commute.
  - intros Hplain. rewrite map_map.
    induction Hplain as [|s l Hs _ IH]; [reflexivity|].
    cbn [map]. rewrite IH. f_equal.
    unfold summerDeduction, decemberBonus, isSummer, isDecember.
    destruct (month s =? 12) eqn:E12; [lia|].
    destruct ((6 <=? month s) && (month s <=? 8)) eqn:Es; [lia|reflexivity].
Qed.

Lemma adjustment_passes_commute_witness :
  applySalaryAdjustments [mkSalary 3000%float 2 2024; mkSalary 3100%float 3 2024]
  = [mkSalary 3000%float 2 2024; mkSalary 3100%float 3 2024].
Proof.
  apply (proj2 (adjustment_passes_commute
                  [mkSalary 3000%float 2 2024; mkSalary 3100%float 3 2024])).
  repeat constructor; cbn; lia.
Defined.

(** [Math.max] on two values that are not NaN. *)
Lemma Math_max_spec (a b : Js.number) :
  PrimFloat.is_nan a = false -> PrimFloat.is_nan b = false ->
  (Js.Math_max a b = a \/ Js.Math_max a b = b) /\
  (a <=? Js.Math_max a b)%float = true /\
  (b <=? Js.Math_max a b)%float = true.
Proof.
  intros Ha Hb. unfold Js.Math_max. rewrite Ha, Hb. cbn [orb].
  destruct (a <? b)%float eqn:Hab.
  - split; [now right|]. split; [now apply ltb_leb|now apply leb_refl].
  - destruct (b <? a)%float eqn:Hba.
    + split; [now left|]. split; [now apply leb_refl|now apply ltb_leb].
    + pose proof (not_ltb_leb a b Ha Hb Hab) as Hle1.
      pose proof (not_ltb_leb b a Hb Ha Hba) as Hle2.
      destruct (get_sign a).
      * split; [now right|]. split; [exact Hle2|now apply leb_refl].
      * split; [now left|]. split; [now apply leb_refl|exact Hle1].
Qed.

Lemma fold_Math_max_spec (xs : list Js.number) :
  forall acc : Js.number,
    PrimFloat.is_nan acc = false ->
    Forall (fun x => PrimFloat.is_nan x = false) xs ->
    let r := fold_left Js.Math_max xs acc in
    In r (acc :: xs) /\ (acc <=? r)%float = true /\
    Forall (fun x => (x <=? r)%float = true) xs.
Proof.
  induction xs as [|x xs IH]; intros acc Hacc Hxs; cbn [fold_left].
  - split; [now left|]. split; [now apply leb_refl|constructor].
  - inversion Hxs as [|? ? Hx Hrest]; subst.
    destruct (Math_max_spec acc x Hacc Hx) as (Hsel & Hle1 & Hle2).
    assert (Hm : PrimFloat.is_nan (Js.Math_max acc x) = false).
    { destruct Hsel as [-> | ->]; assumption. }
    destruct (IH (Js.Math_max acc x) Hm Hrest) as (Hin & Hge & Hall).
    split; [|split].
    + destruct Hin as [Hin|Hin].
      * destruct Hsel as [E|E]; [left|right; left];
          (transitivity (Js.Math_max acc x); [symmetry; exact E|exact Hin]).
      * right; right. exact Hin.
    + eapply leb_trans; eauto.
    + constructor; [eapply leb_trans; eauto|exact Hall].
Qed.

Lemma leb_neg_infinity (x : float) :
  (x <=? neg_infinity)%float = true -> x = neg_infinity.
Proof.
  rewrite leb_rank. intros (a & b & Ha & Hb & Hle).
  apply Prim2SF_inj.
  change (Prim2SF neg_infinity) with (S754_infinity true) in Hb |- *.
  cbn in Hb. injection Hb as <-.
  destruct (Prim2SF x) as [s|s| |s m e]; cbn in Ha; try discriminate;
    try destruct s; injection Ha as <-; try reflexivity;
    exfalso; destruct Hle as [H|H]; try discriminate; unfold lex_lt in H; cbn in H; lia.
Qed.

(** X3. The highest salary of no record is 0.  Of records none of whose
    amounts is NaN it is the maximum: the amount of one of the records, and
    at least the amount of each. *)
Theorem findHighestSalary_maximum (salaries : list SalaryInfo) :
  findHighestSalary [] = 0%float /\
  (salaries <> [] ->
   Forall (fun s => PrimFloat.is_nan (amount s) = false) salaries ->
   (exists s, In s salaries /\ findHighestSalary salaries = amount s) /\
   Forall (fun s => (amount s <=? findHighestSalary salaries)%float = true) salaries).
Proof.
  split; [reflexivity|]. intros Hne Hnan.
  destruct salaries as [|s0 rest]; [congruence|].
  unfold findHighestSalary. cbn [length Nat.eqb].
  assert (Hxs : Forall (fun x => PrimFloat.is_nan x = false) (map amount (s0 :: rest))).
  { clear -Hnan. induction Hnan; constructor; auto. }
  pose proof (fold_Math_max_spec (map amount (s0 :: rest)) neg_infinity eq_refl Hxs)
    as Hfold.
  remember (fold_left Js.Math_max (map amount (s0 :: rest)) neg_infinity) as r eqn:Er.
  cbv zeta in Hfold. destruct Hfold as (Hin & _ & Hall).
  clear Er. split.
  - destruct Hin as [Hin|Hin].
    + exists s0. split; [now left|].
      inversion Hall as [|? ? H0 _]; subst r.
      apply leb_neg_infinity in H0. congruence.
    + apply in_map_iff in Hin. destruct Hin as (s & Hs & Hin). eauto.
  - clear -Hall. remember (s0 :: rest) as l. clear Heql.
    induction l as [|s l IH]; [constructor|].
    inversion Hall; subst. constructor; auto.
Qed.

Lemma findHighestSalary_maximum_witness :
  exists s,
    In s [mkSalary 4000%float 1 2024; mkSalary 5200%float 2 2024] /\
    findHighestSalary [mkSalary 4000%float 1 2024; mkSalary 5200%float 2 2024] = amount s.
Proof.
  apply (proj2 (findHighestSalary_maximum
                  [mkSalary 4000%float 1 2024; mkSalary 5200%float 2 2024])).
  - discriminate.
  - repeat constructor.
Defined.

End RuleEngineMore.

(* ------------------------------------------------------------------ *)
(** ** The validator *)

Section ValidatorMore.

Import Validator.

Lemma trimStart_whitespace (ws l : list ascii) :
  Forall (fun c => isWhitespace c = true) ws -> trimStart (ws ++ l) = trimStart l.
Proof.
  induction 1 as [|c ws Hc _ IH]; [reflexivity|].
  cbn [app trimStart]. now rewrite Hc.
Qed.

Lemma trimStart_app (l k : list ascii) :
  trimStart (l ++ k)
  = match trimStart l with
    | [] => trimStart k
    | _ :: _ => trimStart l ++ k
    end.
Proof.
  induction l as [|c l IH]; [cbn; now destruct (trimStart k)|].
  cbn [app trimStart]. destruct (isWhitespace c); [exact IH|reflexivity].
Qed.

Lemma trimStart_nil_whitespace (l : list ascii) :
  trimStart l = [] -> Forall (fun c => isWhitespace c = true) l.
Proof.
  induction l as [|c l IH]; [constructor|].
  cbn [trimStart]. destruct (isWhitespace c) eqn:Hc; [|discriminate].
  intros H. constructor; auto.
Qed.

Lemma list_ascii_of_string_app (s t : string) :
  list_ascii_of_string (s ++ t) = list_ascii_of_string s ++ list_ascii_of_string t.
Proof.
  induction s as [|c s IH]; [reflexivity|].
  change (list_ascii_of_string (String c s ++ t))
    with (c :: list_ascii_of_string (s ++ t)).
  now rewrite IH.
Qed.

Lemma trimStart_all_whitespace (ws : list ascii) :
  Forall (fun c => isWhitespace c = true) ws -> trimStart ws = [].
Proof.
  intros H. rewrite <- (app_nil_r ws). now rewrite trimStart_whitespace.
Qed.

Lemma trim_padding (pre post : list ascii) (s : string) :
  Forall (fun c => isWhitespace c = true) pre ->
  Forall (fun c => isWhitespace c = true) post ->
  rev (trimStart (rev (trimStart (pre ++ list_ascii_of_string s ++ post)))) = trim s.
Proof.
  intros Hpre Hpost. unfold trim.
  rewrite (trimStart_whitespace pre _ Hpre), trimStart_app.
  destruct (trimStart (list_ascii_of_string s)) as [|c l] eqn:E.
  - now rewrite (trimStart_all_whitespace post Hpost).
  - rewrite rev_app_distr, trimStart_whitespace; [reflexivity|].
    apply Forall_rev. exact Hpost.
Qed.

Lemma validateNationalNumber_regex (s : string) :
  validateNationalNumber s = nationalNumberRegex (trim s).
Proof.
  unfold validateNationalNumber.
  destruct (String.length s =? 0)%nat eqn:E0.
  - destruct s; [reflexivity|discriminate].
  - destruct (length (trim s) =? 0)%nat eqn:E1; [|reflexivity].
    destruct (trim s); [reflexivity|discriminate].
Qed.

(** X4. Whitespace around a key does not count: a key padded on either
    side with whitespace is valid exactly when the key is.  A valid key has
    seven characters once trimmed, three letters followed by four digits. *)
Theorem validateNationalNumber_padding (pre post s : string)
    (Hpre : Forall (fun c => isWhitespace c = true) (list_ascii_of_string pre))
    (Hpost : Forall (fun c => isWhitespace c = true) (list_ascii_of_string post)) :
  validateNationalNumber (pre ++ s ++ post) = validateNationalNumber s /\
  (validateNationalNumber s = true ->
   exists l1 l2 l3 d1 d2 d3 d4,
     trim s = [l1; l2; l3; d1; d2; d3; d4] /\
     isLetter l1 && isLetter l2 && isLetter l3 = true /\
     isDigit d1 && isDigit d2 && isDigit d3 && isDigit d4 = true).
Proof.
  split.
  - rewrite !validateNationalNumber_regex. f_equal.
    unfold trim at 1. rewrite !list_ascii_of_string_app.
    now apply trim_padding.
  - rewrite validateNationalNumber_regex. unfold nationalNumberRegex.
    destruct (trim s) as [|l1 [|l2 [|l3 [|d1 [|d2 [|d3 [|d4 [|x r]]]]]]]];
      try discriminate.
    intros H. exists l1, l2, l3, d1, d2, d3, d4. split; [reflexivity|].
    destruct (isLetter l1), (isLetter l2), (isLetter l3); try discriminate.
    split; [reflexivity|exact H].
Qed.

Lemma validateNationalNumber_padding_witness :
  validateNationalNumber (" " ++ "nat1001" ++ "  ") = validateNationalNumber "nat1001".
Proof.
  apply (validateNationalNumber_padding " " "  " "nat1001");
    repeat constructor.
Defined.

Lemma wellShaped_checks (s : SalaryInfo) :
  wellShaped s <->
  (amount s <? 0)%float = false /\
  (month s <? 1) || (12 <? month s) = false /\
  (year s <? 2000) = false.
Proof. unfold wellShaped. split; intros (H1 & H2 & H3); repeat split; auto; lia. Qed.

Lemma validateSalaryData_valid_iff (salaries : list SalaryInfo) :
  isValid (validateSalaryData salaries) = true <-> Forall wellShaped salaries.
Proof.
  induction salaries as [|s l IH]; [split; [constructor|reflexivity]|].
  cbn [validateSalaryData].
  destruct (amount s <? 0)%float eqn:Ea;
    [|destruct ((month s <? 1) || (12 <? month s)) eqn:Em;
      [|destruct (year s <? 2000) eqn:Ey]].
  1-3: split; [discriminate|]; intros H; inversion H as [|? ? Hs _]; subst;
       apply wellShaped_checks in Hs; destruct Hs as (? & ? & ?); congruence.
  rewrite IH. split.
  - intros H. constructor; [apply wellShaped_checks; auto|exact H].
  - intros H. now inversion H.
Qed.

Lemma validateSalaryData_refusal (salaries : list SalaryInfo) :
  isValid (validateSalaryData salaries) = false ->
  exists message,
    error (validateSalaryData salaries) = Some message /\
    (String.length message =? 0)%nat = false.
Proof.
  induction salaries as [|s l IH]; [discriminate|].
  cbn [validateSalaryData].
  destruct (amount s <? 0)%float; [intros _; eexists; split; reflexivity|].
  destruct ((month s <? 1) || (12 <? month s)); [intros _; eexists; split; reflexivity|].
  destruct (year s <? 2000); [intros _; eexists; split; reflexivity|].
  exact IH.
Qed.

(** X5. [validateSalaryData] accepts a list exactly when every record has
    an amount that is not below 0, a month from 1 to 12 and a year from
    2000.  When it refuses, it names the first check failed by the first
    record at fault, so a refusal always carries one of its three messages. *)
Theorem validateSalaryData_first_fault (salaries : list SalaryInfo) :
  (isValid (validateSalaryData salaries) = true <-> Forall wellShaped salaries) /\
  (isValid (validateSalaryData salaries) = true ->
   error (validateSalaryData salaries) = None) /\
  (isValid (validateSalaryData salaries) = false ->
   exists pre s post,
     salaries = pre ++ s :: post /\ Forall wellShaped pre /\ ~ wellShaped s /\
     error (validateSalaryData salaries)
     = Some (if (amount s <? 0)%float then "Invalid salary amount"%string
             else if (month s <? 1) || (12 <? month s) then "Invalid month value"%string
             else "Invalid year value"%string)).
Proof.
  induction salaries as [|s l (IHv & IHn & IHf)].
  - split; [split; [constructor|reflexivity]|]. split; [reflexivity|discriminate].
  - cbn [validateSalaryData].
    destruct (amount s <? 0)%float eqn:Ea;
      [|destruct ((month s <? 1) || (12 <? month s)) eqn:Em;
        [|destruct (year s <? 2000) eqn:Ey]].
    1-3: split; [split; [discriminate|];
                 intros H; inversion H as [|? ? Hs _]; subst;
                 apply wellShaped_checks in Hs; destruct Hs as (? & ? & ?); congruence|];
         (split; [discriminate|]); intros _;
         exists [], s, l; repeat split; try constructor; cbn [isValid error];
         rewrite ?Ea, ?Em; try reflexivity;
         intros Hs; apply wellShaped_checks in Hs; destruct Hs as (? & ? & ?); congruence.
    assert (Hs : wellShaped s) by (apply wellShaped_checks; auto).
    split; [|split].
    + rewrite IHv. split; [intros H; constructor; auto|].
      intros H; inversion H; auto.
    + exact IHn.
    + intros Hbad. destruct (IHf Hbad) as (pre & s' & post & -> & Hpre & Hs' & Herr).
      exists (s :: pre), s', post. repeat split; auto.
Qed.

Lemma validateSalaryData_first_fault_witness :
  error (validateSalaryData [mkSalary 3000%float 5 2024; mkSalary 3000%float 13 2024])
  <> None.
Proof.
  destruct (proj2 (proj2 (validateSalaryData_first_fault
              [mkSalary 3000%float 5 2024; mkSalary 3000%float 13 2024])) eq_refl)
    as (pre & s & post & _ & _ & _ & ->).
  discriminate.
Defined.

End ValidatorMore.

(* ------------------------------------------------------------------ *)
(** ** [processEmployeeStatus] as a whole *)

Section ProcessMore.

Import ProcessStatus.

Lemma EmpInfo_ext (a b : EmpInfo) :
  id a = id b -> username a = username b -> nationalNumber a = nationalNumber b ->
  email a = email b -> phone a = phone b -> isActive a = isActive b ->
  salaries a = salaries b -> adjustedSalaries a = adjustedSalaries b ->
  totalSalary a = totalSalary b -> averageSalary a = averageSalary b ->
  highestSalary a = highestSalary b -> taxAmount a = taxAmount b ->
  status a = status b -> lastUpdated a = lastUpdated b -> a = b.
Proof.
  destruct a, b.
  cbn [id username nationalNumber email phone isActive salaries adjustedSalaries
       totalSalary averageSalary highestSalary taxAmount status lastUpdated].
  intros; subst; reflexivity.
Qed.

Lemma processEmployeeStatus_accepts (now : Z) (e : EmpInfo) :
  isActive e = true -> (3 <= length (salaries e))%nat ->
  Validator.isValid (Validator.validateSalaryData (salaries e)) = true ->
  processEmployeeStatus now e
  = (Ok tt,
     let adjusted := applySalaryAdjustments (salaries e) in
     let total := calculateTotalSalary adjusted in
     let tax := calculateTax total in
     let average := calculateAverageSalary total tax (Js.of_nat (length adjusted)) in
     mkEmpInfo (id e) (username e) (nationalNumber e) (email e) (phone e) true
       (salaries e) adjusted total average (findHighestSalary adjusted) tax
       (Some (determineStatus average)) now).
Proof.
  intros Hact Hlen Hval. unfold processEmployeeStatus, Validator.isUserActive,
    Validator.hasSufficientData.
  rewrite Hact, Hval. apply Nat.leb_le in Hlen. rewrite Hlen. cbn [Bool.eqb negb].
  f_equal. apply EmpInfo_ext; try reflexivity. exact Hact.
Qed.

Lemma processEmployeeStatus_ok_inv (now : Z) (e : EmpInfo) :
  fst (processEmployeeStatus now e) = Ok tt ->
  isActive e = true /\ (3 <= length (salaries e))%nat /\
  Validator.isValid (Validator.validateSalaryData (salaries e)) = true.
Proof.
  unfold processEmployeeStatus, Validator.isUserActive, Validator.hasSufficientData.
  destruct (isActive e); [|discriminate]. cbn [Bool.eqb negb].
  destruct (3 <=? length (salaries e))%nat eqn:Hlen; [|discriminate].
  cbn [negb].
  destruct (Validator.isValid (Validator.validateSalaryData (salaries e))) eqn:Hval;
    [|discriminate].
  intros _. apply Nat.leb_le in Hlen. auto.
Qed.

(** X6. [processEmployeeStatus] succeeds exactly for an active employee
    with at least three salaries, all of them well shaped.  An active
    employee with at least three salaries of which one is malformed is
    refused with a BadRequestError (400) that carries the validator's
    message, and the object is left as it was. *)
Theorem processEmployeeStatus_outcome (now : Z) (e : EmpInfo) :
  (fst (processEmployeeStatus now e) = Ok tt <->
   isActive e = true /\ (3 <= length (salaries e))%nat /\
   Forall wellShaped (salaries e)) /\
  (isActive e = true -> (3 <= length (salaries e))%nat ->
   ~ Forall wellShaped (salaries e) ->
   exists message,
     Validator.error (Validator.validateSalaryData (salaries e)) = Some message /\
     processEmployeeStatus now e = (Throw (ApiError BadRequestError message), e)).
Proof.
  pose proof (validateSalaryData_valid_iff (salaries e)) as Hv.
  split.
  - split.
    + intros Hok. apply processEmployeeStatus_ok_inv in Hok.
      destruct Hok as (Hact & Hlen & Hval). repeat split; auto. now apply Hv.
    + intros (Hact & Hlen & Hshape).
      rewrite (processEmployeeStatus_accepts now e Hact Hlen (proj2 Hv Hshape)).
      reflexivity.
  - intros Hact Hlen Hbad.
    destruct (Validator.isValid (Validator.validateSalaryData (salaries e))) eqn:Hval.
    { exfalso. apply Hbad. now apply Hv. }
    destruct (validateSalaryData_refusal (salaries e) Hval) as (message & Herr & Hne).
    exists message. split; [exact Herr|].
    unfold processEmployeeStatus, Validator.isUserActive, Validator.hasSufficientData.
    rewrite Hact, Hval, Herr, Hne. apply Nat.leb_le in Hlen. rewrite Hlen.
    reflexivity.
Qed.

Lemma processEmployeeStatus_outcome_witness :
  fst (processEmployeeStatus 0 SampleCache.employee) = Ok tt.
Proof.
  apply (proj1 (processEmployeeStatus_outcome 0 SampleCache.employee)).
  split; [reflexivity|]. split; [cbn [SampleCache.employee built setSalaries salaries length]; lia|].
  repeat constructor; cbn [month year]; lia.
Defined.

(** X7. Processing is repeatable: an object that was processed, processed
    again, comes out the same but for the time stamp, since the pass reads
    the original salaries and never the adjusted ones. *)
Theorem processEmployeeStatus_repeatable (now later : Z) (e e' : EmpInfo)
    (Hfirst : processEmployeeStatus now e = (Ok tt, e')) :
  salaries e' = salaries e /\
  processEmployeeStatus later e' = (Ok tt, updateTimestamp later e') /\
  processEmployeeStatus now e' = (Ok tt, e').
Proof.
  assert (Hok : fst (processEmployeeStatus now e) = Ok tt) by now rewrite Hfirst.
  apply processEmployeeStatus_ok_inv in Hok.
  destruct Hok as (Hact & Hlen & Hval).
  rewrite (processEmployeeStatus_accepts now e Hact Hlen Hval) in Hfirst.
  injection Hfirst as <-. cbv zeta.
  split; [reflexivity|].
  split; (rewrite processEmployeeStatus_accepts; [reflexivity|reflexivity|exact Hlen|exact Hval]).
Qed.

Lemma processEmployeeStatus_repeatable_witness :
  salaries (snd (processEmployeeStatus 0 SampleCache.employee))
  = salaries SampleCache.employee.
Proof.
  apply (processEmployeeStatus_repeatable 0 5 SampleCache.employee
           (snd (processEmployeeStatus 0 SampleCache.employee))).
  vm_compute. reflexivity.
Defined.

End ProcessMore.

(* ------------------------------------------------------------------ *)
(** ** More of the retry executor *)

Section RetryMore.

Import RetryHandler.

Lemma loop_invoke_slept {T} (script : nat -> Thrown + T)
    (config : RetryConfig) (Hobs : log_only (onRetry config))
    (Hmsg : failsWithErrors script) :
  forall (fuel : nat) (attempt : Z) (d : Js.number) (last : Thrown) (w : World),
    (fuel <> O -> attempt = maxAttempts config - Z.of_nat fuel + 1) ->
    exists l,
      loop (invoke script) config fuel attempt d last w
      = (fst (attempts script (calls w) fuel last),
         mkWorld (clock w) l
           (slept w ++ pauses script (calls w) fuel d
                         (backoffMultiplier config) (maxDelay config))
           (redis w)
           (calls w + snd (attempts script (calls w) fuel last))).
Proof.
  induction fuel as [|fuel IH]; intros attempt d last w Hatt.
  - exists (logs w). destruct w; cbn. now rewrite Nat.add_0_r, app_nil_r.
  - specialize (Hatt ltac:(discriminate)).
    assert (Hle : (attempt <=? maxAttempts config) = true) by lia.
    cbn [loop]. rewrite Hle.
    unfold try_catch, bind, invoke. cbn [attempts pauses].
    destruct (script (calls w)) as [e|v] eqn:Es.
    + assert (He : e <> Undefined) by (intros ->; exact (Hmsg _ Es)).
      destruct fuel as [|fuel'].
      * assert (Heq : (attempt =? maxAttempts config) = true) by lia.
        rewrite Heq.
        match goal with |- context [message e ?w1] =>
          destruct (message_run e w1 He) as (m & ->) end.
        eexists. cbn. rewrite Nat.add_1_r, app_nil_r. reflexivity.
      * assert (Hne : (attempt =? maxAttempts config) = false) by lia.
        rewrite Hne.
        match goal with |- context [onRetry config attempt e ?w1] =>
          destruct (Hobs attempt e w1 He) as (l1 & ->) end.
        unfold delay, ret. cbn [clock logs slept redis calls].
        match goal with |- context [loop _ _ _ ?a ?d' e ?w2] =>
          destruct (IH a d' e w2) as (l2 & E); [intros _; lia|];
          unfold invoke in E; rewrite E; clear E end.
        cbn [clock logs slept redis calls].
        destruct (attempts script (S (calls w)) (S fuel') e) as [r n].
        eexists. cbn [fst snd]. rewrite Nat.add_succ_r, <- app_assoc. reflexivity.
    + destruct (1 <? attempt); eexists; cbn;
        rewrite Nat.add_1_r, app_nil_r; reflexivity.
Qed.

Lemma execute_invoke_slept {T} (script : nat -> Thrown + T) (options : RetryOptions)
    (Hobs : log_only (onRetry (merge options)))
    (Hmsg : failsWithErrors script) (w : World) :
  let config := merge options in
  let n := Z.to_nat (maxAttempts config) in
  exists l,
    execute (invoke script) options w
    = (fst (attempts script (calls w) n Undefined),
       mkWorld (clock w) l
         (slept w ++ pauses script (calls w) n (initialDelay config)
                       (backoffMultiplier config) (maxDelay config))
         (redis w)
         (calls w + snd (attempts script (calls w) n Undefined))).
Proof.
  unfold execute. apply loop_invoke_slept; [exact Hobs|exact Hmsg|]. intros Hn. lia.
Qed.

Lemma attempts_succeeds_after {T} (script : nat -> Thrown + T) (v : T) :
  forall (k c n : nat) (d m cap : Js.number) (last : Thrown),
    succeeds_after script c k v -> (k < n)%nat ->
    attempts script c n last = (Ok v, S k) /\
    pauses script c n d m cap = backoff k d m cap.
Proof.
  induction k as [|k IH]; intros c n d m cap last [Hfail Hok] Hlt.
  - destruct n as [|n]; [lia|]. cbn [attempts pauses backoff].
    rewrite Nat.add_0_r in Hok. rewrite Hok. split; reflexivity.
  - destruct n as [|[|n]]; [lia|lia|].
    destruct (Hfail c ltac:(lia)) as [e He].
    destruct (IH (S c) (S n) (Js.Math_min (d * m)%float cap) m cap e) as [Ea Ep].
    { split; [intros j Hj; apply Hfail; lia|].
      now rewrite Nat.add_succ_l, <- Nat.add_succ_r. }
    { lia. }
    change (attempts script c (S (S n)) last)
      with (match script c with
            | inr v => (Ok v, 1%nat)
            | inl e => let '(r, m) := attempts script (S c) (S n) e in (r, S m)
            end).
    change (pauses script c (S (S n)) d m cap)
      with (match script c with
            | inr _ => []
            | inl _ => d :: pauses script (S c) (S n)
                              (Js.Math_min (d * m)%float cap) m cap
            end).
    rewrite He, Ea, Ep. split; reflexivity.
Qed.

Lemma pauses_all_fail {T} (script : nat -> Thrown + T) :
  forall (n c : nat) (d m cap : Js.number),
    (forall k, (c <= k < c + S n)%nat -> exists e, script k = inl e) ->
    pauses script c (S n) d m cap = backoff n d m cap.
Proof.
  induction n as [|n IH]; intros c d m cap Hfail.
  - cbn. destruct (Hfail c ltac:(lia)) as [e ->]. reflexivity.
  - change (pauses script c (S (S n)) d m cap)
      with (match script c with
            | inr _ => []
            | inl _ => d :: pauses script (S c) (S n)
                              (Js.Math_min (d * m)%float cap) m cap
            end).
    destruct (Hfail c ltac:(lia)) as [e ->].
    rewrite IH by (intros k Hk; apply Hfail; lia). reflexivity.
Qed.

(** X8. With [maxAttempts] at 0 or below nothing is attempted: whatever the
    operation, [execute] throws [undefined] and leaves the world as it is. *)
Theorem execute_without_attempts {T} (fn : M T) (options : RetryOptions) (w : World)
    (HN : maxAttempts (merge options) <= 0) :
  execute fn options w = (Throw Undefined, w).
Proof.
  unfold execute. replace (Z.to_nat (maxAttempts (merge options))) with O by lia.
  reflexivity.
Qed.

Lemma execute_without_attempts_witness :
  execute (invoke Sample.flaky) (Sample.attemptsOnly 0) Sample.idle
  = (Throw Undefined, Sample.idle).
Proof.
  apply (execute_without_attempts (invoke Sample.flaky) (Sample.attemptsOnly 0)
           Sample.idle).
  cbn. lia.
Defined.

(** X9. An operation that succeeds at the first attempt is run once and
    nothing else happens: its result and the world it left are what
    [execute] gives, with no log entry, no callback and no sleep added. *)
Theorem execute_first_attempt {T} (fn : M T) (options : RetryOptions)
    (w w1 : World) (v : T)
    (HN : 1 <= maxAttempts (merge options))
    (Hfn : fn w = (Ok v, w1)) :
  execute fn options w = (Ok v, w1).
Proof.
  unfold execute.
  destruct (Z.to_nat (maxAttempts (merge options))) as [|n] eqn:En; [lia|].
  cbn [loop].
  assert (Hle : (1 <=? maxAttempts (merge options)) = true) by lia.
  rewrite Hle. unfold try_catch, bind. rewrite Hfn. reflexivity.
Qed.

Lemma execute_first_attempt_witness :
  execute (invoke (fun _ : nat => inr 7 : Thrown + Z)) (Sample.attemptsOnly 3) Sample.idle
  = (Ok 7, snd (invoke (fun _ : nat => inr 7 : Thrown + Z) Sample.idle)).
Proof.
  apply (execute_first_attempt (invoke (fun _ : nat => inr 7 : Thrown + Z))
           (Sample.attemptsOnly 3) Sample.idle).
  - cbn. lia.
  - reflexivity.
Defined.

(** X10. For an operation whose failures are errors and an observer that
    only logs: when the operation fails [k] times and then succeeds, [k]
    being below [maxAttempts], it is called [k + 1] times; its result is
    returned after exactly [k] sleeps, which are the first [k] delays of
    the backoff. *)
Theorem execute_succeeds_after {T} (script : nat -> Thrown + T)
    (options : RetryOptions) (w : World) (k : nat) (v : T)
    (Hobs : log_only (onRetry (merge options)))
    (Hmsg : failsWithErrors script)
    (Hk : Z.of_nat k < maxAttempts (merge options))
    (Hscript : succeeds_after script (calls w) k v) :
  let config := merge options in
  let run := execute (invoke script) options w in
  fst run = Ok v /\
  calls (snd run) = (calls w + S k)%nat /\
  slept (snd run)
  = slept w ++ backoff k (initialDelay config) (backoffMultiplier config)
                 (maxDelay config).
Proof.
  intros config run.
  destruct (execute_invoke_slept script options Hobs Hmsg w) as (l & E).
  cbv zeta in E. fold config in E. fold run in E.
  destruct (attempts_succeeds_after script v k (calls w)
              (Z.to_nat (maxAttempts config)) (initialDelay config)
              (backoffMultiplier config) (maxDelay config) Undefined Hscript)
    as [Ea Ep]; [subst config; lia|].
  rewrite E, Ea, Ep. repeat split.
Qed.

Lemma execute_succeeds_after_witness :
  slept (snd (execute (invoke Sample.flaky) (Sample.attemptsOnly 3) Sample.idle))
  = [1000%float].
Proof.
  apply (execute_succeeds_after Sample.flaky (Sample.attemptsOnly 3) Sample.idle 1 7).
  - intros attempt [] w H; [eexists; reflexivity..|congruence].
  - intros call. unfold Sample.flaky. destruct (call =? 0)%nat; discriminate.
  - cbn. lia.
  - split; [|reflexivity]. intros j Hj. assert (j = 0%nat) as -> by (cbn in Hj; lia).
    eexists. reflexivity.
Defined.

Lemma exhausted_slept {T} (script : nat -> Thrown + T)
    (options : RetryOptions) (w : World)
    (Hobs : log_only (onRetry (merge options)))
    (Hmsg : failsWithErrors script)
    (HN : 1 <= maxAttempts (merge options))
    (Hfail : forall k,
        (calls w <= k < calls w + Z.to_nat (maxAttempts (merge options)))%nat ->
        exists e, script k = inl e) :
  slept (snd (execute (invoke script) options w))
  = slept w ++ backoff (Z.to_nat (maxAttempts (merge options)) - 1)
                 (initialDelay (merge options)) (backoffMultiplier (merge options))
                 (maxDelay (merge options)).
Proof.
  destruct (execute_invoke_slept script options Hobs Hmsg w) as (l & E).
  cbv zeta in E. rewrite E. cbn [snd slept].
  destruct (Z.to_nat (maxAttempts (merge options))) as [|n] eqn:En; [lia|].
  rewrite pauses_all_fail by exact Hfail.
  now rewrite Nat.sub_succ, Nat.sub_0_r.
Qed.

(** X11. For an operation whose failures are errors and an observer that
    only logs: when the operation fails at every one of the [maxAttempts]
    attempts, [execute] sleeps [maxAttempts - 1] times, with the delays of
    the backoff, and not after the last failure.  Through
    [wrapDatabaseQuery] the sleeps are 500 ms and then 1000 ms. *)
Theorem execute_exhausted_sleeps {T} (script : nat -> Thrown + T)
    (options : RetryOptions) (w : World)
    (Hobs : log_only (onRetry (merge options)))
    (Hmsg : failsWithErrors script) :
  let config := merge options in
  (1 <= maxAttempts config ->
   (forall k, (calls w <= k < calls w + Z.to_nat (maxAttempts config))%nat ->
              exists e, script k = inl e) ->
   slept (snd (execute (invoke script) options w))
   = slept w ++ backoff (Z.to_nat (maxAttempts config) - 1) (initialDelay config)
                  (backoffMultiplier config) (maxDelay config)) /\
  (forall queryName,
     (forall k, (calls w <= k < calls w + 3)%nat -> exists e, script k = inl e) ->
     slept (snd (wrapDatabaseQuery (invoke script) queryName w))
     = slept w ++ [500%float; 1000%float]).
Proof.
  intros config. split.
  - intros HN Hfail. subst config. now apply exhausted_slept.
  - intros queryName Hfail. unfold wrapDatabaseQuery.
    match goal with |- context [execute _ ?o _] =>
      destruct (execute_invoke_slept script o (database_onRetry_log_only queryName)
                  Hmsg w)
        as (l & E) end.
    cbv zeta in E. rewrite E. cbn [snd slept].
    change (Z.to_nat _) with 3%nat.
    rewrite pauses_all_fail by exact Hfail. reflexivity.
Qed.

Lemma execute_exhausted_sleeps_witness :
  slept (snd (wrapDatabaseQuery (invoke Sample.broken) "q" Sample.idle))
  = [500%float; 1000%float].
Proof.
  apply (proj2 (execute_exhausted_sleeps Sample.broken
                  (Sample.attemptsOnly 3) Sample.idle
                  (default_onRetry_log_only 3) ltac:(intros call; discriminate)) "q").
  intros k _. eexists. reflexivity.
Defined.

(** X12. The callback can stop the retries: when the first attempt fails,
    more attempts remain and [onRetry] throws, what it throws is what
    [execute] throws, in the world the callback left; the operation is not
    called again and nothing is slept. *)
Theorem execute_observer_throws {T} (script : nat -> Thrown + T)
    (options : RetryOptions) (w w2 : World) (e e' : Thrown)
    (HN : 2 <= maxAttempts (merge options))
    (Hfail : script (calls w) = inl e)
    (Hcb : onRetry (merge options) 1 e (snd (invoke script w)) = (Throw e', w2)) :
  execute (invoke script) options w = (Throw e', w2).
Proof.
  unfold execute.
  destruct (Z.to_nat (maxAttempts (merge options))) as [|n] eqn:En; [lia|].
  cbn [loop].
  assert (Hle : (1 <=? maxAttempts (merge options)) = true) by lia.
  assert (Hne : (1 =? maxAttempts (merge options)) = false) by lia.
  rewrite Hle. unfold try_catch, bind.
  unfold invoke at 1. rewrite Hfail, Hne.
  unfold invoke in Hcb. cbn [snd] in Hcb. rewrite Hcb. reflexivity.
Qed.

Lemma execute_observer_throws_witness :
  fst (execute (invoke Sample.flaky)
         {| opt_maxAttempts := Some 3; opt_initialDelay := None; opt_maxDelay := None;
            opt_backoffMultiplier := None;
            opt_onRetry := Some (fun _ _ => throw (OtherError "observer")) |}
         Sample.idle)
  = Throw (OtherError "observer").
Proof.
  erewrite (execute_observer_throws Sample.flaky _ Sample.idle _
              (OtherError "connection reset") (OtherError "observer")).
  - reflexivity.
  - cbn. lia.
  - reflexivity.
  - reflexivity.
Defined.

Lemma Math_min_capped (a b : Js.number) :
  PrimFloat.is_nan (Js.Math_min a b) = false -> (Js.Math_min a b <=? b)%float = true.
Proof.
  unfold Js.Math_min.
  destruct (PrimFloat.is_nan a) eqn:Ha; [cbn; discriminate|].
  destruct (PrimFloat.is_nan b) eqn:Hb; [cbn; discriminate|].
  cbn [orb]. intros _.
  destruct (a <? b)%float eqn:Hab; [now apply ltb_leb|].
  destruct (b <? a)%float eqn:Hba; [now apply leb_refl|].
  destruct (get_sign a); [now apply not_ltb_leb|now apply leb_refl].
Qed.

Lemma backoff_capped (m cap : Js.number) :
  forall (n : nat) (d : Js.number),
    Forall (fun x => PrimFloat.is_nan x = false) (backoff (S n) d m cap) ->
    Forall (fun x => (x <=? cap)%float = true)
           (backoff n (Js.Math_min (d * m)%float cap) m cap).
Proof.
  induction n as [|n IH]; intros d Hnan; [constructor|].
  cbn [backoff] in Hnan |- *. inversion Hnan as [|? ? _ Hrest]; subst.
  constructor.
  - apply Math_min_capped. now inversion Hrest.
  - apply IH. exact Hrest.
Qed.

(** X13. The cap is on the delays that follow the first: for an operation
    whose failures are errors and an observer that only logs, when the
    operation fails at every attempt and no delay slept is NaN, the first
    sleep is [initialDelay] as given, capped or not, and each later sleep is
    at most [maxDelay]. *)
Theorem execute_delays_capped {T} (script : nat -> Thrown + T)
    (options : RetryOptions) (w : World)
    (Hobs : log_only (onRetry (merge options)))
    (Hmsg : failsWithErrors script)
    (HN : 2 <= maxAttempts (merge options))
    (Hfail : forall k,
        (calls w <= k < calls w + Z.to_nat (maxAttempts (merge options)))%nat ->
        exists e, script k = inl e)
    (Hnan : Forall (fun x => PrimFloat.is_nan x = false)
              (backoff (Z.to_nat (maxAttempts (merge options)) - 1)
                 (initialDelay (merge options)) (backoffMultiplier (merge options))
                 (maxDelay (merge options)))) :
  exists later,
    slept (snd (execute (invoke script) options w))
    = slept w ++ initialDelay (merge options) :: later /\
    length later = (Z.to_nat (maxAttempts (merge options)) - 2)%nat /\
    Forall (fun x => (x <=? maxDelay (merge options))%float = true) later.
Proof.
  rewrite (exhausted_slept script options w Hobs Hmsg ltac:(lia) Hfail).
  destruct (Z.to_nat (maxAttempts (merge options))) as [|[|n]] eqn:En; [lia|lia|].
  cbn [Nat.sub] in Hnan |- *. rewrite Nat.sub_0_r in *.
  eexists. split; [reflexivity|]. split.
  - clear. generalize (Js.Math_min
      (initialDelay (merge options) * backoffMultiplier (merge options))%float
      (maxDelay (merge options))).
    induction n as [|n IH]; intros d; [reflexivity|]. cbn [backoff length]. now rewrite IH.
  - apply backoff_capped. exact Hnan.
Qed.

Lemma execute_delays_capped_witness :
  exists later,
    slept (snd (execute (invoke Sample.broken)
                  {| opt_maxAttempts := Some 4; opt_initialDelay := Some 20000%float;
                     opt_maxDelay := None; opt_backoffMultiplier := None;
                     opt_onRetry := None |} Sample.idle))
    = slept Sample.idle ++ 20000%float :: later /\
    length later = 2%nat /\
    Forall (fun x => (x <=? 10000)%float = true) later.
Proof.
  apply (execute_delays_capped Sample.broken
           {| opt_maxAttempts := Some 4; opt_initialDelay := Some 20000%float;
              opt_maxDelay := None; opt_backoffMultiplier := None;
              opt_onRetry := None |} Sample.idle).
  - intros attempt [] w H; [eexists; reflexivity..|congruence].
  - intros call. discriminate.
  - cbn. lia.
  - intros k _. eexists. reflexivity.
  - repeat constructor.
Defined.

(** X29. A failure that is [undefined] ends the retries at once.  When the
    operation rejects with [undefined] at its first attempt, and either the
    observer is the default one or the attempt is the only one, [execute]
    throws the TypeError of reading [message] of [undefined]: the operation
    was called once, nothing was logged and nothing slept.  The same holds
    of [wrapDatabaseQuery]. *)
Theorem execute_undefined_failure {T} (script : nat -> Thrown + T)
    (options : RetryOptions) (w : World)
    (HN : 1 <= maxAttempts (merge options))
    (Hcb : opt_onRetry options = None \/ maxAttempts (merge options) = 1)
    (Hfail : script (calls w) = inl Undefined) :
  execute (invoke script) options w
  = (Throw (TypeError "message"), snd (invoke script w)) /\
  (forall queryName,
     wrapDatabaseQuery (invoke script) queryName w
     = (Throw (TypeError "message"), snd (invoke script w))) /\
  calls (snd (invoke script w)) = S (calls w) /\
  logs (snd (invoke script w)) = logs w /\
  slept (snd (invoke script w)) = slept w.
Proof.
  split; [|split; [|repeat split]].
  - unfold execute.
    destruct (Z.to_nat (maxAttempts (merge options))) as [|n] eqn:En; [lia|].
    cbn [loop].
    assert (Hle : (1 <=? maxAttempts (merge options)) = true) by lia.
    rewrite Hle. unfold try_catch, bind. unfold invoke at 1. rewrite Hfail.
    destruct (1 =? maxAttempts (merge options)) eqn:Eq; [reflexivity|].
    destruct Hcb as [Hcb|Hcb]; [|lia].
    unfold merge at 1. cbn [onRetry]. rewrite Hcb. reflexivity.
  - intros queryName. unfold wrapDatabaseQuery, execute.
    change (Z.to_nat _) with 3%nat. cbn [loop].
    change (1 <=? maxAttempts (merge _)) with true.
    change (1 =? maxAttempts (merge _)) with false. cbv iota.
    unfold try_catch, bind. unfold invoke at 1. rewrite Hfail. reflexivity.
Qed.

Lemma execute_undefined_failure_witness :
  fst (execute (invoke Sample.rejecting) (Sample.attemptsOnly 3) Sample.idle)
  = Throw (TypeError "message") /\
  calls (snd (execute (invoke Sample.rejecting) (Sample.attemptsOnly 3) Sample.idle))
  = 1%nat.
Proof.
  rewrite (proj1 (execute_undefined_failure Sample.rejecting (Sample.attemptsOnly 3)
                    Sample.idle ltac:(cbn; lia) (or_introl eq_refl) eq_refl)).
  split; reflexivity.
Defined.

End RetryMore.

(* ------------------------------------------------------------------ *)
(** ** More of the cache *)

Section CacheMore.

Lemma get_up (key : string) (w : World) :
  cacheUp (redis w) ->
  fst (CacheHandler.get key w)
  = Ok (JSON.parse <$> (snd <$> store (redis w) !! key)).
Proof.
  intros (Hc & Hcl & Hf). unfold CacheHandler.get, CacheHandler.unavailable.
  rewrite Hc, Hcl, Hf. cbn [negb orb].
  destruct (store (redis w) !! key) as [[ttl v]|]; reflexivity.
Qed.

Lemma get_down (key : string) (w : World) :
  ~ cacheUp (redis w) -> fst (CacheHandler.get key w) = Ok None.
Proof.
  intros Hdown. unfold CacheHandler.get, CacheHandler.unavailable, cacheUp in *.
  destruct (isConnected (redis w)), (client (redis w)), (failing (redis w));
    cbn [negb orb]; try reflexivity.
  exfalso. apply Hdown. auto.
Qed.

Lemma set_up (key : string) (value : Response) (ttl : option Z) (w : World) :
  cacheUp (redis w) ->
  redis (snd (CacheHandler.set key value ttl w))
  = if expiration ttl <=? 0 then redis w
    else mkRedis true true false
           (<[key := (expiration ttl, JSON.stringify value)]> (store (redis w))).
Proof.
  intros (Hc & Hcl & Hf). unfold CacheHandler.set, CacheHandler.unavailable.
  rewrite Hc, Hcl, Hf. cbn [negb orb].
  unfold try_catch, bind, CacheHandler.setEx.
  change (match ttl with
          | Some t => if t =? 0 then CacheHandler.defaultTTL else t
          | None => CacheHandler.defaultTTL
          end) with (expiration ttl).
  destruct (expiration ttl <=? 0); cbn; [reflexivity|].
  rewrite Hc, Hcl, Hf. reflexivity.
Qed.

Lemma set_down (key : string) (value : Response) (ttl : option Z) (w : World) :
  ~ cacheUp (redis w) -> redis (snd (CacheHandler.set key value ttl w)) = redis w.
Proof.
  intros Hdown. unfold CacheHandler.set, CacheHandler.unavailable, cacheUp in *.
  destruct (isConnected (redis w)), (client (redis w)), (failing (redis w));
    cbn [negb orb]; try reflexivity.
  exfalso. apply Hdown. auto.
Qed.

Lemma number_plain (v : Js.nullable) : JSON.number v = v <-> plainNumber v.
Proof.
  destruct v as [x|]; cbn [JSON.number plainNumber]; [|tauto].
  destruct (PrimFloat.is_nan x); cbn [orb].
  { split; [discriminate|intros (H & _); discriminate]. }
  destruct (PrimFloat.is_infinity x).
  { split; [discriminate|intros (_ & H & _); discriminate]. }
  destruct (PrimFloat.is_zero x).
  - split.
    + intros [= <-]. auto.
    + intros (_ & _ & H). now rewrite (H eq_refl).
  - split; [intros _; repeat split; discriminate|reflexivity].
Qed.

Lemma salaries_plain (l : list SalaryResponse) :
  map (fun s => {| Amount := JSON.number (Amount s); Month := Month s; Year := Year s |}) l
  = l <-> Forall (fun s => plainNumber (Amount s)) l.
Proof.
  induction l as [|[a m y] l IH]; cbn [map Amount Month Year].
  - split; [constructor|reflexivity].
  - split.
    + intros [= Ha Hl]. constructor; [now apply number_plain|now apply IH].
    + intros H. inversion H as [|? ? Ha Hl]; subst. cbn [Amount] in Ha.
      apply number_plain in Ha. apply IH in Hl. now rewrite Ha, Hl.
Qed.

Lemma roundtrip_plain (value : Response) :
  JSON.parse (JSON.stringify value) = value <-> plain value.
Proof.
  destruct value as [i u n e p a sal tot avg hi tax st lu].
  unfold plain, JSON.stringify, JSON.parse.
  cbn [ID Username NationalNumber Email Phone IsActive Salaries TotalSalary
       AverageSalary HighestSalary TaxAmount Status LastUpdated].
  split.
  - intros [= Hs Ht Ha Hh Hx].
    rewrite <- salaries_plain, <- !number_plain. auto.
  - intros (Hs & Ht & Ha & Hh & Hx).
    apply salaries_plain in Hs. apply number_plain in Ht, Ha, Hh, Hx.
    now rewrite Hs, Ht, Ha, Hh, Hx.
Qed.

(** X14. With the cache up, [set] returns normally and leaves the other
    keys as they read.  When the expiration time it asks for (the TTL
    given, or 3600 seconds when none or 0 is given) is positive, the entry
    expires after that time and [get] reads back under the key what JSON
    makes of the value: its numbers that are NaN or infinite are read as
    [null] and [-0] as [0], so the value read is the value written exactly
    when all its numbers are plain.  A negative TTL is refused by Redis:
    nothing is stored. *)
Theorem cache_set_then_get (key other : string) (value : Response)
    (ttl : option Z) (w : World)
    (Hup : cacheUp (redis w)) :
  let w' := snd (CacheHandler.set key value ttl w) in
  fst (CacheHandler.set key value ttl w) = Ok tt /\
  cacheUp (redis w') /\
  (other <> key -> fst (CacheHandler.get other w') = fst (CacheHandler.get other w)) /\
  (0 < expiration ttl ->
   fst (CacheHandler.get key w') = Ok (Some (JSON.parse (JSON.stringify value))) /\
   fst <$> store (redis w') !! key = Some (expiration ttl)) /\
  (expiration ttl <= 0 -> redis w' = redis w) /\
  (JSON.parse (JSON.stringify value) = value <-> plain value).
Proof.
  intros w'.
  assert (Hr : redis w' = _) by exact (set_up key value ttl w Hup).
  assert (Hup' : cacheUp (redis w')).
  { rewrite Hr. destruct (expiration ttl <=? 0); [exact Hup|repeat split]. }
  split.
  { destruct (set_run key value ttl w) as (l & ->). reflexivity. }
  split; [exact Hup'|]. split; [|split; [|split]].
  - intros Hne. rewrite (get_up other w' Hup'), (get_up other w Hup), Hr.
    destruct (expiration ttl <=? 0); [reflexivity|]. cbn [store].
    now rewrite lookup_insert_ne.
  - intros Hpos. assert (Hle : (expiration ttl <=? 0) = false) by lia.
    rewrite Hle in Hr. split.
    + rewrite (get_up key w' Hup'), Hr. cbn [store]. now rewrite lookup_insert_eq.
    + rewrite Hr. cbn [store]. now rewrite lookup_insert_eq.
  - intros Hneg. assert (Hle : (expiration ttl <=? 0) = true) by lia.
    now rewrite Hle in Hr.
  - apply roundtrip_plain.
Qed.

Lemma cache_set_then_get_witness :
  fst (CacheHandler.get "employee:NAT1001"
         (snd (CacheHandler.set "employee:NAT1001" SampleCache.response None Sample.idle)))
  = Ok (Some (JSON.parse (JSON.stringify SampleCache.response))).
Proof.
  destruct (cache_set_then_get "employee:NAT1001" "employee:NAT1003" SampleCache.response
              None Sample.idle ltac:(repeat split)) as (_ & _ & _ & Hread & _).
  apply Hread. reflexivity.
Defined.

(** X15. The cache never fails a caller: [get], [set], [delete] and
    [clear] always return normally, and when the cache is down (no client,
    not connected, or a client whose commands are rejected) [get] reads
    nothing and the others change nothing. *)
Theorem cache_degrades_silently (key : string) (value : Response)
    (ttl : option Z) (w : World) :
  (exists cached, fst (CacheHandler.get key w) = Ok cached) /\
  fst (CacheHandler.set key value ttl w) = Ok tt /\
  fst (CacheHandler.delete key w) = Ok tt /\
  fst (CacheHandler.clear w) = Ok tt /\
  (~ cacheUp (redis w) ->
   fst (CacheHandler.get key w) = Ok None /\
   redis (snd (CacheHandler.set key value ttl w)) = redis w /\
   redis (snd (CacheHandler.delete key w)) = redis w /\
   redis (snd (CacheHandler.clear w)) = redis w).
Proof.
  split; [|split; [|split; [|split]]].
  - destruct (get_run key w) as (l & cached & ->). eauto.
  - destruct (set_run key value ttl w) as (l & ->). reflexivity.
  - unfold CacheHandler.delete.
    destruct (CacheHandler.unavailable (redis w)); [reflexivity|].
    destruct (failing (redis w)); reflexivity.
  - unfold CacheHandler.clear.
    destruct (CacheHandler.unavailable (redis w)); [reflexivity|].
    destruct (failing (redis w)); reflexivity.
  - intros Hdown. split; [now apply get_down|]. split; [now apply set_down|].
    unfold CacheHandler.delete, CacheHandler.clear, CacheHandler.unavailable, cacheUp in *.
    destruct (isConnected (redis w)), (client (redis w)), (failing (redis w));
      cbn [negb orb]; try (split; reflexivity).
    exfalso. apply Hdown. auto.
Qed.

Lemma cache_degrades_silently_witness :
  redis (snd (CacheHandler.set "employee:NAT1001" SampleCache.response None
                SampleCache.offline))
  = redis SampleCache.offline.
Proof.
  apply (proj2 (proj2 (proj2 (proj2
           (cache_degrades_silently "employee:NAT1001" SampleCache.response None
              SampleCache.offline))))).
  intros (H & _). discriminate.
Defined.

Lemma cache_delete_and_clear_aux (key : string) (w : World) :
  cacheUp (redis w) ->
  fst (CacheHandler.get key (snd (CacheHandler.delete key w))) = Ok None /\
  (forall other, other <> key ->
     fst (CacheHandler.get other (snd (CacheHandler.delete key w)))
     = fst (CacheHandler.get other w)).
Proof.
  intros Hup. pose proof Hup as (Hc & Hcl & Hf).
  assert (Hd : redis (snd (CacheHandler.delete key w))
               = mkRedis true true false (base.delete key (store (redis w)))).
  { unfold CacheHandler.delete, CacheHandler.unavailable.
    rewrite Hc, Hcl, Hf. cbn. rewrite Hc, Hcl, Hf. reflexivity. }
  split.
  - rewrite get_up by (rewrite Hd; repeat split). rewrite Hd. cbn [store].
    now rewrite lookup_delete_eq.
  - intros other Hne. rewrite get_up by (rewrite Hd; repeat split).
    rewrite get_up by exact Hup. rewrite Hd. cbn [store].
    now rewrite lookup_delete_ne.
Qed.

(** X16. With the cache up, [delete] removes the entry of its key and of
    no other, and [clear] removes them all. *)
Theorem cache_delete_and_clear (key other : string) (w : World)
    (Hup : cacheUp (redis w)) :
  fst (CacheHandler.get key (snd (CacheHandler.delete key w))) = Ok None /\
  (other <> key ->
   fst (CacheHandler.get other (snd (CacheHandler.delete key w)))
   = fst (CacheHandler.get other w)) /\
  fst (CacheHandler.get other (snd (CacheHandler.clear w))) = Ok None.
Proof.
  destruct Hup as (Hc & Hcl & Hf).
  assert (Hd : redis (snd (CacheHandler.delete key w))
               = mkRedis true true false (base.delete key (store (redis w)))).
  { unfold CacheHandler.delete, CacheHandler.unavailable.
    rewrite Hc, Hcl, Hf. cbn. rewrite Hc, Hcl, Hf. reflexivity. }
  assert (Hcr : redis (snd (CacheHandler.clear w)) = mkRedis true true false ∅).
  { unfold CacheHandler.clear, CacheHandler.unavailable.
    rewrite Hc, Hcl, Hf. cbn. rewrite Hc, Hcl, Hf. reflexivity. }
  split; [|split].
  - rewrite get_up by (rewrite Hd; repeat split). rewrite Hd. cbn [store].
    now rewrite lookup_delete_eq.
  - intros Hne. rewrite get_up by (rewrite Hd; repeat split).
    rewrite get_up by (repeat split; assumption). rewrite Hd. cbn [store].
    now rewrite lookup_delete_ne.
  - rewrite get_up by (rewrite Hcr; repeat split). rewrite Hcr. cbn [store].
    now rewrite lookup_empty.
Qed.

Lemma cache_delete_and_clear_witness :
  fst (CacheHandler.get "employee:NAT1001"
         (snd (CacheHandler.delete "employee:NAT1001" SampleDb.warm))) = Ok None.
Proof.
  apply (cache_delete_and_clear "employee:NAT1001" "employee:NAT1003" SampleDb.warm).
  repeat split.
Defined.

End CacheMore.

(* ------------------------------------------------------------------ *)
(** ** What a request writes to the cache *)

Section CacheWrites.

Import EmployeeService.

(** C7. A request that ends in a failure, whichever it is, leaves the
    cache as it found it.  A request that returns a response either took
    it from the cache, which it then leaves alone, or computed it and
    handed the whole of it to [set] under [employee:{key}] with a TTL of
    3600 seconds, which with the cache up stores the text of the response
    with that TTL.  And a request does succeed and write: with a key of
    valid format, a cache that misses, and a fetch that gives an active
    employee with at least three salaries, all well shaped, the request
    returns the response computed from them and hands it to [set]; with
    the cache up, the cache then holds its text under [employee:{key}] with
    a TTL of 3600 seconds, the other entries being as they were. *)
Theorem cache_written_only_after_success
    (db : Database) (nationalNumber : string) (w : World) :
  let key := CacheHandler.getEmployeeKey nationalNumber in
  let run := getEmployeeStatus db nationalNumber w in
  let fetch :=
    RetryHandler.wrapDatabaseQuery
      (DataAccess.getUserWithSalaries db nationalNumber)
      ("getUserWithSalaries(" ++ nationalNumber ++ ")") w in
  (forall e, fst run = Throw e -> redis (snd run) = redis w) /\
  (forall response, fst run = Ok response ->
     (fst (CacheHandler.get key w) = Ok (Some response) /\
      redis (snd run) = redis w) \/
     (fst (CacheHandler.get key w) = Ok None /\
      redis (snd run)
      = redis (snd (CacheHandler.set key response (Some 3600) w)))) /\
  (forall response,
     cacheUp (redis w) ->
     store (redis (snd (CacheHandler.set key response (Some 3600) w)))
     = <[key := (3600, JSON.stringify response)]> (store (redis w))) /\
  (Validator.validateNationalNumber nationalNumber = true ->
   fst (CacheHandler.get key w) = Ok None ->
   forall user salaries,
     fst fetch = Ok (Some (user, salaries)) ->
     activeFlag user = true ->
     (3 <= length salaries)%nat ->
     Forall wellShaped salaries ->
     let response :=
       toResponse (snd (ProcessStatus.processEmployeeStatus (clock w)
                          (built user salaries (clock w)))) in
     fst run = Ok response /\
     redis (snd run) = redis (snd (CacheHandler.set key response (Some 3600) w)) /\
     (cacheUp (redis w) ->
      store (redis (snd run))
      = <[key := (3600, JSON.stringify response)]> (store (redis w)) /\
      fst (CacheHandler.get key (snd run))
      = Ok (Some (JSON.parse (JSON.stringify response))))).
Proof.
  intros key run fetch.
  assert (Hset : forall response,
     cacheUp (redis w) ->
     redis (snd (CacheHandler.set key response (Some 3600) w))
     = mkRedis true true false
         (<[key := (3600, JSON.stringify response)]> (store (redis w)))).
  { intros response Hup. now rewrite (set_up key response (Some 3600) w Hup). }
  destruct (getEmployeeStatus_run db nationalNumber w) as (l & sl & E).
  cbv zeta in E. fold key in E. fold run in E.
  split; [|split; [|split]].
  - destruct (get_run key w) as (lg & cached & Eg).
    rewrite Eg in E. cbn [fst] in E.
    intros e He. rewrite E in He |- *.
    destruct (negb _); [reflexivity|].
    destruct cached as [cached|]; [discriminate|].
    destruct (fst (attempts _ _ _ _)) as [[[user salaries]|]|e']; try reflexivity.
    destruct (ProcessStatus.processEmployeeStatus _ _) as [[[]|e''] processed];
      [discriminate|reflexivity].
  - destruct (get_run key w) as (lg & cached & Eg).
    rewrite Eg in E |- *. cbn [fst] in E |- *.
    intros response Hr. rewrite E in Hr |- *.
    destruct (negb _); [discriminate|].
    destruct cached as [cached|].
    { left. injection Hr as ->. split; reflexivity. }
    right. split; [reflexivity|].
    destruct (fst (attempts _ _ _ _)) as [[[user salaries]|]|e']; try discriminate.
    destruct (ProcessStatus.processEmployeeStatus _ _) as [[[]|e''] processed];
      [|discriminate].
    injection Hr as <-. reflexivity.
  - intros response Hup. now rewrite (Hset response Hup).
  - intros Hvalid Hmiss user sals Hfetch Hact Hlen Hshape response.
    destruct (wrapDatabaseQuery_invoke (DataAccess.outcome db nationalNumber)
                ("getUserWithSalaries(" ++ nationalNumber ++ ")") w
                (outcome_failsWithErrors db nationalNumber)) as (lf & slf & Ef).
    change (RetryHandler.wrapDatabaseQuery
              (invoke (DataAccess.outcome db nationalNumber))
              ("getUserWithSalaries(" ++ nationalNumber ++ ")") w) with fetch in Ef.
    rewrite Ef in Hfetch. cbn [fst] in Hfetch.
    rewrite Hvalid, Hmiss, Hfetch in E. cbn [negb] in E.
    assert (Hok : fst (ProcessStatus.processEmployeeStatus (clock w)
                         (built user sals (clock w))) = Ok tt).
    { rewrite processEmployeeStatus_accepts; [reflexivity|exact Hact|exact Hlen|].
      now apply validateSalaryData_valid_iff. }
    subst response.
    destruct (ProcessStatus.processEmployeeStatus (clock w) (built user sals (clock w)))
      as [[[]|e] processed]; [|discriminate Hok].
    cbn [snd]. rewrite E. cbn [fst snd redis].
    split; [reflexivity|]. split; [reflexivity|]. intros Hup.
    rewrite (Hset (toResponse processed) Hup). cbn [store]. split; [reflexivity|].
    rewrite get_up by (cbn [redis]; repeat split).
    cbn [redis store]. now rewrite lookup_insert_eq.
Qed.

Lemma cache_written_only_after_success_witness :
  (exists response,
     SampleDb.answered = Ok response /\
     store (redis SampleDb.warm) !! "employee:NAT1001"%string
     = Some (3600, JSON.stringify response)) /\
  redis (snd (getEmployeeStatus SampleDb.db "NAT1003" SampleDb.warm))
  = redis SampleDb.warm.
Proof.
  split.
  - destruct (cache_written_only_after_success SampleDb.db "NAT1001" Sample.idle)
      as (_ & _ & _ & Hwrite).
    destruct (Hwrite eq_refl ltac:(vm_compute; reflexivity)
                (SampleDb.row "NAT1001" true)
                [mkSalary 6000%float 12 2024; mkSalary 6000%float 7 2024;
                 mkSalary 6000%float 1 2024]
                ltac:(vm_compute; reflexivity) eq_refl ltac:(cbn; lia)
                ltac:(repeat constructor; cbn [month year]; lia))
      as (Hok & _ & Hup).
    destruct (Hup ltac:(repeat split)) as (Hstore & _).
    eexists. split; [exact Hok|].
    unfold SampleDb.warm. rewrite Hstore. apply lookup_insert_eq.
  - apply (proj1 (cache_written_only_after_success SampleDb.db "NAT1003" SampleDb.warm)
             (ApiError NotAcceptableError "User is not active")).
    vm_compute. reflexivity.
Defined.

End CacheWrites.

(* ------------------------------------------------------------------ *)
(** ** More of the orchestrator *)

Section ServiceMore.

Import EmployeeService.

Lemma attempts_called {T} (script : nat -> Thrown + T) (c n : nat) (last : Thrown) :
  (1 <= snd (attempts script c (S n) last) <= S n)%nat.
Proof.
  revert c last. induction n as [|n IH]; intros c last.
  - cbn. destruct (script c); cbn; lia.
  - change (attempts script c (S (S n)) last)
      with (match script c with
            | inr v => (Ok v, 1%nat)
            | inl e => let '(r, m) := attempts script (S c) (S n) e in (r, S m)
            end).
    destruct (script c) as [e|v]; [|cbn; lia].
    specialize (IH (S c) e). destruct (attempts script (S c) (S n) e). cbn in *. lia.
Qed.

Lemma attempts_throws {T} (script : nat -> Thrown + T) (c n : nat) (last e : Thrown) :
  fst (attempts script c (S n) last) = Throw e -> exists k, script k = inl e.
Proof.
  revert c last. induction n as [|n IH]; intros c last.
  - cbn. destruct (script c) as [e0|v] eqn:E; cbn; [|discriminate].
    intros [= <-]. eauto.
  - change (attempts script c (S (S n)) last)
      with (match script c with
            | inr v => (Ok v, 1%nat)
            | inl e => let '(r, m) := attempts script (S c) (S n) e in (r, S m)
            end).
    destruct (script c) as [e0|v]; [|cbn; discriminate].
    specialize (IH (S c) e0). destruct (attempts script (S c) (S n) e0). cbn in *.
    exact IH.
Qed.

(** X17. A key of invalid format is refused at once with a BadRequestError
    (400): two log entries are written and nothing else happens, the cache
    is not read and the record store is not called. *)
Theorem invalid_key_touches_nothing (db : Database) (nationalNumber : string) (w : World)
    (Hbad : Validator.validateNationalNumber nationalNumber = false) :
  getEmployeeStatus db nationalNumber w
  = (Throw (ApiError BadRequestError
              "Invalid NationalNumber format. Expected format: NAT1001"),
     mkWorld (clock w)
       (logs w ++ [(Info, "Processing employee status request"%string)]
               ++ [(Warn, "Invalid national number format"%string)])
       (slept w) (redis w) (calls w)).
Proof.
  unfold getEmployeeStatus. cbv [bind Logger.info Logger.warn Logger.log throw].
  rewrite Hbad. cbn [negb clock logs slept redis calls].
  now rewrite <- app_assoc.
Qed.

Lemma invalid_key_touches_nothing_witness :
  fst (getEmployeeStatus SampleDb.db "NAT10011" Sample.idle)
  = Throw (ApiError BadRequestError
             "Invalid NationalNumber format. Expected format: NAT1001").
Proof.
  rewrite (invalid_key_touches_nothing SampleDb.db "NAT10011" Sample.idle eq_refl).
  reflexivity.
Defined.

(** X18. With the cache up, a request that succeeded can be repeated: the
    same key asked again in the world the first request left is answered
    from the cache, whatever the record store holds by then, and the store
    is not called.  The answer is the first response itself when that one
    came from the cache, and otherwise what JSON makes of it, which is the
    first response itself when all its numbers are plain. *)
Theorem repeated_request_is_cached (db db' : Database) (nationalNumber : string)
    (w : World) (response : Response)
    (Hvalid : Validator.validateNationalNumber nationalNumber = true)
    (Hup : cacheUp (redis w))
    (Hfirst : fst (getEmployeeStatus db nationalNumber w) = Ok response) :
  let key := CacheHandler.getEmployeeKey nationalNumber in
  let w' := snd (getEmployeeStatus db nationalNumber w) in
  let again := getEmployeeStatus db' nationalNumber w' in
  fst again
  = Ok (match fst (CacheHandler.get key w) with
        | Ok (Some _) => response
        | _ => JSON.parse (JSON.stringify response)
        end) /\
  (plain response -> fst again = Ok response) /\
  calls (snd again) = calls w' /\
  redis (snd again) = redis w'.
Proof.
  intros key w' again.
  set (served := match fst (CacheHandler.get key w) with
                 | Ok (Some _) => response
                 | _ => JSON.parse (JSON.stringify response)
                 end).
  assert (Hhit : fst (CacheHandler.get key w') = Ok (Some served)).
  { subst w' served. destruct (getEmployeeStatus_run db nationalNumber w) as (l & sl & E).
    cbv zeta in E. fold key in E. rewrite Hvalid in E. cbn [negb] in E.
    rewrite (get_up _ w Hup) in E |- *. rewrite E in Hfirst |- *.
    destruct (store (redis w) !! key)
      as [[ttl v]|] eqn:El; cbn [fmap option_fmap option_map snd] in *.
    - injection Hfirst as <-. rewrite get_up by exact Hup. cbn [snd redis].
      now rewrite El.
    - destruct (fst (attempts _ _ _ _)) as [[[user salaries]|]|e]; try discriminate.
      destruct (ProcessStatus.processEmployeeStatus _ _) as [[[]|e] processed];
        try discriminate.
      injection Hfirst as <-. cbn [snd].
      rewrite get_up; cbn [redis]; rewrite (set_up _ _ _ w Hup);
        cbn [expiration Z.eqb Z.leb Z.compare]; [|repeat split].
      cbn [store]. now rewrite lookup_insert_eq. }
  assert (Hagain : again = (Ok served, snd again) /\
                   calls (snd again) = calls w' /\ redis (snd again) = redis w').
  { subst again. destruct (getEmployeeStatus_run db' nationalNumber w') as (l & sl & E).
    cbv zeta in E. fold key in E. rewrite Hvalid, Hhit in E. cbn [negb] in E.
    rewrite E. repeat split. }
  destruct Hagain as (Ha & Hc & Hr).
  split; [now rewrite Ha|]. split; [|split; assumption].
  intros Hplain. rewrite Ha. cbn [fst]. f_equal. subst served.
  destruct (fst (CacheHandler.get key w)) as [[cached|]|e]; try reflexivity;
    now apply roundtrip_plain.
Qed.

Lemma repeated_request_is_cached_witness :
  exists response,
    SampleDb.answered = Ok response /\
    fst (getEmployeeStatus SampleDb.down "NAT1001" SampleDb.warm) = Ok response.
Proof.
  destruct SampleDb.answered as [response|e] eqn:E; [|vm_compute in E; discriminate].
  exists response. split; [reflexivity|].
  apply (repeated_request_is_cached SampleDb.db SampleDb.down "NAT1001" Sample.idle
           response eq_refl ltac:(repeat split) E).
  vm_compute in E. injection E as <-.
  repeat split; repeat constructor; discriminate.
Defined.

(** X19. A cache that is down is as good as a cache that is empty: the
    request gives the answer it would give with the cache up and empty, and
    the cache is left as it was. *)
Theorem degraded_cache_is_a_miss (db : Database) (nationalNumber : string) (w : World)
    (Hdown : ~ cacheUp (redis w)) :
  fst (getEmployeeStatus db nationalNumber w)
  = fst (getEmployeeStatus db nationalNumber (cold w)) /\
  redis (snd (getEmployeeStatus db nationalNumber w)) = redis w.
Proof.
  destruct (getEmployeeStatus_run db nationalNumber w) as (l & sl & E).
  destruct (getEmployeeStatus_run db nationalNumber (cold w)) as (l' & sl' & E').
  cbv zeta in E, E'. rewrite E, E'.
  rewrite (get_down _ w Hdown).
  rewrite (get_up _ (cold w)) by (repeat split).
  cbn [cold clock calls redis store]. rewrite lookup_empty.
  cbn [fmap option_fmap option_map].
  destruct (negb _); [split; reflexivity|].
  destruct (fst (attempts _ _ _ _)) as [[[user salaries]|]|e]; try (split; reflexivity).
  destruct (ProcessStatus.processEmployeeStatus _ _) as [[[]|e] processed];
    [|split; reflexivity].
  split; [reflexivity|]. cbn [snd redis]. now apply set_down.
Qed.

Lemma degraded_cache_is_a_miss_witness :
  redis (snd (getEmployeeStatus SampleDb.db "NAT1001" SampleCache.offline))
  = redis SampleCache.offline.
Proof.
  apply (degraded_cache_is_a_miss SampleDb.db "NAT1001" SampleCache.offline).
  intros (H & _). discriminate.
Defined.

Lemma adjusted_months_years (salaries : list SalaryInfo) :
  Forall wellShaped salaries ->
  Forall (fun s => 1 <= Month s <= 12 /\ 2000 <= Year s)
    (map (fun s => {| Amount := Js.Num (amount s); Month := month s; Year := year s |})
         (ProcessStatus.applySalaryAdjustments salaries)).
Proof.
  unfold ProcessStatus.applySalaryAdjustments, ProcessStatus.applySummerDeduction,
    ProcessStatus.applyDecemberBonus.
  induction 1 as [|s l (_ & Hm & Hy) _ IH]; [constructor|].
  cbn [map]. constructor; [|exact IH]. cbn [Month Year].
  unfold ProcessStatus.summerDeduction, ProcessStatus.decemberBonus,
    ProcessStatus.isSummer, ProcessStatus.isDecember.
  destruct (month s =? 12); cbn [month year];
    destruct ((6 <=? month s) && (month s <=? 8)); cbn [month year]; auto.
Qed.

(** X20. A response that was computed (valid key, cache missed) hangs
    together: the employee is active, there are at least three salaries,
    each with a month from 1 to 12 and a year from 2000, the total, the tax
    and the average are numbers, the tax is the tax of the total, the
    average is the average of total, tax and count, the status is the
    status of the average, and the time stamp is the clock's. *)
Theorem computed_response_consistent (db : Database) (nationalNumber : string)
    (w : World) (response : Response)
    (Hvalid : Validator.validateNationalNumber nationalNumber = true)
    (Hmiss : fst (CacheHandler.get (CacheHandler.getEmployeeKey nationalNumber) w)
             = Ok None)
    (Hok : fst (getEmployeeStatus db nationalNumber w) = Ok response) :
  IsActive response = true /\
  (3 <= length (Salaries response))%nat /\
  Forall (fun s => 1 <= Month s <= 12 /\ 2000 <= Year s) (Salaries response) /\
  (exists total average : Js.number,
     TotalSalary response = Js.Num total /\
     TaxAmount response = Js.Num (ProcessStatus.calculateTax total) /\
     AverageSalary response = Js.Num average /\
     average
     = ProcessStatus.calculateAverageSalary total (ProcessStatus.calculateTax total)
         (Js.of_nat (length (Salaries response))) /\
     Status response = Some (ProcessStatus.determineStatus average)) /\
  LastUpdated response = clock w.
Proof.
  destruct (getEmployeeStatus_run db nationalNumber w) as (l & sl & E).
  cbv zeta in E. rewrite Hvalid, Hmiss in E. cbn [negb] in E.
  rewrite E in Hok. clear E.
  destruct (fst (attempts _ _ _ _)) as [[[user sals]|]|e]; try discriminate.
  destruct (ProcessStatus.processEmployeeStatus (clock w) (built user sals (clock w)))
    as [[[]|e] processed] eqn:Ep; try discriminate.
  injection Hok as <-.
  assert (Hfst : fst (ProcessStatus.processEmployeeStatus (clock w)
                        (built user sals (clock w))) = Ok tt) by now rewrite Ep.
  apply processEmployeeStatus_ok_inv in Hfst. destruct Hfst as (Hact & Hlen & Hval).
  rewrite (processEmployeeStatus_accepts _ _ Hact Hlen Hval) in Ep.
  injection Ep as <-. cbv zeta.
  change (salaries (built user sals (clock w))) with sals in *.
  unfold toResponse.
  cbn [IsActive Salaries TaxAmount TotalSalary AverageSalary Status LastUpdated
       isActive adjustedSalaries taxAmount totalSalary averageSalary status lastUpdated].
  rewrite !length_map, !applySalaryAdjustments_length.
  split; [reflexivity|]. split; [exact Hlen|]. split.
  { apply adjusted_months_years. now apply validateSalaryData_valid_iff. }
  split; [|reflexivity].
  eexists _, _. repeat split.
Qed.

Lemma computed_response_consistent_witness :
  exists response,
    SampleDb.answered = Ok response /\ Status response = Some GREEN.
Proof.
  destruct SampleDb.answered as [response|e] eqn:E; [|vm_compute in E; discriminate].
  exists response. split; [reflexivity|].
  destruct (computed_response_consistent SampleDb.db "NAT1001" Sample.idle response
              eq_refl eq_refl E) as (_ & _ & _ & (total & average & _ & _ & Ha & _ & ->) & _).
  vm_compute in E. injection E as <-. injection Ha as <-. vm_compute. reflexivity.
Defined.

Lemma getEmployeeStatus_slept (db : Database) (nationalNumber : string) (w : World) :
  slept (snd (getEmployeeStatus db nationalNumber w))
  = if negb (Validator.validateNationalNumber nationalNumber) then slept w
    else
      match fst (CacheHandler.get (CacheHandler.getEmployeeKey nationalNumber) w) with
      | Ok None =>
          slept w ++ pauses (DataAccess.outcome db nationalNumber) (calls w) 3
                       500%float 2%float 10000%float
      | _ => slept w
      end.
Proof.
  unfold getEmployeeStatus.
  cbv [bind Logger.info Logger.log].
  destruct (negb (Validator.validateNationalNumber nationalNumber)); [reflexivity|].
  set (key := CacheHandler.getEmployeeKey nationalNumber).
  match goal with |- context [CacheHandler.get key ?w1] =>
    destruct (get_run key w1) as (l1 & cached & E1);
    rewrite E1;
    rewrite <- (get_redis_only key w1 w eq_refl), E1 end.
  cbn [fst clock logs slept redis calls].
  destruct cached as [cached|]; [reflexivity|].
  unfold DataAccess.getUserWithSalaries, RetryHandler.wrapDatabaseQuery.
  match goal with |- context [RetryHandler.execute _ ?o ?w2] =>
    destruct (execute_invoke_slept (DataAccess.outcome db nationalNumber) o
                (database_onRetry_log_only _)
                (outcome_failsWithErrors db nationalNumber) w2) as (l2 & E2);
    cbv zeta in E2; rewrite E2 end.
  cbn [fst clock logs slept redis calls].
  change (Z.to_nat _) with 3%nat.
  destruct (fst (attempts _ _ 3 _)) as [[[user salaries]|]|e]; try reflexivity.
  cbv [Logger.debug Logger.log now]. cbn [fst clock logs slept redis calls].
  destruct (ProcessStatus.processEmployeeStatus _ _) as [[[]|e] processed];
    [|reflexivity].
  match goal with |- context [CacheHandler.set key ?v ?t ?w3] =>
    destruct (set_run key v t w3) as (l3 & E3); rewrite E3 end.
  reflexivity.
Qed.

Lemma pauses_three {T} (script : nat -> Thrown + T) (c : nat) :
  let p := pauses script c 3 500%float 2%float 10000%float in
  p = [] \/ p = [500%float] \/ p = [500%float; 1000%float].
Proof.
  cbn [pauses]. destruct (script c); [|now left].
  destruct (script (S c)); [|right; left; reflexivity].
  right; right. destruct (script (S (S c))); reflexivity.
Qed.

(** X21. A request sleeps only between attempts at the record store: not at
    all for an invalid key or a cache hit, and otherwise for 500 ms after a
    first failed attempt and 1000 ms after a second, never more. *)
Theorem request_sleeps_bounded (db : Database) (nationalNumber : string) (w : World) :
  let added := [[]; [500%float]; [500%float; 1000%float]] in
  (exists s, In s added /\
             slept (snd (getEmployeeStatus db nationalNumber w)) = slept w ++ s) /\
  (Validator.validateNationalNumber nationalNumber = false \/
   (exists cached,
      fst (CacheHandler.get (CacheHandler.getEmployeeKey nationalNumber) w)
      = Ok (Some cached)) ->
   slept (snd (getEmployeeStatus db nationalNumber w)) = slept w).
Proof.
  intros added. rewrite getEmployeeStatus_slept. split.
  - destruct (negb _); [exists []; split; [now left|now rewrite app_nil_r]|].
    destruct (fst (CacheHandler.get _ w)) as [[cached|]|e];
      try (exists []; split; [now left|now rewrite app_nil_r]).
    destruct (pauses_three (DataAccess.outcome db nationalNumber) (calls w))
      as [E|[E|E]]; cbv zeta in E; rewrite E; eexists; (split; [|reflexivity]);
      cbn; auto.
  - intros [Hbad|[cached Hhit]]; [now rewrite Hbad|].
    rewrite Hhit. now destruct (negb _).
Qed.

Lemma request_sleeps_bounded_witness :
  slept (snd (getEmployeeStatus SampleDb.db "bad key" Sample.idle)) = slept Sample.idle.
Proof.
  apply (proj2 (request_sleeps_bounded SampleDb.db "bad key" Sample.idle)).
  left. reflexivity.
Defined.

(** X22. When the record store rejects the user query at each of the three
    attempts, the request fails with an InternalServerError (500) "Database
    error while fetching user": the store was called three times and the
    cache is as it was. *)
Theorem store_failure_after_three_calls (db : Database) (nationalNumber : string)
    (w : World)
    (Hvalid : Validator.validateNationalNumber nationalNumber = true)
    (Hmiss : fst (CacheHandler.get (CacheHandler.getEmployeeKey nationalNumber) w)
             = Ok None)
    (Hdown : forall k, (calls w <= k < calls w + 3)%nat ->
                       findOne db k nationalNumber = None) :
  fst (getEmployeeStatus db nationalNumber w)
  = Throw (ApiError InternalServerError "Database error while fetching user") /\
  statusCode InternalServerError = 500 /\
  calls (snd (getEmployeeStatus db nationalNumber w)) = (calls w + 3)%nat /\
  redis (snd (getEmployeeStatus db nationalNumber w)) = redis w.
Proof.
  destruct (getEmployeeStatus_run db nationalNumber w) as (l & sl & E).
  cbv zeta in E. rewrite Hvalid, Hmiss in E. cbn [negb] in E.
  rewrite (attempts_all_fail (DataAccess.outcome db nationalNumber)
             (fun _ => ApiError InternalServerError "Database error while fetching user")
             2 (calls w) Undefined) in E.
  - rewrite E. repeat split.
  - intros k Hk. unfold DataAccess.outcome, DataAccess.getUserByNationalNumber.
    now rewrite (Hdown k Hk).
Qed.

Lemma store_failure_after_three_calls_witness :
  calls (snd (getEmployeeStatus SampleDb.down "NAT1001" Sample.idle)) = 3%nat.
Proof.
  apply (store_failure_after_three_calls SampleDb.down "NAT1001" Sample.idle
           eq_refl eq_refl).
  intros k _. reflexivity.
Defined.

(** X23. With the cache up, [invalidateCache] returns normally, removes the
    entry of the employee and no other, and the next request for that
    employee goes to the record store. *)
Theorem invalidateCache_forces_fetch (db : Database) (nationalNumber other : string)
    (w : World)
    (Hvalid : Validator.validateNationalNumber nationalNumber = true)
    (Hup : cacheUp (redis w)) :
  let key := CacheHandler.getEmployeeKey nationalNumber in
  let w1 := snd (invalidateCache nationalNumber w) in
  fst (invalidateCache nationalNumber w) = Ok tt /\
  fst (CacheHandler.get key w1) = Ok None /\
  (other <> key -> fst (CacheHandler.get other w1) = fst (CacheHandler.get other w)) /\
  (calls w1 < calls (snd (getEmployeeStatus db nationalNumber w1)))%nat.
Proof.
  intros key w1.
  assert (Hinv : invalidateCache nationalNumber w
                 = (Ok tt, mkWorld (clock w)
                             (logs (snd (CacheHandler.delete key w))
                                ++ [(Info, "Cache invalidated"%string)])
                             (slept (snd (CacheHandler.delete key w)))
                             (redis (snd (CacheHandler.delete key w)))
                             (calls w))).
  { unfold invalidateCache, bind. fold key.
    unfold CacheHandler.delete.
    destruct (CacheHandler.unavailable (redis w)); [reflexivity|].
    destruct (failing (redis w)); reflexivity. }
  assert (Hredis : redis w1 = redis (snd (CacheHandler.delete key w))).
  { subst w1. now rewrite Hinv. }
  assert (Hget : forall k, fst (CacheHandler.get k w1)
                           = fst (CacheHandler.get k (snd (CacheHandler.delete key w)))).
  { intros k. now apply get_redis_only. }
  destruct (cache_delete_and_clear_aux key w Hup) as (Hgone & Hkept).
  split; [now rewrite Hinv|]. split; [now rewrite Hget|].
  split; [intros Hne; rewrite Hget; now apply Hkept|].
  destruct (getEmployeeStatus_run db nationalNumber w1) as (l & sl & E).
  cbv zeta in E. fold key in E. rewrite Hvalid, Hget, Hgone in E. cbn [negb] in E.
  rewrite E.
  pose proof (attempts_called (DataAccess.outcome db nationalNumber) (calls w1) 2
                Undefined) as Hcalled.
  destruct (fst (attempts _ _ _ _)) as [[[user salaries]|]|e]; cbn [snd calls]; try lia.
  destruct (ProcessStatus.processEmployeeStatus _ _) as [[[]|e] processed];
    cbn [snd calls]; lia.
Qed.

Lemma invalidateCache_forces_fetch_witness :
  (calls (snd (invalidateCache "NAT1001" SampleDb.warm))
   < calls (snd (getEmployeeStatus SampleDb.db "NAT1001"
                   (snd (invalidateCache "NAT1001" SampleDb.warm)))))%nat.
Proof.
  apply (invalidateCache_forces_fetch SampleDb.db "NAT1001" "employee:NAT1003"
           SampleDb.warm eq_refl).
  repeat split.
Defined.

End ServiceMore.

(* ------------------------------------------------------------------ *)
(** ** The HTTP side *)

Section Http.

Lemma processEmployeeStatus_throws (now : Z) (e : EmpInfo) (err : Thrown) :
  fst (ProcessStatus.processEmployeeStatus now e) = Throw err ->
  exists c message, err = ApiError c message /\ c <> UnauthorizedError.
Proof.
  unfold ProcessStatus.processEmployeeStatus.
  destruct (negb (Validator.isUserActive _)); [intros [= <-]; eexists _, _; split; [reflexivity|discriminate]|].
  destruct (negb (Validator.hasSufficientData _)); [intros [= <-]; eexists _, _; split; [reflexivity|discriminate]|].
  destruct (negb (Validator.isValid _)); [intros [= <-]; eexists _, _; split; [reflexivity|discriminate]|].
  discriminate.
Qed.

Lemma getEmployeeStatus_throws (db : Database) (nationalNumber : string) (w : World)
    (err : Thrown) :
  fst (EmployeeService.getEmployeeStatus db nationalNumber w) = Throw err ->
  exists c message, err = ApiError c message /\ c <> UnauthorizedError.
Proof.
  destruct (getEmployeeStatus_run db nationalNumber w) as (l & sl & E).
  cbv zeta in E. rewrite E. clear E.
  destruct (negb _); [intros [= <-]; eexists _, _; split; [reflexivity|discriminate]|].
  destruct (get_run (CacheHandler.getEmployeeKey nationalNumber) w) as (lg & cached & ->).
  cbn [fst]. destruct cached as [cached|]; [discriminate|].
  destruct (fst (attempts (DataAccess.outcome db nationalNumber) (calls w) 3 Undefined))
    as [[[user sals]|]|e] eqn:Ef.
  - destruct (ProcessStatus.processEmployeeStatus (clock w) (built user sals (clock w)))
      as [[[]|e] processed] eqn:Ep; [discriminate|].
    intros [= <-]. apply (processEmployeeStatus_throws (clock w) (built user sals (clock w))).
    now rewrite Ep.
  - intros [= <-]. eexists _, _; split; [reflexivity|discriminate].
  - intros [= <-]. apply attempts_throws in Ef. destruct Ef as [k Hk].
    unfold DataAccess.outcome, DataAccess.getUserByNationalNumber,
      DataAccess.getSalariesByUserId in Hk.
    destruct (findOne db k nationalNumber) as [[user|]|]; try discriminate.
    + destruct (findAll db k (u_id user)); [discriminate|].
      injection Hk as <-. eexists _, _; split; [reflexivity|discriminate].
    + injection Hk as <-. eexists _, _; split; [reflexivity|discriminate].
Qed.

Lemma getEmployeeStatusOf_throws (db : Database) (f : Field) (w : World) (err : Thrown) :
  fst (EmployeeController.getEmployeeStatusOf db f w) = Throw err ->
  exists c message, err = ApiError c message /\ c <> UnauthorizedError.
Proof.
  destruct f; try (intros [= <-]; eexists _, _; split; [reflexivity|discriminate]).
  apply getEmployeeStatus_throws.
Qed.

Lemma chain_throws (db : Database) (req : Request) (w : World) (err : Thrown) :
  fst (chain db req w) = Throw err ->
  exists c message, err = ApiError c message /\ c <> UnauthorizedError.
Proof.
  unfold chain, bind, Validation.validateJsonContentType, Validation.validateRequestBody,
    EmployeeController.getEmpStatus.
  assert (Hbad : forall m, exists c message,
             ApiError BadRequestError m = ApiError c message /\ c <> UnauthorizedError).
  { intros m. eexists _, _; split; [reflexivity|discriminate]. }
  destruct (String.eqb (method req) "GET").
  - cbn [ret throw].
    destruct (negb (Validator.isValid _)); [intros [= <-]; apply Hbad|].
    apply getEmployeeStatusOf_throws.
  - destruct (contentType req) as [ct|]; [|intros [= <-]; apply Hbad].
    destruct ((String.length ct =? 0)%nat || negb (Validation.includes ct "application/json"));
      [intros [= <-]; apply Hbad|].
    cbn [ret throw].
    destruct (body req) as [|keys|o] eqn:Eb; [intros [= <-]; apply Hbad| |].
    + destruct (keyCount (BPrimitive keys) =? 0)%nat; [intros [= <-]; apply Hbad|].
      cbn [ret throw]. destruct (negb (Validator.isValid _)); [intros [= <-]; apply Hbad|].
      apply getEmployeeStatusOf_throws.
    + destruct (keyCount (BObject o) =? 0)%nat; [intros [= <-]; apply Hbad|].
      cbn [ret throw]. destruct (negb (Validator.isValid _)); [intros [= <-]; apply Hbad|].
      apply getEmployeeStatusOf_throws.
Qed.

Lemma postGetEmpStatus_chain (db : Database) (development : bool) (req : Request)
    (w : World) :
  postGetEmpStatus db development req w
  = match chain db req w with
    | (Ok result, w') => (Ok {| httpStatus := 200; payload := Success result |}, w')
    | (Throw (ApiError c message), w') =>
        errorHandler development (CaughtApi c message) req w'
    | (Throw (OtherError message), w') =>
        errorHandler development (CaughtError message) req w'
    | (Throw Undefined, w') => notFoundHandler req w'
    end.
Proof. reflexivity. Qed.

Lemma errorHandler_api (development : bool) (c : ErrorClass) (message : string)
    (req : Request) (w : World) :
  exists l,
    errorHandler development (CaughtApi c message) req w
    = (Ok {| httpStatus := statusCode c;
             payload := Failure
               {| er_status := "error"; er_message := message;
                  er_statusCode := statusCode c; er_timestamp := clock w;
                  er_path := Some (path req);
                  er_stack := if development then Some (ApiError c message) else None |} |},
       mkWorld (clock w) l (slept w) (redis w) (calls w)).
Proof.
  unfold errorHandler. cbv [bind now ret].
  destruct (negb (isOperational c)); eexists; reflexivity.
Qed.

(** X24. Whatever the request, the route answers, and with one of the
    status codes 200, 400, 404, 406, 422 and 500: 200 carries a response,
    any other code carries an error body whose [statusCode] is the HTTP
    status and whose [status] is "error". *)
Theorem route_status_codes (db : Database) (development : bool) (req : Request)
    (w : World) :
  exists answer,
    fst (postGetEmpStatus db development req w) = Ok answer /\
    In (httpStatus answer) [200; 400; 404; 406; 422; 500] /\
    match payload answer with
    | Success _ => httpStatus answer = 200
    | Failure e =>
        httpStatus answer <> 200 /\ er_statusCode e = httpStatus answer /\
        er_status e = "error"%string
    end.
Proof.
  rewrite postGetEmpStatus_chain.
  destruct (chain db req w) as [[result|err] w'] eqn:Ec.
  - eexists. split; [reflexivity|]. cbn. auto.
  - assert (Hsrc : fst (chain db req w) = Throw err) by now rewrite Ec.
    destruct (chain_throws db req w err Hsrc) as (c & message & -> & Hc).
    destruct (errorHandler_api development c message req w') as (l & ->).
    eexists. split; [reflexivity|]. cbn [fst httpStatus payload er_statusCode er_status].
    destruct c; cbn; try congruence; intuition lia.
Qed.

(** X25. The body check of the controller takes [NationalNumber] when it
    is truthy and [nationalNumber] otherwise, and accepts the body exactly
    when it is an object in which the field taken is a string of valid
    format; a refusal always names its reason. *)
Theorem validateRequestBody_accepts (body : Body) :
  (Validator.isValid (Validator.validateRequestBody body) = true <->
   exists o s,
     body = BObject o /\
     fieldOr (b_NationalNumber o) (b_nationalNumber o) = FString s /\
     Validator.validateNationalNumber s = true) /\
  (Validator.isValid (Validator.validateRequestBody body) = false ->
   exists reason, Validator.error (Validator.validateRequestBody body) = Some reason) /\
  (forall o, body = BObject o -> fieldTruthy (b_NationalNumber o) = true ->
     Validator.isValid (Validator.validateRequestBody body)
     = Validator.validateNationalNumberOf (b_NationalNumber o)).
Proof.
  split; [|split].
  - destruct body as [| |o]; cbn [Validator.validateRequestBody].
    1-2: split; [discriminate|intros (o & s & [=] & _)].
    split.
    + destruct (negb (fieldTruthy (b_NationalNumber o)) && negb (fieldTruthy (b_nationalNumber o)));
        [discriminate|].
      destruct (fieldOr (b_NationalNumber o) (b_nationalNumber o)) as [| | | |s|] eqn:Ef;
        cbn [Validator.validateNationalNumberOf negb Validator.isValid]; try discriminate.
      destruct (Validator.validateNationalNumber s) eqn:Ev; [|discriminate].
      intros _. exists o, s. rewrite Ef. auto.
    + intros (o' & s & [= <-] & Ef & Ev). rewrite Ef.
      cbn [Validator.validateNationalNumberOf]. rewrite Ev. cbn [negb].
      unfold fieldOr in Ef.
      destruct (fieldTruthy (b_NationalNumber o)) eqn:E1; [reflexivity|].
      destruct (fieldTruthy (b_nationalNumber o)) eqn:E2; [reflexivity|].
      rewrite Ef in E2. cbn in E2.
      destruct s; [discriminate Ev|discriminate E2].
  - destruct body as [| |o]; cbn [Validator.validateRequestBody]; eauto.
    destruct (negb _ && negb _); [eauto|].
    destruct (negb (Validator.validateNationalNumberOf _)); [eauto|discriminate].
  - intros o -> Ht. cbn [Validator.validateRequestBody]. unfold fieldOr.
    rewrite Ht. cbn [negb andb].
    destruct (Validator.validateNationalNumberOf (b_NationalNumber o)); reflexivity.
Qed.

Lemma validateRequestBody_accepts_witness :
  Validator.isValid
    (Validator.validateRequestBody
       (BObject {| b_NationalNumber := FString "oops";
                   b_nationalNumber := FString "NAT1001"; otherKeys := 0 |}))
  = false.
Proof.
  rewrite (proj2 (proj2 (validateRequestBody_accepts _))
             {| b_NationalNumber := FString "oops";
                b_nationalNumber := FString "NAT1001"; otherKeys := 0 |}
             eq_refl eq_refl).
  reflexivity.
Defined.

(** X26. A request other than GET that does not announce JSON, or whose
    body has no key, or whose body fails the check of the controller, is
    answered 400 with the reason of the first of these that applies; the
    service is not reached, so the cache and the record store are left
    alone and nothing is slept. *)
Theorem malformed_request_refused (db : Database) (development : bool)
    (req : Request) (w : World)
    (Hpost : String.eqb (method req) "GET" = false)
    (Hbad : jsonContent req = false \/ keyCount (body req) = 0%nat \/
            Validator.isValid (Validator.validateRequestBody (body req)) = false) :
  exists l,
    postGetEmpStatus db development req w
    = (Ok (refusal development req
             (if negb (jsonContent req) then "Content-Type must be application/json"
              else if (keyCount (body req) =? 0)%nat then "Request body cannot be empty"
              else default "Bad request"
                     (Validator.error (Validator.validateRequestBody (body req))))%string
             (clock w)),
       mkWorld (clock w) l (slept w) (redis w) (calls w)).
Proof.
  rewrite postGetEmpStatus_chain.
  assert (Hrefuse : forall message,
             chain db req w = (Throw (ApiError BadRequestError message), w) ->
             exists l,
               match chain db req w with
               | (Ok result, w') =>
                   (Ok {| httpStatus := 200; payload := Success result |}, w')
               | (Throw (ApiError c message), w') =>
                   errorHandler development (CaughtApi c message) req w'
               | (Throw (OtherError message), w') =>
                   errorHandler development (CaughtError message) req w'
               | (Throw Undefined, w') => notFoundHandler req w'
               end
               = (Ok (refusal development req message (clock w)),
                  mkWorld (clock w) l (slept w) (redis w) (calls w))).
  { intros message ->.
    destruct (errorHandler_api development BadRequestError message req w) as (l & ->).
    exists l. reflexivity. }
  unfold jsonContent in *.
  assert (Hchain : chain db req w
          = match contentType req with
            | Some ct =>
                if (String.length ct =? 0)%nat
                   || negb (Validation.includes ct "application/json")
                then (Throw (ApiError BadRequestError
                               "Content-Type must be application/json"), w)
                else if (keyCount (body req) =? 0)%nat
                then (Throw (ApiError BadRequestError "Request body cannot be empty"), w)
                else EmployeeController.getEmpStatus db req w
            | None => (Throw (ApiError BadRequestError
                                "Content-Type must be application/json"), w)
            end).
  { unfold chain, bind, Validation.validateJsonContentType,
      Validation.validateRequestBody. rewrite Hpost.
    destruct (contentType req) as [ct|]; [|reflexivity].
    destruct ((String.length ct =? 0)%nat
              || negb (Validation.includes ct "application/json")); [reflexivity|].
    cbn [ret]. destruct (body req) as [|keys|o]; [reflexivity| |].
    - destruct (keyCount (BPrimitive keys) =? 0)%nat; reflexivity.
    - destruct (keyCount (BObject o) =? 0)%nat; reflexivity. }
  destruct (contentType req) as [ct|]; [|apply Hrefuse; exact Hchain].
  destruct (String.length ct =? 0)%nat; [apply Hrefuse; exact Hchain|].
  destruct (Validation.includes ct "application/json"); [|apply Hrefuse; exact Hchain].
  cbn [negb orb andb] in *.
  destruct (keyCount (body req) =? 0)%nat eqn:Ek; [apply Hrefuse; exact Hchain|].
  destruct Hbad as [Hbad|[Hbad|Hbad]]; [discriminate| |].
  { rewrite Hbad in Ek. discriminate. }
  apply Hrefuse. rewrite Hchain. unfold EmployeeController.getEmpStatus.
  rewrite Hbad. reflexivity.
Qed.

Lemma malformed_request_refused_witness :
  fst (postGetEmpStatus SampleDb.db false (SampleHttp.plainText "NAT1001") Sample.idle)
  = Ok (refusal false (SampleHttp.plainText "NAT1001")
          "Content-Type must be application/json" (clock Sample.idle)).
Proof.
  destruct (malformed_request_refused SampleDb.db false (SampleHttp.plainText "NAT1001")
              Sample.idle eq_refl (or_introl eq_refl)) as (l & ->).
  reflexivity.
Defined.

Lemma chain_wellformed (db : Database) (req : Request) (w : World)
    (nationalNumber : string) :
  String.eqb (method req) "GET" = false ->
  jsonContent req = true ->
  keyCount (body req) <> 0%nat ->
  requestedNumber (body req) = FString nationalNumber ->
  Validator.validateNationalNumber nationalNumber = true ->
  chain db req w = EmployeeService.getEmployeeStatus db nationalNumber w.
Proof.
  intros Hpost Hjson Hkeys Hnn Hvalid.
  unfold chain, bind, Validation.validateJsonContentType,
    Validation.validateRequestBody, jsonContent in *. rewrite Hpost.
  destruct (contentType req) as [ct|]; [|discriminate].
  destruct (String.length ct =? 0)%nat; [discriminate|].
  destruct (Validation.includes ct "application/json"); [|discriminate].
  cbn [negb orb ret].
  destruct (body req) as [|keys|o] eqn:Eb; try discriminate.
  apply Nat.eqb_neq in Hkeys. rewrite Hkeys. cbn [ret].
  unfold EmployeeController.getEmpStatus. rewrite Eb.
  cbn [requestedNumber Validator.validateRequestBody] in *.
  rewrite Hnn. cbn [Validator.validateNationalNumberOf]. rewrite Hvalid.
  cbn [negb]. unfold fieldOr in Hnn.
  destruct (fieldTruthy (b_NationalNumber o)) eqn:E1; cbn [negb andb].
  - reflexivity.
  - destruct (fieldTruthy (b_nationalNumber o)) eqn:E2; cbn [negb andb]; [reflexivity|].
    rewrite Hnn in E2. cbn in E2. destruct nationalNumber; discriminate.
Qed.

(** X27. A request that is well formed (not GET, JSON announced, a body
    with a key, a key of valid format in the field taken) gets the answer of
    the service for that key: 200 with the response it returns, or the
    status code and the message of the error it throws; the world is the one
    the service left, but for the log. *)
Theorem wellformed_request_answered (db : Database) (development : bool)
    (req : Request) (w : World) (nationalNumber : string)
    (Hpost : String.eqb (method req) "GET" = false)
    (Hjson : jsonContent req = true)
    (Hkeys : keyCount (body req) <> 0%nat)
    (Hnn : requestedNumber (body req) = FString nationalNumber)
    (Hvalid : Validator.validateNationalNumber nationalNumber = true) :
  let served := EmployeeService.getEmployeeStatus db nationalNumber w in
  let answered := postGetEmpStatus db development req w in
  (forall response, fst served = Ok response ->
     answered = (Ok {| httpStatus := 200; payload := Success response |}, snd served)) /\
  (forall c message, fst served = Throw (ApiError c message) ->
     exists answer e,
       fst answered = Ok answer /\ httpStatus answer = statusCode c /\
       payload answer = Failure e /\ er_message e = message /\
       er_statusCode e = statusCode c /\
       redis (snd answered) = redis (snd served) /\
       calls (snd answered) = calls (snd served)).
Proof.
  intros served answered. subst answered.
  rewrite postGetEmpStatus_chain,
    (chain_wellformed db req w nationalNumber Hpost Hjson Hkeys Hnn Hvalid).
  fold served. split.
  - intros response Hok. destruct served as [r w']. cbn in Hok. now subst r.
  - intros c message Hthrow. destruct served as [r w']. cbn in Hthrow. subst r.
    destruct (errorHandler_api development c message req w') as (l & ->).
    eexists _, _. repeat split.
Qed.

Lemma wellformed_request_answered_witness :
  exists response,
    fst (postGetEmpStatus SampleDb.db false (SampleHttp.request "NAT1001") Sample.idle)
    = Ok {| httpStatus := 200; payload := Success response |}.
Proof.
  destruct SampleDb.answered as [response|e] eqn:E; [|vm_compute in E; discriminate].
  exists response.
  rewrite (proj1 (wellformed_request_answered SampleDb.db false
                    (SampleHttp.request "NAT1001") Sample.idle "NAT1001"
                    eq_refl eq_refl ltac:(discriminate) eq_refl eq_refl)
             response E).
  reflexivity.
Defined.

End Http.

(* ------------------------------------------------------------------ *)
(** ** The token of the [Authorization] header *)

Section Jwt.

Import JWTAuth.

Lemma split_not_nil (s : string) : split s <> [].
Proof.
  destruct s as [|c s]; cbn [split]; [discriminate|].
  destruct (Ascii.eqb c " "); [discriminate|]. destruct (split s); discriminate.
Qed.

Lemma joinSpace_split (s : string) : joinSpace (split s) = s.
Proof.
  induction s as [|c s IH]; [reflexivity|]. cbn [split].
  destruct (Ascii.eqb c " ") eqn:Ec.
  - apply Ascii.eqb_eq in Ec. subst c.
    pose proof (split_not_nil s) as Hne.
    destruct (split s) as [|p ps]; [congruence|].
    change (joinSpace (EmptyString :: p :: ps))
      with (String " " (joinSpace (p :: ps))).
    now rewrite IH.
  - pose proof (split_not_nil s) as Hne.
    destruct (split s) as [|p [|q ps]]; [congruence| |].
    + cbn [joinSpace] in *. now rewrite IH.
    + change (joinSpace (String c p :: q :: ps))
        with (String c (p ++ String " " (joinSpace (q :: ps)))%string).
      change (joinSpace (p :: q :: ps))
        with (p ++ String " " (joinSpace (q :: ps)))%string in IH.
      now rewrite IH.
Qed.

Lemma split_parts_noSpace (s : string) : Forall noSpace (split s).
Proof.
  induction s as [|c s IH]; [repeat constructor; intros []|].
  cbn [split]. destruct (Ascii.eqb c " ") eqn:Ec.
  - constructor; [intros []|exact IH].
  - apply Ascii.eqb_neq in Ec.
    destruct (split s) as [|p ps].
    + repeat constructor. intros [H|[]]. congruence.
    + inversion IH as [|? ? Hp Hps]; subst. constructor; [|exact Hps].
      intros [H|H]; [congruence|]. now apply Hp.
Qed.

Lemma split_noSpace (s : string) : noSpace s -> split s = [s].
Proof.
  induction s as [|c s IH]; [reflexivity|]. intros Hs. cbn [split].
  destruct (Ascii.eqb c " ") eqn:Ec.
  - apply Ascii.eqb_eq in Ec. subst c. exfalso. apply Hs. now left.
  - rewrite IH; [reflexivity|]. intros H. apply Hs. now right.
Qed.

Lemma split_app (p t : string) :
  noSpace p -> split (p ++ String " " t)%string = p :: split t.
Proof.
  induction p as [|c p IH]; intros Hp.
  - reflexivity.
  - change (String c p ++ String " " t)%string with (String c (p ++ String " " t)%string).
    cbn [split]. destruct (Ascii.eqb c " ") eqn:Ec.
    + apply Ascii.eqb_eq in Ec. subst c. exfalso. apply Hp. now left.
    + rewrite IH; [reflexivity|]. intros H. apply Hp. now right.
Qed.

(** X28. [extractToken] gives a token exactly for a header that is not
    empty and is either the token alone or [Bearer] followed by one space
    and the token, the token having no space in it; every other header,
    and no header, gives none. *)
Theorem extractToken_forms (authHeader : option string) (token : string) :
  extractToken authHeader = Some token <->
  exists header,
    authHeader = Some header /\ header <> EmptyString /\ noSpace token /\
    (header = token \/ header = ("Bearer " ++ token)%string).
Proof.
  split.
  - destruct authHeader as [header|]; [|discriminate]. cbn [extractToken].
    destruct (String.length header =? 0)%nat eqn:El; [discriminate|].
    assert (Hne : header <> EmptyString) by (intros ->; cbn in El; discriminate).
    pose proof (joinSpace_split header) as Hjoin.
    pose proof (split_parts_noSpace header) as Hparts.
    destruct (split header) as [|p0 [|p1 [|p2 ps]]]; try discriminate.
    + intros [= <-]. exists header. cbn [joinSpace] in Hjoin.
      inversion Hparts; subst. auto.
    + destruct (String.eqb p0 "Bearer") eqn:Eb; [|discriminate].
      apply String.eqb_eq in Eb. subst p0. intros [= <-].
      exists header. inversion Hparts as [|? ? _ Hrest]; subst.
      inversion Hrest; subst. repeat split; auto.
  - intros (header & -> & Hne & Hns & [-> | ->]); cbn [extractToken].
    + destruct token; [congruence|]. cbn [String.length Nat.eqb].
      now rewrite split_noSpace.
    + change ("Bearer " ++ token)%string with ("Bearer" ++ String " " token)%string.
      rewrite split_app
        by (intros H; cbn in H; repeat (destruct H as [H|H]; [discriminate H|]); exact H).
      rewrite (split_noSpace token Hns). reflexivity.
Qed.

Lemma extractToken_forms_witness :
  extractToken (Some "Bearer abc.def.ghi"%string) = Some "abc.def.ghi"%string.
Proof.
  apply (proj2 (extractToken_forms (Some "Bearer abc.def.ghi"%string) "abc.def.ghi")).
  exists "Bearer abc.def.ghi"%string. repeat split; try discriminate.
  - intros H; cbn in H; repeat (destruct H as [H|H]; [discriminate H|]); exact H.
  - now right.
Defined.

End Jwt.
